(** * RaceIQ: the telemetry degradation and strategy inference engine

    A shallow embedding of the inferential core of the repository:

    - [RaceDataLoader._time_to_seconds], [get_fastest_lap]
                                                    (src/data_loader.py)
    - [TelemetryProcessor.get_cache_path], [normalize_lap_number],
      [parse_vehicle_id], [clean_telemetry_value], [get_default_value],
      [get_optimal_lap_telemetry], [calculate_optimal_metrics],
      [export_for_frontend]                         (src/telemetry_processor.py)
    - [TireDegradationAnalyzer.analyze_lap_degradation],
      [predict_pit_window], [analyze_sector_degradation],
      [compare_to_competitors]             (src/analysis/tire_degradation.py)
    - [RaceStrategyAnalyzer.calculate_fuel_strategy], [analyze_race_pace],
      [parse_time], [calculate_optimal_pit_strategy],
      [analyze_sector_performance], [predict_finish_time]
                                              (src/analysis/race_strategy.py)
    - [RacingLineAnalyzer.extract_racing_line], [analyze_braking_points],
      [find_coaching_opportunities], [calculate_potential_lap_time]
                                                (src/analysis/racing_line.py)

    Conventions of the embedding.

    - A finite Python/NumPy float is an exact rational [Q]; binary64 rounding
      and overflow are not modelled.  The non-finite floats are kept where the
      code tests for them or can produce them ([pyfloat]).
    - A missing cell of a pandas column (None / NaN) is [None]; column
      reductions ([min], [mean]) skip missing cells as pandas does.
    - A Python exception is a value [Raise e] of the error monad [exn];
      a bare [try: ... except: ...] is [try_except].
    - Strings are ASCII ([string]); the non-ASCII digits and spaces that
      Python also accepts in [int()] and [float()] are out of the model.
    - [sort_values] keeps rows with equal lap numbers in table order; nothing
      below depends on the order of such rows.
    - [sklearn]'s [LinearRegression] is ordinary least squares on one
      feature, and its [fit] raises on a missing target value.
    - What the code leaves to a library with no exact rational answer or no
      determined order is a parameter of the function that uses it: the
      sample standard deviation, a sort whose keys can be NaN or tie, and
      the resampler that reads the telemetry file. *)

From Stdlib Require Import ZArith QArith Qround Qabs List String Ascii Bool Lia Lqa.
From Stdlib Require Import Permutation Sorted DecimalString.
From Stdlib Require DecimalZ DecimalPos.
Import ListNotations.
Local Open Scope Z_scope.

(* ================================================================= *)
(** ** Python values, floats and exceptions *)

Module Py.

Inductive exception : Set :=
| ValueError | TypeError | AttributeError | IndexError | OverflowError.

Inductive exn (A : Type) : Type :=
| Ok (a : A)
| Raise (e : exception).
Arguments Ok {A} a.
Arguments Raise {A} e.

Definition bind {A B} (c : exn A) (k : A -> exn B) : exn B :=
  match c with
  | Ok a => k a
  | Raise e => Raise e
  end.

(** [try: c  except: h] with a bare [except], which catches everything. *)
Definition try_except {A} (c : exn A) (h : A) : A :=
  match c with
  | Ok a => a
  | Raise _ => h
  end.

(** A float: finite (exact), the two infinities, or NaN. *)
Inductive pyfloat : Set :=
| Fin (q : Q)
| PInf
| NInf
| NaN.

(** A number as Python has it: [int] or [float]. *)
Inductive num : Set :=
| Int (z : Z)
| Float (f : pyfloat).

(** The cell values the loaders hand to the parsing functions. *)
Inductive pyval : Set :=
| VNone
| VInt (z : Z)
| VFloat (f : pyfloat)
| VStr (s : string).

Definition Qltb (x y : Q) : bool := negb (Qle_bool y x).

Definition to_float (n : num) : pyfloat :=
  match n with
  | Int z => Fin (inject_Z z)
  | Float f => f
  end.

(** [a < b] on floats; every comparison with NaN is false. *)
Definition flt (a b : pyfloat) : bool :=
  match a, b with
  | NaN, _ | _, NaN => false
  | _, NInf => false
  | NInf, _ => true
  | PInf, _ => false
  | Fin _, PInf => true
  | Fin x, Fin y => Qltb x y
  end.

Definition lt (a b : num) : bool := flt (to_float a) (to_float b).

(** [min(a, b)] and [max(a, b)]: the first argument wins unless the second
    is strictly smaller (resp. larger). *)
Definition min2 (a b : num) : num := if lt b a then b else a.
Definition max2 (a b : num) : num := if lt a b then b else a.

Definition isna (f : pyfloat) : bool :=
  match f with NaN => true | _ => false end.
Definition isinf (f : pyfloat) : bool :=
  match f with PInf | NInf => true | _ => false end.

Definition fopp (a : pyfloat) : pyfloat :=
  match a with
  | Fin x => Fin (- x)
  | PInf => NInf
  | NInf => PInf
  | NaN => NaN
  end.

Definition fadd (a b : pyfloat) : pyfloat :=
  match a, b with
  | NaN, _ | _, NaN => NaN
  | PInf, NInf | NInf, PInf => NaN
  | PInf, _ | _, PInf => PInf
  | NInf, _ | _, NInf => NInf
  | Fin x, Fin y => Fin (x + y)
  end.

Definition fsub (a b : pyfloat) : pyfloat := fadd a (fopp b).

Definition fmul (a b : pyfloat) : pyfloat :=
  match a, b with
  | Fin x, Fin y => Fin (x * y)
  | NaN, _ | _, NaN => NaN
  | Fin x, i | i, Fin x =>
      if Qeq_bool x 0 then NaN else if Qltb x 0 then fopp i else i
  | PInf, PInf | NInf, NInf => PInf
  | PInf, NInf | NInf, PInf => NInf
  end.

(** [int(x)] on a finite float truncates toward zero. *)
Definition Qtrunc (q : Q) : Z := Z.quot (Qnum q) (Zpos (Qden q)).

Definition int_of_float (f : pyfloat) : exn Z :=
  match f with
  | Fin q => Ok (Qtrunc q)
  | PInf | NInf => Raise OverflowError
  | NaN => Raise ValueError
  end.

(** [round(x, ndigits)]: to the nearest multiple of [10^-ndigits], exact
    halves to the even neighbour. *)
Definition round_half_even (q : Q) : Z :=
  let f := Qfloor q in
  let d := (q - inject_Z f)%Q in
  if Qltb d (1 # 2) then f
  else if Qltb (1 # 2) d then f + 1
  else if Z.even f then f else f + 1.

Definition round (q : Q) (ndigits : nat) : Q :=
  let s := inject_Z (10 ^ Z.of_nat ndigits) in
  (inject_Z (round_half_even (q * s)) / s)%Q.

Definition fround (f : pyfloat) (ndigits : nat) : pyfloat :=
  match f with
  | Fin q => Fin (round q ndigits)
  | other => other
  end.

(** *** Text: [str.split], [int(str)], [float(str)] *)

Local Open Scope char_scope.

Definition is_space (c : ascii) : bool :=
  let n := nat_of_ascii c in
  ((9 <=? n) && (n <=? 13) || (28 <=? n) && (n <=? 32))%nat.

Definition digit_val (c : ascii) : option Z :=
  let n := nat_of_ascii c in
  if ((48 <=? n) && (n <=? 57))%nat then Some (Z.of_nat (n - 48)) else None.

Definition to_lower (c : ascii) : ascii :=
  let n := nat_of_ascii c in
  if ((65 <=? n) && (n <=? 90))%nat then ascii_of_nat (n + 32) else c.

Fixpoint lstrip (l : list ascii) : list ascii :=
  match l with
  | c :: r => if is_space c then lstrip r else l
  | [] => []
  end.

Definition strip (l : list ascii) : list ascii :=
  rev (lstrip (rev (lstrip l))).

(** [digit (["_"] digit)*] after its first digit: value so far, number of
    digits so far, and what is left. *)
Fixpoint digitpart_rest (l : list ascii) (acc : Z) (cnt : nat)
  : Z * nat * list ascii :=
  match l with
  | c :: r =>
      match digit_val c with
      | Some d => digitpart_rest r (acc * 10 + d) (S cnt)
      | None =>
          if Ascii.eqb c "_" then
            match r with
            | c' :: r' =>
                match digit_val c' with
                | Some d => digitpart_rest r' (acc * 10 + d) (S cnt)
                | None => (acc, cnt, l)
                end
            | [] => (acc, cnt, l)
            end
          else (acc, cnt, l)
      end
  | [] => (acc, cnt, [])
  end.

Definition digitpart (l : list ascii) : option (Z * nat * list ascii) :=
  match l with
  | c :: r =>
      match digit_val c with
      | Some d => Some (digitpart_rest r d 1%nat)
      | None => None
      end
  | [] => None
  end.

Definition sign (l : list ascii) : bool * list ascii :=
  match l with
  | "+" :: r => (false, r)
  | "-" :: r => (true, r)
  | _ => (false, l)
  end.

(** An optional exponent; [None] when an [e] is there and no digits follow. *)
Definition exponent (l : list ascii) : option (Z * list ascii) :=
  match l with
  | c :: r =>
      if Ascii.eqb (to_lower c) "e" then
        let '(neg, r1) := sign r in
        match digitpart r1 with
        | Some (e, _, r2) => Some (if neg then - e else e, r2)
        | None => None
        end
      else Some (0, l)
  | [] => Some (0, [])
  end.

Definition finish (m : Q) (l : list ascii) : option Q :=
  match exponent l with
  | Some (e, []) => Some (m * Qpower (inject_Z 10) e)%Q
  | _ => None
  end.

Definition fraction (f : Z) (k : nat) : Q :=
  (inject_Z f / inject_Z (10 ^ Z.of_nat k))%Q.

(** [[digitpart] "." digitpart | digitpart ["."]], then the exponent, then
    the end of the text. *)
Definition floatnumber (l : list ascii) : option Q :=
  match digitpart l with
  | Some (i, _, r) =>
      match r with
      | "." :: r1 =>
          match digitpart r1 with
          | Some (f, k, r2) => finish (inject_Z i + fraction f k) r2
          | None => finish (inject_Z i) r1
          end
      | _ => finish (inject_Z i) r
      end
  | None =>
      match l with
      | "." :: r1 =>
          match digitpart r1 with
          | Some (f, k, r2) => finish (fraction f k) r2
          | None => None
          end
      | _ => None
      end
  end.

Definition chars (s : string) : list ascii := list_ascii_of_string s.

Definition same_word (l : list ascii) (w : string) : bool :=
  String.eqb (string_of_list_ascii (map to_lower l)) w.

(** [float(s)] for a [str]. *)
Definition float_of_str (s : string) : exn pyfloat :=
  let '(neg, r) := sign (strip (chars s)) in
  if same_word r "inf" || same_word r "infinity" then
    Ok (if neg then NInf else PInf)
  else if same_word r "nan" then Ok NaN
  else
    match floatnumber r with
    | Some q => Ok (Fin (if neg then - q else q)%Q)
    | None => Raise ValueError
    end.

(** [int(s)] for a [str], base 10. *)
Definition int_of_str (s : string) : exn Z :=
  let '(neg, r) := sign (strip (chars s)) in
  match digitpart r with
  | Some (v, _, []) => Ok (if neg then - v else v)
  | _ => Raise ValueError
  end.

(** [float(value)]. *)
Definition float_of (v : pyval) : exn pyfloat :=
  match v with
  | VNone => Raise TypeError
  | VInt z => Ok (Fin (inject_Z z))
  | VFloat f => Ok f
  | VStr s => float_of_str s
  end.

(** [s.split(sep)] for a one-character separator: never an empty list. *)
Fixpoint split (sep : ascii) (s : string) : list string :=
  match s with
  | EmptyString => [EmptyString]
  | String c r =>
      if Ascii.eqb c sep then EmptyString :: split sep r
      else
        match split sep r with
        | h :: t => String c h :: t
        | [] => [String c EmptyString]
        end
  end.

(** [sep in s]. *)
Fixpoint contains (sep : ascii) (s : string) : bool :=
  match s with
  | EmptyString => false
  | String c r => Ascii.eqb c sep || contains sep r
  end.

(** [pd.isna(value)] on a scalar. *)
Definition pd_isna (v : pyval) : bool :=
  match v with
  | VNone => true
  | VFloat NaN => true
  | _ => false
  end.

(** [range(a, b)]. *)
Definition range (a b : Z) : list Z :=
  map (fun i => a + Z.of_nat i) (seq 0 (Z.to_nat (b - a))).

(** [f"{z}"] for an [int]. *)
Definition str_of_int (z : Z) : string :=
  NilZero.string_of_int (Z.to_int z).

(** [a / b] on NumPy floats: a zero divisor gives an infinity or NaN. *)
Definition fdiv (a b : pyfloat) : pyfloat :=
  match a, b with
  | NaN, _ | _, NaN => NaN
  | Fin x, Fin y =>
      if Qeq_bool y 0 then
        if Qeq_bool x 0 then NaN else if Qltb x 0 then NInf else PInf
      else Fin (x / y)
  | Fin _, _ => Fin 0
  | PInf, Fin y => if Qltb y 0 then NInf else PInf
  | NInf, Fin y => if Qltb y 0 then PInf else NInf
  | _, _ => NaN
  end.

(** [l[i]]. *)
Definition item {A} (l : list A) (i : nat) : exn A :=
  match nth_error l i with
  | Some a => Ok a
  | None => Raise IndexError
  end.

(** [sum(f(i) for i in range(n))], starting from the int [0]. *)
Definition sum_range (f : Z -> pyfloat) (n : Z) : pyfloat :=
  fold_left (fun acc i => fadd acc (f i)) (range 0 n) (Fin 0).

(** [f"{x:.1f}"]. *)
Definition format_1f (x : pyfloat) : string :=
  match x with
  | Fin q =>
      let r := round_half_even (Qabs q * 10)%Q in
      ((if Qltb q 0 then "-" else "")
         ++ str_of_int (r / 10) ++ "." ++ str_of_int (r mod 10))%string
  | PInf => "inf"%string
  | NInf => "-inf"%string
  | NaN => "nan"%string
  end.

Definition fabs (x : pyfloat) : pyfloat :=
  match x with
  | Fin q => Fin (Qabs q)
  | NaN => NaN
  | _ => PInf
  end.

(** [s.zfill(width)] for a text of digits. *)
Definition zfill (width : nat) (s : string) : string :=
  (string_of_list_ascii (repeat "0"%char (width - String.length s)) ++ s)%string.

(** [f"{x:.{ndigits}f}"]. *)
Definition format_f (ndigits : nat) (x : pyfloat) : string :=
  match x with
  | Fin q =>
      let s := 10 ^ Z.of_nat ndigits in
      let r := round_half_even (Qabs q * inject_Z s)%Q in
      ((if Qltb q 0 then "-" else "")
         ++ str_of_int (r / s) ++ "." ++ zfill ndigits (str_of_int (r mod s)))%string
  | PInf => "inf"%string
  | NInf => "-inf"%string
  | NaN => "nan"%string
  end.

(** [a // b] and [a % b] on finite floats, for a positive [b]. *)
Definition floordiv (a b : Q) : Z := Qfloor (a / b).
Definition fmod (a b : Q) : Q := (a - b * inject_Z (Qfloor (a / b)))%Q.

(** [os.path.join(a, b)] on POSIX paths. *)
Definition starts_with_slash (b : string) : bool :=
  match b with
  | String c _ => Ascii.eqb c "/"
  | EmptyString => false
  end.

Definition ends_with_slash (a : string) : bool :=
  String.eqb (substring (String.length a - 1) 1 a) "/".

Definition path_join (a b : string) : string :=
  if starts_with_slash b then b
  else if (String.length a =? 0)%nat || ends_with_slash a then (a ++ b)%string
  else (a ++ String "/" b)%string.

End Py.

Notation "x <- c ;; k" := (Py.bind c (fun x => k))
  (at level 61, c at next level, right associativity).

(* ================================================================= *)
(** ** src/telemetry_processor.py *)

Module TelemetryProcessor.
Import Py.
Local Open Scope string_scope.
Local Open Scope Z_scope.

Definition KEY_PARAMETERS : list string :=
  [ "speed"; "aps"; "ath"; "pbrake_f"; "pbrake_r"; "gear"; "nmot";
    "Steering_Angle"; "accx_can"; "accy_can";
    "VBOX_Long_Minutes"; "VBOX_Lat_Min"; "Laptrigger_lapdist_dls" ].

Definition normalize_lap_number (lap : Z) : Z :=
  if (lap =? 32768) || (lap <? 0) || (lap >? 100) then -1 else lap.

Definition defaults : list (string * Z) :=
  [ ("Speed", 0); ("speed", 0); ("aps", 0); ("ath", 0);
    ("pbrake_f", 0); ("pbrake_r", 0); ("Gear", 4); ("gear", 4);
    ("nmotor", 5000); ("nmot", 5000); ("Steering_Angle", 0);
    ("accx_can", 0); ("accy_can", 0); ("VBOX_Long_Minutes", 0);
    ("VBOX_Lat_Min", 0); ("Laptrigger_lapdist_dls", 0) ].

(** [d.get(key, dflt)]. *)
Fixpoint dict_get (d : list (string * Z)) (key : string) (dflt : Z) : Z :=
  match d with
  | (k, v) :: r => if String.eqb k key then v else dict_get r key dflt
  | [] => dflt
  end.

Definition get_default_value (param_name : string) : num :=
  Int (dict_get defaults param_name 0).

(** [param_name in [...]]. *)
Definition among (x : string) (l : list string) : bool :=
  existsb (String.eqb x) l.

Definition clip (lo hi : Z) (val : num) : num :=
  max2 (Int lo) (min2 (Int hi) val).

Definition clean_telemetry_value (value : pyval) (param_name : string) : num :=
  try_except
    (val <- float_of value ;;
     if isna val || isinf val then Ok (get_default_value param_name)
     else if among param_name ["aps"; "ath"] then Ok (clip 0 100 (Float val))
     else if among param_name ["pbrake_f"; "pbrake_r"] then
       Ok (clip 0 100 (Float val))
     else if among param_name ["Speed"; "speed"] then
       Ok (clip 0 250 (Float val))
     else if among param_name ["Gear"; "gear"] then
       (g <- int_of_float val ;; Ok (clip 0 6 (Int g)))
     else if among param_name ["nmotor"; "nmot"] then
       Ok (clip 0 8500 (Float val))
     else if String.eqb param_name "Steering_Angle" then
       Ok (clip (-540) 540 (Float val))
     else if among param_name ["accx_can"; "accy_can"] then
       Ok (clip (-3) 3 (Float val))
     else Ok (Float val))
    (get_default_value param_name).

(** [cache_dir] is the attribute [self.cache_dir]. *)
Definition get_cache_path (cache_dir track : string) (race lap : Z) : string :=
  path_join cache_dir
            (track ++ "_R" ++ str_of_int race ++ "_lap" ++ str_of_int lap
                   ++ ".csv").

(** The dict [parse_vehicle_id] returns. *)
Record VehicleId : Set := { chassis : string; car_number : string }.

Definition unknown_vehicle : VehicleId :=
  {| chassis := "unknown"; car_number := "unknown" |}.

(** [vehicle_id] is the text of the id, as the parameter is declared. *)
Definition parse_vehicle_id (vehicle_id : string) : VehicleId :=
  try_except
    (let parts := split "-"%char vehicle_id in
     if (3 <=? List.length parts)%nat then
       p1 <- item parts 1 ;;
       p2 <- item parts 2 ;;
       Ok {| chassis := p1;
             car_number := if negb (String.eqb p2 "000") then p2
                           else "unassigned" |}
     else Ok unknown_vehicle)
    unknown_vehicle.

(** The nested [parse_lap_time] of [get_optimal_lap_telemetry]; the text of
    None or of a number holds no colon, so only a [str] can have two fields. *)
Definition parse_lap_time (time_str : pyval) : pyfloat :=
  try_except
    (match time_str with
     | VStr s =>
         let parts := split ":"%char s in
         if (List.length parts =? 2)%nat then
           p0 <- item parts 0 ;;
           a <- float_of_str p0 ;;
           p1 <- item parts 1 ;;
           b <- float_of_str p1 ;;
           Ok (fadd (fmul a (Fin 60)) b)
         else float_of time_str
     | _ => float_of time_str
     end)
    (Fin 999999).

(** The first row whose key is least, scanning with the best row so far. *)
Fixpoint first_min {A} (key : A -> pyfloat) (l : list A) (best : option A)
  : option A :=
  match l with
  | [] => best
  | x :: r =>
      match best with
      | None => first_min key r (Some x)
      | Some b => if flt (key x) (key b) then first_min key r (Some x)
                  else first_min key r best
      end
  end.

Section OptimalLap.

(** The resampler, which reads the telemetry file, is taken as given. *)
Variable Frame : Type.
Variable empty_frame : Frame.
Variable process_lap_telemetry : Z -> Frame.

(** [analysis_data] is the list of (LAP_NUMBER, LAP_TIME) of the table's
    rows; the result is the pair the function returns.  The parsed times
    are also written to the table's [lap_time_seconds] column, which the
    pair does not read back. *)
Definition get_optimal_lap_telemetry (analysis_data : list (Z * pyval))
  : Frame * Z :=
  let timed := map (fun r => (fst r, parse_lap_time (snd r))) analysis_data in
  let valid_laps := filter (fun r => flt (snd r) (Fin 180)) timed in
  match first_min snd valid_laps None with
  | None => (empty_frame, -1)
  | Some fastest_lap =>
      let fastest_lap_num := fst fastest_lap in
      (process_lap_telemetry fastest_lap_num, fastest_lap_num)
  end.

End OptimalLap.

End TelemetryProcessor.


(* ================================================================= *)
(** ** The lap table and the pandas operations used on it *)

Module Pandas.
Import Py.

(** One row of the analysis table (one vehicle, one lap). *)
Record LapRow : Set := {
  NUMBER : Z;
  LAP_NUMBER : Z;
  LAP_TIME : pyval;
  lap_time_seconds : option Q;
  S1_SECONDS : option Q;
  S2_SECONDS : option Q;
  S3_SECONDS : option Q;
  KPH : option Q
}.

Record DataFrame : Set := {
  columns : list string;
  rows : list LapRow
}.

(** [df[df['NUMBER'] == vehicle_number]]. *)
Definition of_vehicle (df : DataFrame) (vehicle_number : Z) : list LapRow :=
  filter (fun r => NUMBER r =? vehicle_number) (rows df).

(** [dropna]. *)
Fixpoint dropna (col : list (option Q)) : list Q :=
  match col with
  | Some x :: r => x :: dropna r
  | None :: r => dropna r
  | [] => []
  end.

Definition Qmin (x y : Q) : Q := if Qle_bool x y then x else y.

(** [col.min()]: the least present cell, NaN when there is none. *)
Definition col_min (col : list (option Q)) : pyfloat :=
  match dropna col with
  | x :: r => Fin (fold_left Qmin r x)
  | [] => NaN
  end.

Definition Qsum (l : list Q) : Q := fold_left Qplus l 0%Q.

(** [col.mean()]: the mean of the present cells, NaN when there is none. *)
Definition col_mean (col : list (option Q)) : pyfloat :=
  match dropna col with
  | [] => NaN
  | l => Fin (Qsum l / inject_Z (Z.of_nat (List.length l)))
  end.

(** A cell minus a scalar. *)
Definition cell_sub (c : option Q) (s : pyfloat) : option Q :=
  match c, s with
  | Some x, Fin y => Some (x - y)%Q
  | _, _ => None
  end.

Definition cell_of_float (f : pyfloat) : option Q :=
  match f with
  | Fin q => Some q
  | _ => None
  end.

(** [df.tail(n)] and [df.head(n)]. *)
Definition tail {A} (n : nat) (l : list A) : list A :=
  skipn (List.length l - n) l.
Definition head {A} (n : nat) (l : list A) : list A := firstn n l.

(** [df.sort_values('LAP_NUMBER')]; rows with equal lap numbers keep their
    table order. *)
Fixpoint insert_row (x : LapRow) (l : list LapRow) : list LapRow :=
  match l with
  | y :: r =>
      if LAP_NUMBER x <=? LAP_NUMBER y then x :: l else y :: insert_row x r
  | [] => [x]
  end.

Fixpoint sort_values (l : list LapRow) : list LapRow :=
  match l with
  | x :: r => insert_row x (sort_values r)
  | [] => []
  end.

(** [col.rolling(window=3, min_periods=1).mean()]. *)
Definition rolling3_mean (col : list (option Q)) : list (option Q) :=
  map (fun i => cell_of_float (col_mean (tail 3 (firstn (S i) col))))
      (seq 0 (List.length col)).

(** [col.diff()]. *)
Definition diff (col : list (option Q)) : list (option Q) :=
  match col with
  | [] => []
  | _ :: r =>
      None :: map (fun p => match p with
                            | (Some a, Some b) => Some (b - a)%Q
                            | _ => None
                            end) (combine col r)
  end.

(** The outcome of [df.loc[col.idxmin()]]: a row, or the failure pandas ends
    in when the column has no present cell and the label is NaN. *)
Inductive located (A : Type) : Type :=
| Located (a : A)
| NoLabel.
Arguments Located {A} a.
Arguments NoLabel {A}.

(** [col.idxmin()] as a position: the first of the least present cells,
    scanning from position [i] with the best cell so far. *)
Fixpoint idxmin_from (col : list (option Q)) (i : nat) (best : option (nat * Q))
  : option (nat * Q) :=
  match col with
  | [] => best
  | None :: r => idxmin_from r (S i) best
  | Some x :: r =>
      match best with
      | None => idxmin_from r (S i) (Some (i, x))
      | Some (_, b) =>
          if Qltb x b then idxmin_from r (S i) (Some (i, x))
          else idxmin_from r (S i) best
      end
  end.

Definition idxmin (col : list (option Q)) : option nat :=
  option_map fst (idxmin_from col 0 None).

(** [df.loc[df[col].idxmin()]] on a frame with its default index. *)
Definition loc_idxmin (col : LapRow -> option Q) (laps : list LapRow)
  : located LapRow :=
  match idxmin (map col laps) with
  | Some i =>
      match nth_error laps i with
      | Some r => Located r
      | None => NoLabel
      end
  | None => NoLabel
  end.

(** [col.unique()]: the values in order of first appearance. *)
Fixpoint unique_from (seen : list Z) (col : list Z) : list Z :=
  match col with
  | [] => []
  | x :: r =>
      if existsb (Z.eqb x) seen then unique_from seen r
      else x :: unique_from (x :: seen) r
  end.

Definition unique (col : list Z) : list Z := unique_from [] col.

Definition Qmax (x y : Q) : Q := if Qle_bool x y then y else x.

(** [col.max()]: the greatest present cell, NaN when there is none. *)
Definition col_max (col : list (option Q)) : pyfloat :=
  match dropna col with
  | x :: r => Fin (fold_left Qmax r x)
  | [] => NaN
  end.

End Pandas.

(* ================================================================= *)
(** ** src/telemetry_processor.py: the processed frame *)

Module TelemetryFrame.
Import Py Pandas.
Local Open Scope string_scope.
Local Open Scope Z_scope.

(** A processed telemetry frame: its numeric columns by name, all of one
    length; a missing cell is NaN. *)
Definition Telemetry : Set := list (string * list (option Q)).

(** [telemetry.empty]: no column, or no row. *)
Definition empty (telemetry : Telemetry) : bool :=
  match telemetry with
  | [] => true
  | (_, col) :: _ => (List.length col =? 0)%nat
  end.

(** [telemetry[name]], with [None] for [name not in telemetry.columns]. *)
Fixpoint column (telemetry : Telemetry) (name : string)
  : option (list (option Q)) :=
  match telemetry with
  | [] => None
  | (n, col) :: r => if String.eqb n name then Some col else column r name
  end.

(** [col[col > 0]]. *)
Definition positive (col : list (option Q)) : list (option Q) :=
  filter (fun c => match c with Some x => Qltb 0 x | None => false end) col.

Record Metrics : Set := {
  avg_speed : pyfloat;
  max_speed : pyfloat;
  avg_throttle : pyfloat;
  avg_brake : pyfloat;
  avg_rpm : pyfloat
}.

(** The two speed entries from a speed column. *)
Definition speed_metrics (col : list (option Q)) : pyfloat * pyfloat :=
  let valid_speed := positive col in
  if (0 <? List.length valid_speed)%nat
  then (col_mean valid_speed, col_max valid_speed)
  else (Fin 140, Fin 180).

(** The rpm entry from an rpm column. *)
Definition rpm_metric (col : list (option Q)) : pyfloat :=
  let valid_rpm := positive col in
  if (0 <? List.length valid_rpm)%nat then col_mean valid_rpm else Fin 6000.

Definition calculate_optimal_metrics (telemetry : Telemetry) : Metrics :=
  if empty telemetry then
    {| avg_speed := Fin 150; max_speed := Fin 180; avg_throttle := Fin 75;
       avg_brake := Fin 20; avg_rpm := Fin 6000 |}
  else
    let speed :=
      match column telemetry "speed" with
      | Some col => speed_metrics col
      | None =>
          match column telemetry "Speed" with
          | Some col => speed_metrics col
          | None => (Fin 140, Fin 180)
          end
      end in
    let throttle :=
      match column telemetry "throttle" with
      | Some col => col_mean col
      | None =>
          match column telemetry "aps" with
          | Some col => col_mean col
          | None => Fin 75
          end
      end in
    let brake :=
      match column telemetry "brake_total" with
      | Some col => col_mean col
      | None =>
          match column telemetry "pbrake_f" with
          | Some col => col_mean col
          | None => Fin 20
          end
      end in
    let rpm :=
      match column telemetry "nmot" with
      | Some col => rpm_metric col
      | None =>
          match column telemetry "nmotor" with
          | Some col => rpm_metric col
          | None => Fin 6000
          end
      end in
    {| avg_speed := fst speed; max_speed := snd speed;
       avg_throttle := throttle; avg_brake := brake; avg_rpm := rpm |}.

(** The frame as [export_for_frontend] reads it: the text column
    [meta_time], if the frame has it, beside the numeric columns. *)
Record Frame : Set := {
  meta_time : option (list string);
  numeric : Telemetry
}.

Definition n_rows (telemetry : Frame) : nat :=
  match meta_time telemetry with
  | Some col => List.length col
  | None =>
      match numeric telemetry with
      | [] => 0%nat
      | (_, col) :: _ => List.length col
      end
  end.

Record FrontendRecord : Set := {
  timestamp : string;
  progress : pyfloat;
  speed : pyfloat;
  throttle : pyfloat;
  brake : pyfloat;
  gear : Z;
  rpm : pyfloat;
  steering : pyfloat;
  accel_x : pyfloat;
  accel_y : pyfloat
}.

(** [row.get(name, default)] on row [i] of the numeric columns: the cell,
    NaN when it is missing, or the default when there is no such column. *)
Definition row_get (telemetry : Frame) (i : nat) (name : string)
           (default : pyfloat) : pyfloat :=
  match column (numeric telemetry) name with
  | Some col =>
      match nth_error col i with
      | Some (Some q) => Fin q
      | _ => NaN
      end
  | None => default
  end.

(** The record built from row [i]; only [int()] can fail. *)
Definition frontend_record (telemetry : Frame) (i : nat) : exn FrontendRecord :=
  let get := row_get telemetry i in
  g <- int_of_float (get "gear" (get "Gear" (Fin 4))) ;;
  Ok {| timestamp :=
          match meta_time telemetry with
          | Some col => nth i col ""
          | None => ""
          end;
        progress := get "lap_progress" (Fin 0);
        speed := get "speed" (get "Speed" (Fin 0));
        throttle := get "throttle" (get "aps" (Fin 0));
        brake := get "brake_total" (get "pbrake_f" (Fin 0));
        gear := g;
        rpm := get "nmot" (get "nmotor" (Fin 5000));
        steering := get "Steering_Angle" (Fin 0);
        accel_x := get "accx_can" (Fin 0);
        accel_y := get "accy_can" (Fin 0) |}.

(** The loop over the rows: the first failure ends it. *)
Fixpoint records_of (telemetry : Frame) (indices : list nat)
  : exn (list FrontendRecord) :=
  match indices with
  | [] => Ok []
  | i :: r =>
      record <- frontend_record telemetry i ;;
      records <- records_of telemetry r ;;
      Ok (record :: records)
  end.

Definition export_for_frontend (telemetry : Frame) : exn (list FrontendRecord) :=
  if (n_rows telemetry =? 0)%nat
     || (match meta_time telemetry, numeric telemetry with
         | None, [] => true
         | _, _ => false
         end)
  then Ok []
  else records_of telemetry (seq 0 (n_rows telemetry)).

End TelemetryFrame.

(** [sklearn.linear_model.LinearRegression] on one feature: ordinary least
    squares on centred data.  [fit] refuses a missing target; a feature with
    no spread gets the minimum-norm coefficient 0. *)
Module LinearRegression.
Import Py Pandas.

Record model : Set := { coef_ : Q; intercept_ : Q }.

Definition mean (l : list Q) : Q := (Qsum l / inject_Z (Z.of_nat (List.length l)))%Q.

Definition fit (X : list Z) (y : list (option Q)) : exn model :=
  if existsb (fun c => match c with None => true | Some _ => false end) y
  then Raise ValueError
  else
    match X with
    | [] => Raise ValueError
    | _ =>
        let xs := map inject_Z X in
        let ys := dropna y in
        let xbar := mean xs in
        let ybar := mean ys in
        let sxx := Qsum (map (fun x => (x - xbar) * (x - xbar))%Q xs) in
        let sxy :=
          Qsum (map (fun p => (fst p - xbar) * (snd p - ybar))%Q
                    (combine xs ys)) in
        let coef := if Qeq_bool sxx 0 then 0%Q else (sxy / sxx)%Q in
        Ok {| coef_ := coef; intercept_ := (ybar - xbar * coef)%Q |}
    end.

Definition predict (m : model) (x : Z) : Q :=
  (inject_Z x * coef_ m + intercept_ m)%Q.

End LinearRegression.

(* ================================================================= *)
(** ** src/data_loader.py *)

Module RaceDataLoader.
Import Py Pandas.
Local Open Scope char_scope.

Definition str_split (v : pyval) (sep : ascii) : exn (list string) :=
  match v with
  | VStr s => Ok (split sep s)
  | _ => Raise AttributeError
  end.

Definition _time_to_seconds (time_str : pyval) : option pyfloat :=
  try_except
    (if pd_isna time_str then Ok None
     else
       parts <- str_split time_str ":" ;;
       if (List.length parts =? 2)%nat then
         p0 <- item parts 0 ;;
         minutes <- int_of_str p0 ;;
         p1 <- item parts 1 ;;
         seconds <- float_of_str p1 ;;
         Ok (Some (fadd (Fin (inject_Z (minutes * 60))) seconds))
       else
         x <- float_of time_str ;; Ok (Some x))
    None.

(** [df['lap_time_seconds'] = df['LAP_TIME'].apply(_time_to_seconds)]. *)
Definition with_lap_time_seconds (r : LapRow) : LapRow :=
  {| NUMBER := NUMBER r;
     LAP_NUMBER := LAP_NUMBER r;
     LAP_TIME := LAP_TIME r;
     lap_time_seconds :=
       match _time_to_seconds (LAP_TIME r) with
       | Some f => cell_of_float f
       | None => None
       end;
     S1_SECONDS := S1_SECONDS r;
     S2_SECONDS := S2_SECONDS r;
     S3_SECONDS := S3_SECONDS r;
     KPH := KPH r |}.

(** [None] is the Python None returned for a vehicle without laps. *)
Definition get_fastest_lap (analysis_df : DataFrame) (vehicle_number : Z)
  : located (option LapRow) :=
  let vehicle_laps := of_vehicle analysis_df vehicle_number in
  if (List.length vehicle_laps =? 0)%nat then Located None
  else
    match loc_idxmin lap_time_seconds vehicle_laps with
    | Located r => Located (Some r)
    | NoLabel => NoLabel
    end.

End RaceDataLoader.

(* ================================================================= *)
(** ** src/analysis/tire_degradation.py *)

Module TireDegradationAnalyzer.
Import Py Pandas.
Local Open Scope string_scope.
Local Open Scope Z_scope.

(** A row of the table [analyze_lap_degradation] returns: the lap row and
    the four columns it adds. *)
Record DegRow : Set := {
  lap : LapRow;
  lap_time_rolling : option Q;
  delta_to_best : option Q;
  lap_to_lap_delta : option Q;
  estimated_tire_life : Q
}.

Definition stint_length : Z := 15.

Definition tire_life (lap_number : Z) : Q :=
  let v := (100 - inject_Z lap_number / inject_Z stint_length * 100)%Q in
  if Qltb v 0 then 0%Q else if Qltb 100 v then 100%Q else v.

Fixpoint zip_rows (ls : list LapRow) (roll dl : list (option Q)) (best : pyfloat)
  : list DegRow :=
  match ls, roll, dl with
  | l :: ls', r :: roll', d :: dl' =>
      {| lap := l;
         lap_time_rolling := r;
         delta_to_best := cell_sub (lap_time_seconds l) best;
         lap_to_lap_delta := d;
         estimated_tire_life := tire_life (LAP_NUMBER l) |}
      :: zip_rows ls' roll' dl' best
  | _, _, _ => []
  end.

Definition analyze_lap_degradation (analysis_df : DataFrame) (vehicle_number : Z)
  : list DegRow :=
  let vehicle_laps := of_vehicle analysis_df vehicle_number in
  if (List.length vehicle_laps =? 0)%nat then []
  else
    let vehicle_laps := sort_values vehicle_laps in
    let times := map lap_time_seconds vehicle_laps in
    let best_lap_time := col_min times in
    zip_rows vehicle_laps (rolling3_mean times) (diff times) best_lap_time.

(** The dict [predict_pit_window] returns; an absent key is [None]. *)
Record PitDecision : Set := {
  pit_lap : option Z;
  laps_remaining : option Z;
  degradation_rate : option Q;
  current_delta : option Q;
  confidence : Z;
  message : string
}.

Definition insufficient_data : PitDecision :=
  {| pit_lap := None; laps_remaining := None; degradation_rate := None;
     current_delta := None; confidence := 0; message := "Insufficient data" |}.

(** The laps the regression is fitted on. *)
Definition recent_window (vehicle_laps : list DegRow) (current_lap : Z)
  : list DegRow :=
  let recent_laps :=
    filter (fun r => current_lap - 5 <=? LAP_NUMBER (lap r)) vehicle_laps in
  if (List.length recent_laps <? 3)%nat then tail 5 vehicle_laps else recent_laps.

Definition fit_recent (recent_laps : list DegRow) : exn LinearRegression.model :=
  LinearRegression.fit (map (fun r => LAP_NUMBER (lap r)) recent_laps)
                       (map delta_to_best recent_laps).

Definition threshold : Q := 15 # 10.

Definition predict_pit_window (analysis_df : DataFrame) (vehicle_number : Z)
           (current_lap total_laps : Z) : exn PitDecision :=
  let vehicle_laps := analyze_lap_degradation analysis_df vehicle_number in
  if (List.length vehicle_laps <? 5)%nat then Ok insufficient_data
  else
    let recent_laps := recent_window vehicle_laps current_lap in
    model <- fit_recent recent_laps ;;
    let rate := LinearRegression.coef_ model in
    let cur_delta := LinearRegression.predict model current_lap in
    if Qltb (1 # 100) rate then
      let laps_until_threshold := ((threshold - cur_delta) / rate)%Q in
      let pit := Qtrunc (inject_Z current_lap + laps_until_threshold) in
      let pit := Z.max (current_lap + 1) (Z.min pit (total_laps - 2)) in
      let conf := Z.min 100 (Z.of_nat (List.length recent_laps) * 20) in
      Ok {| pit_lap := Some pit;
            laps_remaining := Some (Qtrunc laps_until_threshold);
            degradation_rate := Some (round rate 3);
            current_delta := Some (round cur_delta 3);
            confidence := conf;
            message := "Pit recommended in "
                         ++ str_of_int (Qtrunc laps_until_threshold)
                         ++ " laps" |}
    else
      Ok {| pit_lap := Some (total_laps - 1);
            laps_remaining := Some (total_laps - current_lap);
            degradation_rate := Some (round rate 3);
            current_delta := None;
            confidence := 50;
            message := "Tires stable, can extend stint" |}.

Record SectorDegradation : Set := {
  early_avg : pyfloat;
  late_avg : pyfloat;
  delta : pyfloat;
  percent_change : pyfloat
}.

(** The sector columns, in the order the loop visits them. *)
Definition sectors : list (string * (LapRow -> option Q)) :=
  [ ("S1_SECONDS", S1_SECONDS); ("S2_SECONDS", S2_SECONDS);
    ("S3_SECONDS", S3_SECONDS) ].

(** The returned dict, as the list of its items in insertion order. *)
Definition analyze_sector_degradation (analysis_df : DataFrame)
           (vehicle_number : Z) : list (string * SectorDegradation) :=
  let vehicle_laps := of_vehicle analysis_df vehicle_number in
  if (List.length vehicle_laps <? 5)%nat then []
  else
    flat_map
      (fun sector =>
         if existsb (String.eqb (fst sector)) (columns analysis_df) then
           let early_laps := col_mean (map (snd sector) (head 3 vehicle_laps)) in
           let late_laps := col_mean (map (snd sector) (tail 3 vehicle_laps)) in
           [(fst sector,
             {| early_avg := fround early_laps 3;
                late_avg := fround late_laps 3;
                delta := fround (fsub late_laps early_laps) 3;
                percent_change :=
                  fround (fmul (fdiv (fsub late_laps early_laps) early_laps)
                               (Fin 100)) 2 |})]
         else [])
      sectors.

Record Comparison : Set := {
  vehicle_number : Z;
  degradation : pyfloat;
  recent_avg_lap : pyfloat
}.

(** The entry appended for one competitor, if it gets one. *)
Definition comparison (analysis_df : DataFrame) (current_lap competitor : Z)
  : list Comparison :=
  let comp_laps :=
    filter (fun r => (NUMBER r =? competitor) && (LAP_NUMBER r <=? current_lap))
           (rows analysis_df) in
  if (List.length comp_laps <? 3)%nat then []
  else
    let comp_laps := sort_values comp_laps in
    let best_lap := col_min (map lap_time_seconds comp_laps) in
    let recent_avg := col_mean (map lap_time_seconds (tail 3 comp_laps)) in
    let degradation := fsub recent_avg best_lap in
    [{| vehicle_number := competitor;
        degradation := fround degradation 3;
        recent_avg_lap := fround recent_avg 3 |}].

Section Competitors.

(** [comparisons.sort(key=lambda x: x['degradation'])] is taken as given:
    where a key is NaN the order Python leaves the list in is not an order
    by key. *)
Variable sort_by_degradation : list Comparison -> list Comparison.

Definition compare_to_competitors (analysis_df : DataFrame)
           (vehicle_number current_lap : Z) : list Comparison :=
  let all_vehicles := unique (map NUMBER (rows analysis_df)) in
  let comparisons :=
    flat_map (fun competitor =>
                if competitor =? vehicle_number then []
                else comparison analysis_df current_lap competitor)
             all_vehicles in
  sort_by_degradation comparisons.

End Competitors.

End TireDegradationAnalyzer.

(* ================================================================= *)
(** ** src/analysis/race_strategy.py *)

Module RaceStrategyAnalyzer.
Import Py Pandas.
Local Open Scope string_scope.
Local Open Scope Z_scope.

(** A returned dict is either [{'error': msg}] or the populated record. *)
Inductive reply (A : Type) : Type :=
| Error (error : string)
| Dict (d : A).
Arguments Error {A} error.
Arguments Dict {A} d.

Definition fuel_consumption_rate : Q := 8 # 100.
Definition tank_capacity : Q := 50.
Definition pit_stop_time : Q := 45.

Record FuelStrategy : Set := {
  needs_pit : bool;
  recommended_pit_lap : option Z;
  laps_on_current_fuel : Z;
  current_fuel_liters : pyfloat;
  fuel_to_add_liters : option pyfloat;
  consumption_per_lap : pyfloat;
  fuel_message : string
}.

(** [min(a, b)] on two floats. *)
Definition fmin2 (a b : pyfloat) : pyfloat := if flt b a then b else a.

(** The per-lap consumption adjusted by the vehicle's average speed. *)
Definition adjusted_consumption (analysis_df : DataFrame) (vehicle_laps : list LapRow)
  : pyfloat :=
  let avg_speed :=
    if existsb (String.eqb "KPH") (columns analysis_df)
    then col_mean (map KPH vehicle_laps)
    else Fin 120 in
  let speed_factor := fdiv avg_speed (Fin 120) in
  fmul (Fin fuel_consumption_rate) speed_factor.

Definition calculate_fuel_strategy (analysis_df : DataFrame) (vehicle_number : Z)
           (current_lap total_laps : Z) (current_fuel : option Q)
  : exn (reply FuelStrategy) :=
  let vehicle_laps := of_vehicle analysis_df vehicle_number in
  if (List.length vehicle_laps =? 0)%nat then Ok (Error "No data for vehicle")
  else
    let adjusted := adjusted_consumption analysis_df vehicle_laps in
    let fuel :=
      match current_fuel with
      | Some f => Fin f
      | None =>
          let laps_completed := current_lap in
          let fuel_used := fmul (Fin (inject_Z laps_completed)) adjusted in
          fsub (Fin tank_capacity) fuel_used
      end in
    laps_on_fuel <- int_of_float (fdiv fuel adjusted) ;;
    let laps_remaining := total_laps - current_lap in
    let needs := laps_on_fuel <? laps_remaining in
    if needs then
      let pit_lap := current_lap + Z.max 1 (laps_on_fuel - 2) in
      let fuel_to_add :=
        fmin2 (fsub (Fin tank_capacity) fuel)
              (fmul (Fin (inject_Z (total_laps - pit_lap))) adjusted) in
      Ok (Dict {| needs_pit := true;
                  recommended_pit_lap := Some pit_lap;
                  laps_on_current_fuel := laps_on_fuel;
                  current_fuel_liters := fround fuel 2;
                  fuel_to_add_liters := Some (fround fuel_to_add 2);
                  consumption_per_lap := fround adjusted 3;
                  fuel_message :=
                    "Pit stop required at lap " ++ str_of_int pit_lap
                      ++ ". Add " ++ format_1f fuel_to_add ++ "L fuel." |})
    else
      Ok (Dict {| needs_pit := false;
                  recommended_pit_lap := None;
                  laps_on_current_fuel := laps_on_fuel;
                  current_fuel_liters := fround fuel 2;
                  fuel_to_add_liters := None;
                  consumption_per_lap := fround adjusted 3;
                  fuel_message :=
                    "Sufficient fuel to finish race. No pit stop required." |}).

(** [':' in str(t)]: only the text of a [str] can hold a colon. *)
Definition has_colon (t : pyval) : bool :=
  match t with
  | VStr s => contains ":"%char s
  | _ => false
  end.

(** [str(t).split(':')], used under [has_colon] only. *)
Definition str_parts (t : pyval) : list string :=
  match t with
  | VStr s => split ":"%char s
  | _ => []
  end.

(** The nested [parse_time] of [analyze_race_pace],
    [calculate_optimal_pit_strategy] and [predict_finish_time]. *)
Definition parse_time (t : pyval) : option pyfloat :=
  try_except
    (if has_colon t then
       let parts := str_parts t in
       p0 <- item parts 0 ;;
       a <- float_of_str p0 ;;
       p1 <- item parts 1 ;;
       b <- float_of_str p1 ;;
       Ok (Some (fadd (fmul a (Fin 60)) b))
     else
       x <- float_of t ;; Ok (Some x))
    None.

(** [vehicle_laps['LAP_TIME'].apply(parse_time)] followed by
    [dropna(subset=['lap_seconds'])]: the column that is left. *)
Definition lap_seconds (vehicle_laps : list LapRow) : list pyfloat :=
  flat_map (fun r => match parse_time (LAP_TIME r) with
                     | None | Some NaN => []
                     | Some f => [f]
                     end) vehicle_laps.

Definition fmean (l : list pyfloat) : pyfloat :=
  fdiv (fold_left fadd l (Fin 0)) (Fin (inject_Z (Z.of_nat (List.length l)))).

(** The degradation rate the search runs with. *)
Definition effective_rate (secs : list pyfloat) (tire_deg_rate : pyfloat) : pyfloat :=
  if (10 <=? List.length secs)%nat then
    let early_pace := fmean (head 5 secs) in
    let late_pace := fmean (tail 5 secs) in
    let actual_deg_rate :=
      fdiv (fsub late_pace early_pace)
           (Fin (inject_Z (Z.of_nat (List.length secs)))) in
    if flt actual_deg_rate (Fin (1 # 100)) then Fin (1 # 100) else actual_deg_rate
  else tire_deg_rate.

(** [sum(tire_deg_rate * i for i in range(n))]. *)
Definition degradation_cost (rate : pyfloat) (n : Z) : pyfloat :=
  sum_range (fun i => fmul rate (Fin (inject_Z i))) n.

(** [sum(tire_deg_rate * i * 0.3 for i in range(n))]. *)
Definition fresh_tire_cost (rate : pyfloat) (n : Z) : pyfloat :=
  sum_range (fun i => fmul (fmul rate (Fin (inject_Z i))) (Fin (3 # 10))) n.

(** The body of the search loop for one candidate. *)
Definition total_time_lost (rate : pyfloat) (current_lap total_laps pit_lap : Z)
  : pyfloat :=
  let laps_before_pit := pit_lap - current_lap in
  let time_lost_before := degradation_cost rate laps_before_pit in
  let pit_time := Fin pit_stop_time in
  let laps_after_pit := total_laps - pit_lap in
  let time_lost_after := fresh_tire_cost rate laps_after_pit in
  fadd (fadd time_lost_before pit_time) time_lost_after.

(** One iteration on the pair (best_pit_lap, min_total_time_lost). *)
Definition search_step (rate : pyfloat) (current_lap total_laps : Z)
           (st : Z * pyfloat) (pit_lap : Z) : Z * pyfloat :=
  let t := total_time_lost rate current_lap total_laps pit_lap in
  if flt t (snd st) then (pit_lap, t) else st.

Definition search (rate : pyfloat) (current_lap total_laps : Z) : Z * pyfloat :=
  fold_left (search_step rate current_lap total_laps)
            (range (current_lap + 1) (total_laps - 2))
            (current_lap + 1, PInf).

Record PitStrategy : Set := {
  should_pit : bool;
  optimal_pit_lap : Z;
  laps_until_pit : Z;
  time_saved_seconds : pyfloat;
  degradation_rate : pyfloat;
  time_lost_no_pit : pyfloat;
  time_lost_with_pit : pyfloat;
  message : string
}.

Definition calculate_optimal_pit_strategy (analysis_df : DataFrame)
           (vehicle_number : Z) (current_lap total_laps : Z)
           (tire_deg_rate : pyfloat) : reply PitStrategy :=
  let vehicle_laps := of_vehicle analysis_df vehicle_number in
  if (List.length vehicle_laps <? 5)%nat then Error "Insufficient data"
  else
    let secs := lap_seconds vehicle_laps in
    let rate := effective_rate secs tire_deg_rate in
    let laps_remaining := total_laps - current_lap in
    let no_pit := degradation_cost rate laps_remaining in
    let '(best_pit_lap, min_total_time_lost) :=
      search rate current_lap total_laps in
    let time_saved := fsub no_pit min_total_time_lost in
    let pit := flt (Fin 5) time_saved in
    Dict {| should_pit := pit;
            optimal_pit_lap := best_pit_lap;
            laps_until_pit := best_pit_lap - current_lap;
            time_saved_seconds := fround time_saved 2;
            degradation_rate := fround rate 4;
            time_lost_no_pit := fround no_pit 2;
            time_lost_with_pit := fround min_total_time_lost 2;
            message :=
              (if pit then "Pit" else "Stay out") ++ " - "
                ++ (if pit then "saves" else "costs") ++ " "
                ++ format_1f (fabs time_saved) ++ "s" |}.

(** The rows of a vehicle up to a lap, in table order. *)
Definition laps_until (analysis_df : DataFrame) (vehicle_number current_lap : Z)
  : list LapRow :=
  filter (fun r => (NUMBER r =? vehicle_number) && (LAP_NUMBER r <=? current_lap))
         (rows analysis_df).

(** [col.min()] on a column without NaN. *)
Definition fmin_list (l : list pyfloat) : pyfloat :=
  match l with
  | [] => NaN
  | x :: r => fold_left fmin2 r x
  end.

(** [LinearRegression().fit(np.arange(len(y)), y).coef_[0]]: scikit-learn
    refuses a target that holds an infinity. *)
Definition fit_trend (y : list pyfloat) : exn Q :=
  m <- LinearRegression.fit (range 0 (Z.of_nat (List.length y)))
                            (map cell_of_float y) ;;
  Ok (LinearRegression.coef_ m).

Record RacePace : Set := {
  current_pace : pyfloat;
  best_lap : pyfloat;
  pace_delta : pyfloat;
  consistency_std : pyfloat;
  trend_per_lap : Q;
  pace_position : Z;
  total_competitors : Z;
  is_improving : bool;
  is_degrading : bool;
  is_consistent : bool
}.

(** The entry of [competitor_paces] for one competitor, if it gets one. *)
Definition competitor_pace (analysis_df : DataFrame) (current_lap comp : Z)
  : list (Z * pyfloat) :=
  let comp_laps := tail 5 (laps_until analysis_df comp current_lap) in
  if (0 <? List.length comp_laps)%nat then
    let secs := lap_seconds comp_laps in
    if (0 <? List.length secs)%nat then [(comp, fmean secs)] else []
  else [].

(** The list [competitor_paces] before it is sorted; the sort does not
    change what is counted in it. *)
Definition competitor_paces (analysis_df : DataFrame)
           (vehicle_number current_lap : Z) : list (Z * pyfloat) :=
  flat_map (fun comp =>
              if comp =? vehicle_number then []
              else competitor_pace analysis_df current_lap comp)
           (unique (map NUMBER (rows analysis_df))).

Record FinishPrediction : Set := {
  predicted_finish_time : string;
  predicted_finish_seconds : pyfloat;
  time_elapsed : pyfloat;
  time_remaining : pyfloat;
  laps_remaining : Z;
  predicted_avg_lap : num
}.

(** [f"{hours}:{minutes:02d}:{seconds:05.2f}"] of a finite race time; the
    conversion to [int] fails on an infinite or undefined one. *)
Definition finish_clock (total_race_time : pyfloat) : exn string :=
  match total_race_time with
  | Fin t =>
      let hours := floordiv t 3600 in
      let minutes := floordiv (fmod t 3600) 60 in
      let seconds := fmod t 60 in
      Ok (str_of_int hours ++ ":" ++ zfill 2 (str_of_int minutes) ++ ":"
            ++ zfill 5 (format_f 2 (Fin seconds)))
  | _ => Raise ValueError
  end.

Section RacePaceAnalysis.

(** [Series.std()], the sample standard deviation, is taken as given: it is
    not a rational number in general. *)
Variable std : list pyfloat -> pyfloat.

(** The trend is the float slope, or the int [0] for fewer than three
    recent laps; both are the number [trend_per_lap]. *)
Definition analyze_race_pace (analysis_df : DataFrame)
           (vehicle_number current_lap : Z) : exn (reply RacePace) :=
  let vehicle_laps := laps_until analysis_df vehicle_number current_lap in
  if (List.length vehicle_laps <? 3)%nat then Ok (Error "Insufficient data")
  else
    let secs := lap_seconds vehicle_laps in
    if (List.length secs =? 0)%nat then Ok (Error "No valid lap times")
    else
      let recent_laps := tail 5 secs in
      if (List.length recent_laps =? 0)%nat then Ok (Error "No valid lap times")
      else
        let pace := fmean recent_laps in
        let best := fmin_list secs in
        let delta := fsub pace best in
        let consistency := std recent_laps in
        trend <- (if (3 <=? List.length recent_laps)%nat
                  then fit_trend recent_laps else Ok 0%Q) ;;
        let paces := competitor_paces analysis_df vehicle_number current_lap in
        let position :=
          fold_left (fun pos comp => if flt (snd comp) pace then pos + 1 else pos)
                    paces 1 in
        Ok (Dict {| current_pace := fround pace 3;
                    best_lap := fround best 3;
                    pace_delta := fround delta 3;
                    consistency_std := fround consistency 3;
                    trend_per_lap := round trend 4;
                    pace_position := position;
                    total_competitors := Z.of_nat (List.length paces) + 1;
                    is_improving := Qltb trend (- (1 # 100));
                    is_degrading := Qltb (1 # 100) trend;
                    is_consistent := flt consistency (Fin (1 # 2)) |}).

Definition predict_finish_time (analysis_df : DataFrame)
           (vehicle_number current_lap total_laps : Z)
  : exn (reply FinishPrediction) :=
  pace_analysis <- analyze_race_pace analysis_df vehicle_number current_lap ;;
  match pace_analysis with
  | Error e => Ok (Error e)
  | Dict pace_analysis =>
      let vehicle_laps := laps_until analysis_df vehicle_number current_lap in
      let elapsed := fold_left fadd (lap_seconds vehicle_laps) (Fin 0) in
      let laps_remaining := total_laps - current_lap in
      let pace := current_pace pace_analysis in
      let trend := trend_per_lap pace_analysis in
      let predicted_remaining_time :=
        sum_range (fun i => fadd pace (fmul (Fin trend) (Fin (inject_Z i))))
                  laps_remaining in
      let total_race_time := fadd elapsed predicted_remaining_time in
      clock <- finish_clock total_race_time ;;
      Ok (Dict {| predicted_finish_time := clock;
                  predicted_finish_seconds := fround total_race_time 2;
                  time_elapsed := fround elapsed 2;
                  time_remaining := fround predicted_remaining_time 2;
                  laps_remaining := laps_remaining;
                  predicted_avg_lap :=
                    if 0 <? laps_remaining then
                      Float (fround (fdiv predicted_remaining_time
                                          (Fin (inject_Z laps_remaining))) 3)
                    else Int 0 |})
  end.

End RacePaceAnalysis.

Record SectorStats : Set := {
  best : Q;
  worst : Q;
  average : Q;
  current : option Q;
  consistency : pyfloat;
  vs_field : option Q
}.

Record SectorPerformance : Set := {
  sector_stats : list (string * SectorStats);
  strongest_sector : option string;
  weakest_sector : option string
}.

(** What reading a key of a dict gives: the value, or the failure on a
    missing key. *)
Inductive keyed (A : Type) : Type :=
| Found (a : A)
| MissingKey.
Arguments Found {A} a.
Arguments MissingKey {A}.

(** The sector columns, in the order the loops visit them. *)
Definition sector_names : list (string * (LapRow -> option Q)) :=
  [ ("S1_SECONDS", S1_SECONDS); ("S2_SECONDS", S2_SECONDS);
    ("S3_SECONDS", S3_SECONDS) ].

(** [field_sectors.get(name)]. *)
Fixpoint field_average (field_sectors : list (string * Q)) (name : string)
  : option Q :=
  match field_sectors with
  | [] => None
  | (n, f) :: r => if String.eqb n name then Some f else field_average r name
  end.

(** The keys [x[1]['vs_field']] of the items, in order; reading the key of
    an entry without it fails. *)
Fixpoint vs_field_keys (items : list (string * SectorStats))
  : keyed (list (string * Q)) :=
  match items with
  | [] => Found []
  | (name, st) :: r =>
      match vs_field st with
      | None => MissingKey
      | Some k =>
          match vs_field_keys r with
          | Found ks => Found ((name, k) :: ks)
          | MissingKey => MissingKey
          end
      end
  end.

(** [min(items, key=...)] and [max(items, key=...)]: the first item with
    the least (greatest) key. *)
Fixpoint first_least (chosen : string * Q) (l : list (string * Q))
  : string * Q :=
  match l with
  | [] => chosen
  | x :: r => if Qltb (snd x) (snd chosen) then first_least x r
              else first_least chosen r
  end.

Fixpoint first_greatest (chosen : string * Q) (l : list (string * Q))
  : string * Q :=
  match l with
  | [] => chosen
  | x :: r => if Qltb (snd chosen) (snd x) then first_greatest x r
              else first_greatest chosen r
  end.

Section SectorPerformanceAnalysis.

(** [Series.std()] of a sector column is taken as given. *)
Variable std : list Q -> pyfloat.

Definition analyze_sector_performance (analysis_df : DataFrame)
           (vehicle_number current_lap : Z) : keyed (reply SectorPerformance) :=
  let vehicle_laps := laps_until analysis_df vehicle_number current_lap in
  if (List.length vehicle_laps <? 3)%nat then Found (Error "Insufficient data")
  else
    let sectors :=
      flat_map
        (fun sector =>
           if existsb (String.eqb (fst sector)) (columns analysis_df) then
             match dropna (map (snd sector) vehicle_laps) with
             | [] => []
             | x :: r =>
                 let sector_data := x :: r in
                 [(fst sector,
                   {| best := fold_left Qmin r x;
                      worst := fold_left Qmax r x;
                      average :=
                        Qsum sector_data
                        / inject_Z (Z.of_nat (List.length sector_data));
                      current := last (map (snd sector) vehicle_laps) None;
                      consistency := std sector_data;
                      vs_field := None |})]
             end
           else [])
        sector_names in
    let all_vehicles :=
      filter (fun r => LAP_NUMBER r <=? current_lap) (rows analysis_df) in
    let field_sectors :=
      flat_map
        (fun sector =>
           if existsb (String.eqb (fst sector)) (columns analysis_df) then
             match dropna (map (snd sector) all_vehicles) with
             | [] => []
             | field_data =>
                 [(fst sector,
                   (Qsum field_data
                    / inject_Z (Z.of_nat (List.length field_data)))%Q)]
             end
           else [])
        sector_names in
    let sectors :=
      map (fun item =>
             match field_average field_sectors (fst item) with
             | Some f =>
                 (fst item,
                  {| best := best (snd item);
                     worst := worst (snd item);
                     average := average (snd item);
                     current := current (snd item);
                     consistency := consistency (snd item);
                     vs_field := Some (round (average (snd item) - f) 3) |})
             | None => item
             end)
          sectors in
    match vs_field_keys sectors with
    | MissingKey => MissingKey
    | Found [] =>
        Found (Dict {| sector_stats := sectors;
                       strongest_sector := None;
                       weakest_sector := None |})
    | Found (k :: ks) =>
        Found (Dict {| sector_stats := sectors;
                       strongest_sector := Some (fst (first_least k ks));
                       weakest_sector := Some (fst (first_greatest k ks)) |})
    end.

End SectorPerformanceAnalysis.

End RaceStrategyAnalyzer.

(* ================================================================= *)
(** ** src/analysis/racing_line.py *)

Module RacingLineAnalyzer.
Import Py Pandas.

Record PotentialLap : Set := {
  theoretical_best : pyfloat;
  actual_best : pyfloat;
  improvement_potential : pyfloat;
  best_s1 : pyfloat;
  best_s2 : pyfloat;
  best_s3 : pyfloat
}.

(** [None] is the empty dict returned for a vehicle without laps. *)
Definition calculate_potential_lap_time (analysis_df : DataFrame)
           (vehicle_number : Z) : option PotentialLap :=
  let vehicle_laps := of_vehicle analysis_df vehicle_number in
  if (List.length vehicle_laps =? 0)%nat then None
  else
    let s1 := col_min (map S1_SECONDS vehicle_laps) in
    let s2 := col_min (map S2_SECONDS vehicle_laps) in
    let s3 := col_min (map S3_SECONDS vehicle_laps) in
    let theoretical := fadd (fadd s1 s2) s3 in
    let actual := col_min (map lap_time_seconds vehicle_laps) in
    let improvement := fsub actual theoretical in
    Some {| theoretical_best := fround theoretical 3;
            actual_best := fround actual 3;
            improvement_potential := fround improvement 3;
            best_s1 := fround s1 3;
            best_s2 := fround s2 3;
            best_s3 := fround s3 3 |}.

(** The lap handed to [find_coaching_opportunities]: a pandas Series, with
    the labels it has. *)
Record Series : Set := {
  index : list string;
  values : LapRow
}.

Record Opportunity : Set := {
  sector : string;
  time_loss : Q;
  message : string;
  suggestion : string
}.

(** A cell minus a cell. *)
Definition cell_minus (a b : option Q) : option Q :=
  match a, b with
  | Some x, Some y => Some (x - y)%Q
  | _, _ => None
  end.

(** [delta > 0.1], false on a missing delta. *)
Definition loses_time (delta : option Q) : bool :=
  match delta with
  | Some d => Qltb (1 # 10) d
  | None => false
  end.

(** The dict appended for a sector. *)
Definition opportunity (name label advice : string) (delta : option Q)
  : Opportunity :=
  let d := match delta with Some d => d | None => 0%Q end in
  {| sector := name;
     time_loss := round d 3;
     message := (label ++ ": " ++ format_f 3 (Fin d)
                   ++ "s slower than your best")%string;
     suggestion := advice |}.

(** [opportunities.sort(key=time_loss, reverse=True)]: descending, equal
    keys in their order of insertion. *)
Fixpoint insert_opportunity (x : Opportunity) (l : list Opportunity)
  : list Opportunity :=
  match l with
  | y :: r =>
      if Qle_bool (time_loss y) (time_loss x) then x :: l
      else y :: insert_opportunity x r
  | [] => [x]
  end.

Fixpoint sort_opportunities (l : list Opportunity) : list Opportunity :=
  match l with
  | x :: r => insert_opportunity x (sort_opportunities r)
  | [] => []
  end.

Definition has_label (s : Series) (label : string) : bool :=
  existsb (String.eqb label) (index s).

Definition find_coaching_opportunities (analysis_df : DataFrame)
           (vehicle_number : Z) (current_lap_data : Series)
  : located (list Opportunity) :=
  let vehicle_laps := of_vehicle analysis_df vehicle_number in
  if (List.length vehicle_laps =? 0)%nat then Located []
  else
    match loc_idxmin lap_time_seconds vehicle_laps with
    | NoLabel => NoLabel
    | Located best_lap =>
        let cur := values current_lap_data in
        let s1 :=
          if has_label current_lap_data "S1_SECONDS" then
            let s1_delta := cell_minus (S1_SECONDS cur) (S1_SECONDS best_lap) in
            if loses_time s1_delta then
              [opportunity "S1" "Sector 1"
                 "Focus on entry speed and early apex in Turn 1-3" s1_delta]
            else []
          else [] in
        let s2 :=
          if has_label current_lap_data "S2_SECONDS" then
            let s2_delta := cell_minus (S2_SECONDS cur) (S2_SECONDS best_lap) in
            if loses_time s2_delta then
              [opportunity "S2" "Sector 2"
                 "Check mid-corner speed and throttle application" s2_delta]
            else []
          else [] in
        let s3 :=
          if has_label current_lap_data "S3_SECONDS" then
            let s3_delta := cell_minus (S3_SECONDS cur) (S3_SECONDS best_lap) in
            if loses_time s3_delta then
              [opportunity "S3" "Sector 3"
                 "Maximize exit speed for main straight" s3_delta]
            else []
          else [] in
        Located (sort_opportunities (s1 ++ s2 ++ s3))
    end.

(** One row of the wide telemetry table. *)
Record Sample : Set := {
  vehicle_id : string;
  lap : Z;
  Laptrigger_lapdist_dls : option Q;
  pbrake_f : option Q;
  Speed : option Q;
  accx_can : option Q
}.

Record TelemetryTable : Set := {
  telemetry_columns : list string;
  samples : list Sample
}.

Definition has_column (telemetry_df : TelemetryTable) (name : string) : bool :=
  existsb (String.eqb name) (telemetry_columns telemetry_df).

Record BrakingZone : Set := {
  start_distance : option (option Q);
  entry_speed : option Q;
  exit_speed : option Q;
  max_brake_pressure : pyfloat;
  max_decel_g : option pyfloat;
  duration_points : Z
}.

(** [pbrake_f > braking_threshold], false on a missing pressure. *)
Definition is_braking (s : Sample) : bool :=
  match pbrake_f s with
  | Some p => Qltb 10 p
  | None => false
  end.

(** The zone appended for the start at the head of [from], which is
    [lap_data.loc[idx:]]: its braking samples are the zone's data. *)
Definition braking_zone (telemetry_df : TelemetryTable) (zone_start : Sample)
           (from : list Sample) : list BrakingZone :=
  let zone_data := filter is_braking from in
  match rev zone_data with
  | [] => []
  | zone_end :: _ =>
      [{| start_distance :=
            if has_column telemetry_df "Laptrigger_lapdist_dls"
            then Some (Laptrigger_lapdist_dls zone_start) else None;
          entry_speed := Speed zone_start;
          exit_speed := Speed zone_end;
          max_brake_pressure := col_max (map pbrake_f zone_data);
          max_decel_g :=
            if has_column telemetry_df "accx_can"
            then Some (col_min (map accx_can zone_data)) else None;
          duration_points := Z.of_nat (List.length zone_data) |}]
  end.

(** The loop over the zone starts: a sample starts a zone when it brakes and
    the sample before it ([previous], false before the first) does not. *)
Fixpoint braking_zones (telemetry_df : TelemetryTable) (previous : bool)
         (lap_data : list Sample) : list BrakingZone :=
  match lap_data with
  | [] => []
  | s :: r =>
      ((if negb previous && is_braking s
        then braking_zone telemetry_df s lap_data else [])
         ++ braking_zones telemetry_df (is_braking s) r)%list
  end.

Section RacingLines.

(** [sort_values('Laptrigger_lapdist_dls')] is taken as given: pandas sorts
    with an unstable algorithm by default, so the order of samples at one
    distance is not determined. *)
Variable sort_by_distance : list Sample -> list Sample.

(** The rows of the frame [extract_racing_line] returns. *)
Definition extract_racing_line (telemetry_df : TelemetryTable)
           (vehicle : string) (lap_num : Z) : list Sample :=
  let lap_data :=
    filter (fun s => String.eqb (vehicle_id s) vehicle && (lap s =? lap_num))
           (samples telemetry_df) in
  if (List.length lap_data =? 0)%nat then []
  else if has_column telemetry_df "Laptrigger_lapdist_dls"
       then sort_by_distance lap_data
       else lap_data.

Definition analyze_braking_points (telemetry_df : TelemetryTable)
           (vehicle : string) (lap_num : Z) : list BrakingZone :=
  let lap_data := extract_racing_line telemetry_df vehicle lap_num in
  if (List.length lap_data =? 0)%nat || negb (has_column telemetry_df "pbrake_f")
  then []
  else braking_zones telemetry_df false lap_data.

End RacingLines.

End RacingLineAnalyzer.

(* ================================================================= *)
(** * The vocabulary of the properties *)

Section TelemetryVocabulary.
Import Py TelemetryProcessor.
Local Open Scope string_scope.
Local Open Scope Z_scope.

(** The ranges the specification declares for the channels. *)
Definition declared_range (param_name : string) : option (Z * Z) :=
  if among param_name ["aps"; "ath"] then Some (0, 100)
  else if String.eqb param_name "speed" then Some (0, 250)
  else if String.eqb param_name "gear" then Some (0, 6)
  else if String.eqb param_name "nmot" then Some (0, 8500)
  else if String.eqb param_name "Steering_Angle" then Some (-540, 540)
  else if among param_name ["accx_can"; "accy_can"] then Some (-3, 3)
  else None.

(** [q] lies in the range, when there is one. *)
Definition within (r : option (Z * Z)) (q : Q) : Prop :=
  match r with
  | Some (lo, hi) => (inject_Z lo <= q <= inject_Z hi)%Q
  | None => True
  end.

(** The number is a Python [int]. *)
Definition is_int (n : num) : Prop :=
  match n with Int _ => True | Float _ => False end.

(** The cell that holds a number. *)
Definition as_value (n : num) : pyval :=
  match n with
  | Int z => VInt z
  | Float f => VFloat f
  end.

End TelemetryVocabulary.

Section ParsingVocabulary.
Import Py.

(** Two floats are the same number (or the same infinity, or both NaN). *)
Definition same_float (a b : pyfloat) : Prop :=
  match a, b with
  | Fin x, Fin y => (x == y)%Q
  | PInf, PInf | NInf, NInf | NaN, NaN => True
  | _, _ => False
  end.

(** Two parsers' answers agree: both absent, or the same number. *)
Definition same_answer (a b : option pyfloat) : Prop :=
  match a, b with
  | Some x, Some y => same_float x y
  | None, None => True
  | _, _ => False
  end.

(** [sep.join(fields)]. *)
Fixpoint join (sep : ascii) (fields : list string) : string :=
  match fields with
  | [] => EmptyString
  | [f] => f
  | f :: r => (f ++ String sep (join sep r))%string
  end.

(** No field holds the separator. *)
Definition plain_fields (sep : ascii) (fields : list string) : Prop :=
  Forall (fun f => contains sep f = false) fields.

End ParsingVocabulary.

Section FastestLapVocabulary.
Import Py Pandas RacingLineAnalyzer.

(** [r] is a row of [laps] with a present cell that no present cell of the
    column undercuts. *)
Definition least_in (col : LapRow -> option Q) (laps : list LapRow) (r : LapRow)
  : Prop :=
  In r laps
  /\ exists m, col r = Some m
               /\ Forall (fun r' => forall t, col r' = Some t -> (m <= t)%Q) laps.

(** The order [find_coaching_opportunities] returns its list in. *)
Definition loss_order (a b : Opportunity) : Prop :=
  (time_loss b <= time_loss a)%Q.

(** The parsed time of a row of the table handed to
    [get_optimal_lap_telemetry]. *)
Definition parsed_time (r : Z * pyval) : pyfloat :=
  TelemetryProcessor.parse_lap_time (snd r).

End FastestLapVocabulary.

Section SectorVocabulary.
Import Py Pandas RacingLineAnalyzer TireDegradationAnalyzer.
Local Open Scope Z_scope.

(** Every cell of the column is present, and none is below an earlier one. *)
Definition rising (col : list (option Q)) : Prop :=
  exists qs, col = map Some qs /\ StronglySorted Qle qs.

(** The last braking sample of a lap. *)
Definition last_braking (lap_data : list Sample) : option Sample :=
  hd_error (rev (filter is_braking lap_data)).

(** Zone [b] has fewer points than zone [a]. *)
Definition shorter (a b : BrakingZone) : Prop :=
  duration_points b < duration_points a.

(** The speed column [calculate_optimal_metrics] reads, if the frame has
    one: 'speed', or else 'Speed'. *)
Definition speed_column (telemetry : TelemetryFrame.Telemetry)
  : option (list (option Q)) :=
  match TelemetryFrame.column telemetry "speed" with
  | Some col => Some col
  | None => TelemetryFrame.column telemetry "Speed"
  end.

(** The cell [export_for_frontend] converts to the gear of row [i]. *)
Definition gear_cell (telemetry : TelemetryFrame.Frame) (i : nat) : pyfloat :=
  TelemetryFrame.row_get telemetry i "gear"
    (TelemetryFrame.row_get telemetry i "Gear" (Fin 4)).

(** [parse_time]'s answer with 999999 in the place of None. *)
Definition or_sentinel (t : option pyfloat) : pyfloat :=
  match t with
  | Some x => x
  | None => Fin 999999
  end.

(** The text of the value has at most one colon. *)
Definition at_most_one_colon (t : pyval) : Prop :=
  match t with
  | VStr s => (List.length (split ":"%char s) <= 2)%nat
  | _ => True
  end.

End SectorVocabulary.

Section RacePaceVocabulary.
Import Py Pandas RaceStrategyAnalyzer.
Local Open Scope Z_scope.

(** The float is a number that is at least [m]. *)
Definition at_least (m : Q) (f : pyfloat) : Prop :=
  exists q, f = Fin q /\ (m <= q)%Q.

(** The number of distinct vehicles of the table. *)
Definition field_size (df : DataFrame) : Z :=
  Z.of_nat (List.length (unique (map NUMBER (rows df)))).

(** The lap times [analyze_race_pace] reads are all numbers. *)
Definition finite_lap_times (df : DataFrame) (v cur : Z) : Prop :=
  Forall (fun f => exists q, f = Fin q) (lap_seconds (laps_until df v cur)).

(** The extremes of a sector are consistent: the best time is not above
    the worst, and the current time lies between them. *)
Definition within_extremes (st : SectorStats) : Prop :=
  (best st <= worst st)%Q
  /\ forall c, current st = Some c -> (best st <= c <= worst st)%Q.

(** The sector [name] is listed with field-relative time [k]. *)
Definition listed_vs_field (p : SectorPerformance) (name : string) (k : Q)
  : Prop :=
  exists st, In (name, st) (sector_stats p) /\ vs_field st = Some k.

End RacePaceVocabulary.

Section PitWindowVocabulary.
Import Py Pandas TireDegradationAnalyzer.
Local Open Scope Z_scope.

(** Every lap of the vehicle has a parsed lap time. *)
Definition valid_times (df : DataFrame) (v : Z) : Prop :=
  Forall (fun r => lap_time_seconds r <> None) (of_vehicle df v).

(** The model [predict_pit_window] fits once it is past the 5-lap check. *)
Definition fitted_model (df : DataFrame) (v cur : Z) : exn LinearRegression.model :=
  fit_recent (recent_window (analyze_lap_degradation df v) cur).

(** The three shapes of record [predict_pit_window] returns. *)
Inductive regime : Set := NoPrediction | Degrading | Stable.

(** The branch a returned record comes from, read off the keys it has. *)
Definition regime_of (d : PitDecision) : regime :=
  match pit_lap d, current_delta d with
  | None, _ => NoPrediction
  | Some _, Some _ => Degrading
  | Some _, None => Stable
  end.

(** The table with one more row. *)
Definition add_lap (df : DataFrame) (r : LapRow) : DataFrame :=
  {| columns := columns df; rows := (rows df ++ [r])%list |}.

(** The row passes the filter LAP_NUMBER >= current_lap - 5. *)
Definition in_window (cur : Z) (r : LapRow) : bool := cur - 5 <=? LAP_NUMBER r.

(** The vehicle's laps with LAP_NUMBER >= current_lap - 5. *)
Definition laps_in_window (df : DataFrame) (v cur : Z) : nat :=
  List.length (filter (in_window cur) (of_vehicle df v)).

(** Each value is below the next one. *)
Fixpoint strictly_increasing (l : list Q) : bool :=
  match l with
  | x :: (y :: _) as r => Qltb x y && strictly_increasing r
  | _ => true
  end.

(** The vehicle's parsed lap times, in table order. *)
Definition lap_times (df : DataFrame) (v : Z) : list Q :=
  dropna (map lap_time_seconds (of_vehicle df v)).

(** Rows in lap order. *)
Definition lap_order (a b : LapRow) : Prop := LAP_NUMBER a <= LAP_NUMBER b.

(** The two tables have the same columns and the same rows of the vehicle, in
    the same order. *)
Definition same_laps_of (v : Z) (df df' : DataFrame) : Prop :=
  columns df = columns df' /\ of_vehicle df v = of_vehicle df' v.

End PitWindowVocabulary.

Section PotentialLapVocabulary.
Import Py Pandas.

(** [m] is the minimum of a column: its least present cell, or NaN when no
    cell is present. *)
Definition column_minimum (col : list (option Q)) (m : pyfloat) : Prop :=
  match m with
  | Fin x => In (Some x) col /\ forall y, In (Some y) col -> (x <= y)%Q
  | NaN => forall y, ~ In (Some y) col
  | PInf | NInf => False
  end.

(** Every lap has its three sector times and its lap time, and the sector
    times add up to the lap time. *)
Definition sectors_sum_to_lap_time (laps : list LapRow) : Prop :=
  Forall (fun r => exists s1 s2 s3 t,
              S1_SECONDS r = Some s1 /\ S2_SECONDS r = Some s2
              /\ S3_SECONDS r = Some s3 /\ lap_time_seconds r = Some t
              /\ (s1 + s2 + s3 == t)%Q) laps.

End PotentialLapVocabulary.

Section PitSearchVocabulary.
Import Py Pandas RaceStrategyAnalyzer.
Local Open Scope Z_scope.

(** [0 + 1 + ... + (n-1)], the degradation units accumulated over [n] laps. *)
Definition triangular (n : Z) : Q :=
  if n <=? 0 then 0%Q else (inject_Z (n * (n - 1)) / 2)%Q.

(** The projected cost of pitting at lap [p]: degradation before the stop,
    the stop, and 30% of the degradation after it. *)
Definition projected_cost (rate : Q) (cur total p : Z) : Q :=
  (rate * triangular (p - cur) + pit_stop_time
   + (3 # 10) * (rate * triangular (total - p)))%Q.

(** The do-nothing baseline. *)
Definition baseline_cost (rate : Q) (cur total : Z) : Q :=
  (rate * triangular (total - cur))%Q.

(** The float is a number, neither infinite nor NaN. *)
Definition finite (f : pyfloat) : Prop := exists q, f = Fin q.

(** [st] holds a seen candidate of least cost, with its cost. *)
Definition best_so_far (r : Q) (cur total : Z) (seen : list Z)
           (st : Z * pyfloat) : Prop :=
  exists c, snd st = Fin c
            /\ In (fst st) seen
            /\ (c == projected_cost r cur total (fst st))%Q
            /\ forall p, In p seen -> (c <= projected_cost r cur total p)%Q.

End PitSearchVocabulary.

(* ================================================================= *)
(** * Example tables *)

Section Stints.
Import Py Pandas.
Local Open Scope string_scope.
Local Open Scope Z_scope.

(** The columns of the analysis table after loading. *)
Definition analysis_columns : list string :=
  [ "NUMBER"; "LAP_NUMBER"; "LAP_TIME"; "S1_SECONDS"; "S2_SECONDS";
    "S3_SECONDS"; "KPH"; "lap_time_seconds" ].

(** A row as the loader builds it: the lap time is parsed from its text. *)
Definition timed_lap (v l : Z) (t : string) (s1 s2 s3 kph : Q) : LapRow :=
  RaceDataLoader.with_lap_time_seconds
    {| NUMBER := v; LAP_NUMBER := l; LAP_TIME := VStr t;
       lap_time_seconds := None;
       S1_SECONDS := Some s1; S2_SECONDS := Some s2; S3_SECONDS := Some s3;
       KPH := Some kph |}.

(** The analysis table with these rows. *)
Definition table (ls : list LapRow) : DataFrame :=
  {| columns := analysis_columns; rows := ls |}.

(** Vehicle 13 losing 0.2 s per lap over laps 10 to 14. *)
Definition steady_stint : DataFrame :=
  table [ timed_lap 13 10 "1:36.000" 32 32 32 120;
          timed_lap 13 11 "1:36.200" 32 32 (322 # 10) 120;
          timed_lap 13 12 "1:36.400" 32 (322 # 10) (322 # 10) 120;
          timed_lap 13 13 "1:36.600" (322 # 10) (322 # 10) (322 # 10) 120;
          timed_lap 13 14 "1:36.800" (322 # 10) (322 # 10) (324 # 10) 120 ].

(** Vehicle 13 losing one millisecond per lap over laps 1 to 5. *)
Definition creeping_stint : DataFrame :=
  table [ timed_lap 13 1 "1:36.000" 32 32 32 120;
          timed_lap 13 2 "1:36.001" 32 32 (32001 # 1000) 120;
          timed_lap 13 3 "1:36.002" 32 32 (32002 # 1000) 120;
          timed_lap 13 4 "1:36.003" 32 32 (32003 # 1000) 120;
          timed_lap 13 5 "1:36.004" 32 32 (32004 # 1000) 120 ].

(** The first three laps of [steady_stint]. *)
Definition short_stint : DataFrame :=
  table (firstn 3 (rows steady_stint)).

(** Vehicle 13 losing 0.12 s per lap over laps 1 to 7. *)
Definition seven_laps : DataFrame :=
  table [ timed_lap 13 1 "1:36.000" 32 32 (3200 # 100) 120;
          timed_lap 13 2 "1:36.120" 32 32 (3212 # 100) 120;
          timed_lap 13 3 "1:36.240" 32 32 (3224 # 100) 120;
          timed_lap 13 4 "1:36.360" 32 32 (3236 # 100) 120;
          timed_lap 13 5 "1:36.480" 32 32 (3248 # 100) 120;
          timed_lap 13 6 "1:36.600" 32 32 (3260 # 100) 120;
          timed_lap 13 7 "1:36.720" 32 32 (3272 # 100) 120 ].

(** Its lap 8, on the same trend. *)
Definition eighth_lap : LapRow :=
  timed_lap 13 8 "1:36.840" 32 32 (3284 # 100) 120.

(** Five laps of vehicle 13 of which three have no readable lap time. *)
Definition broken_stint : DataFrame :=
  table [ timed_lap 13 10 "1:36.000" 32 32 32 120;
          timed_lap 13 11 "" 32 32 32 120;
          timed_lap 13 12 "n/a" 32 32 32 120;
          timed_lap 13 13 "1:36.600" 32 32 32 120;
          timed_lap 13 14 "--" 32 32 32 120 ].

(** Vehicle 13 losing 0.05 s per lap over laps 1 to 10. *)
Definition ten_laps : DataFrame :=
  table [ timed_lap 13 1 "1:36.000" 32 32 (32000 # 1000) 120;
          timed_lap 13 2 "1:36.050" 32 32 (32050 # 1000) 120;
          timed_lap 13 3 "1:36.100" 32 32 (32100 # 1000) 120;
          timed_lap 13 4 "1:36.150" 32 32 (32150 # 1000) 120;
          timed_lap 13 5 "1:36.200" 32 32 (32200 # 1000) 120;
          timed_lap 13 6 "1:36.250" 32 32 (32250 # 1000) 120;
          timed_lap 13 7 "1:36.300" 32 32 (32300 # 1000) 120;
          timed_lap 13 8 "1:36.350" 32 32 (32350 # 1000) 120;
          timed_lap 13 9 "1:36.400" 32 32 (32400 # 1000) 120;
          timed_lap 13 10 "1:36.450" 32 32 (32450 # 1000) 120 ].

(** A vehicle whose every lap has average speed 0. *)
Definition parked : DataFrame :=
  table [ timed_lap 13 1 "1:36.000" 32 32 32 0 ].

(** Lap 14 of [steady_stint], as the Series handed to the coaching
    analysis. *)
Definition lap_14 : RacingLineAnalyzer.Series :=
  {| RacingLineAnalyzer.index := analysis_columns;
     RacingLineAnalyzer.values :=
       timed_lap 13 14 "1:36.800" (322 # 10) (322 # 10) (324 # 10) 120 |}.

(** Lap 10 of [steady_stint], its fastest. *)
Definition lap_10 : LapRow := timed_lap 13 10 "1:36.000" 32 32 32 120.

(** [steady_stint] with three laps of vehicle 7 ahead of it. *)
Definition two_cars : DataFrame :=
  table (timed_lap 7 10 "1:37.000" 32 32 33 120
         :: timed_lap 7 11 "1:37.500" 32 32 (335 # 10) 120
         :: timed_lap 7 12 "1:38.000" 32 32 34 120
         :: rows steady_stint).

(** A list sort that leaves the list as it is. *)
Definition unsorted (l : list TireDegradationAnalyzer.Comparison)
  : list TireDegradationAnalyzer.Comparison := l.

(** The same for a sector column. *)
Definition no_sector_spread (l : list Q) : pyfloat := Fin 0.

(** A standard deviation that is always zero, to run the pace analysis. *)
Definition no_spread (l : list pyfloat) : pyfloat := Fin 0.

End Stints.

(* ================================================================= *)
(** * Properties *)

(** ** Arithmetic of the float model *)

Section FloatFacts.
Import Py.

Lemma Qltb_lt (x y : Q) : Qltb x y = true <-> (x < y)%Q.
Proof.
  unfold Qltb. rewrite negb_true_iff. split; intro H.
  - apply Qnot_le_lt. intro L. apply Qle_bool_iff in L. congruence.
  - destruct (Qle_bool y x) eqn:E; [|reflexivity].
    apply Qle_bool_iff in E. exfalso. apply (Qlt_not_le _ _ H E).
Qed.

Lemma Qltb_ge (x y : Q) : Qltb x y = false <-> (y <= x)%Q.
Proof.
  unfold Qltb. rewrite negb_false_iff. apply Qle_bool_iff.
Qed.

(** Clipping a finite float to an integer interval lands in the interval. *)
Lemma clip_fin (lo hi : Z) (q : Q) :
  lo <= hi ->
  exists q', to_float (TelemetryProcessor.clip lo hi (Float (Fin q))) = Fin q'
             /\ (inject_Z lo <= q' <= inject_Z hi)%Q.
Proof.
  intro Hle.
  assert (Hq : (inject_Z lo <= inject_Z hi)%Q) by (rewrite <- Zle_Qle; exact Hle).
  unfold TelemetryProcessor.clip, min2, max2, lt. cbn [to_float flt].
  destruct (Qltb q (inject_Z hi)) eqn:E1; cbn [to_float flt].
  - apply Qltb_lt in E1.
    destruct (Qltb (inject_Z lo) q) eqn:E2; cbn [to_float].
    + apply Qltb_lt in E2. exists q. split; [reflexivity|]. split; lra.
    + exists (inject_Z lo). split; [reflexivity|]. split; lra.
  - apply Qltb_ge in E1.
    destruct (Qltb (inject_Z lo) (inject_Z hi)) eqn:E2; cbn [to_float].
    + exists (inject_Z hi). split; [reflexivity|]. split; lra.
    + exists (inject_Z lo). split; [reflexivity|]. split; lra.
Qed.

(** Clipping an int to an integer interval gives an int of the interval. *)
Lemma clip_int (lo hi g : Z) :
  lo <= hi ->
  exists g', TelemetryProcessor.clip lo hi (Int g) = Int g' /\ lo <= g' <= hi.
Proof.
  intro Hle.
  unfold TelemetryProcessor.clip, min2, max2, lt. cbn [to_float flt].
  destruct (Qltb (inject_Z g) (inject_Z hi)) eqn:E1; cbn [to_float flt].
  - apply Qltb_lt in E1. rewrite <- Zlt_Qlt in E1.
    destruct (Qltb (inject_Z lo) (inject_Z g)) eqn:E2.
    + apply Qltb_lt in E2. rewrite <- Zlt_Qlt in E2. exists g. split; [reflexivity|lia].
    + exists lo. split; [reflexivity|lia].
  - apply Qltb_ge in E1. rewrite <- Zle_Qle in E1.
    destruct (Qltb (inject_Z lo) (inject_Z hi)) eqn:E2.
    + exists hi. split; [reflexivity|lia].
    + exists lo. split; [reflexivity|lia].
Qed.

End FloatFacts.

(** ** Lap numbers and telemetry values (src/telemetry_processor.py) *)

Section Telemetry.
Import Py TelemetryProcessor.
Local Open Scope string_scope.
Local Open Scope Z_scope.

(** C6, as stated, fails at lap 0: it lies outside [1,100], and
    [normalize_lap_number] returns it unchanged rather than the marker -1. *)
Lemma normalize_lap_number_keeps_lap_0 :
  ~ (1 <= 0 <= 100) /\ normalize_lap_number 0 = 0 /\ normalize_lap_number 0 <> -1.
Proof.
  repeat split; [lia | discriminate].
Qed.

(** C6 (amended): [normalize_lap_number] returns the invalid marker -1
    exactly when the input is the sentinel 32768 or lies outside [0,100],
    and returns the lap number unchanged otherwise; laps 0, 1 and 100 are
    kept. *)
Theorem normalize_lap_number_invalid_iff (lap : Z) :
  (normalize_lap_number lap = -1 <-> lap = 32768 \/ lap < 0 \/ 100 < lap)
  /\ (0 <= lap <= 100 -> normalize_lap_number lap = lap)
  /\ normalize_lap_number 0 = 0
  /\ normalize_lap_number 1 = 1
  /\ normalize_lap_number 100 = 100.
Proof.
  unfold normalize_lap_number.
  repeat split; try reflexivity.
  - destruct (lap =? 32768) eqn:E1; [apply Z.eqb_eq in E1; auto|].
    destruct (lap <? 0) eqn:E2; [apply Z.ltb_lt in E2; auto|].
    destruct (lap >? 100) eqn:E3; cbn [orb].
    + rewrite Z.gtb_ltb in E3. apply Z.ltb_lt in E3. auto.
    + intro H. apply Z.ltb_ge in E2. lia.
  - intros [H | [H | H]].
    + subst lap. reflexivity.
    + apply Z.ltb_lt in H. rewrite H, orb_true_r. reflexivity.
    + rewrite Z.gtb_ltb. apply Z.ltb_lt in H. rewrite H, orb_true_r. reflexivity.
  - intros [H0 H100].
    assert (E1 : (lap =? 32768) = false) by (apply Z.eqb_neq; lia).
    assert (E2 : (lap <? 0) = false) by (apply Z.ltb_ge; lia).
    assert (E3 : (lap >? 100) = false)
      by (rewrite Z.gtb_ltb; apply Z.ltb_ge; lia).
    rewrite E1, E2, E3. reflexivity.
Qed.

(** Lap 42 is kept. *)
Lemma normalize_lap_number_invalid_iff_witness :
  0 <= 42 <= 100 /\ normalize_lap_number 42 = 42.
Proof.
  split; [lia|].
  apply (proj1 (proj2 (normalize_lap_number_invalid_iff 42))). lia.
Defined.

Ltac clean_cases :=
  match goal with
  | |- context [float_of ?v] =>
      destruct (float_of v) as [[q | | |] | e]; cbn
  end.

Ltac by_clip lo hi q :=
  let q' := fresh "q'" in
  let E := fresh "E" in
  let B := fresh "B" in
  destruct (clip_fin lo hi q ltac:(lia)) as (q' & E & B);
  exists q'; split; [exact E | first [exact B | exact I]].

(** C7: on every channel of the allow-list and for every input value,
    [clean_telemetry_value] returns a finite (so non-NaN) number; on a channel
    with a declared range the number lies in that range; the gear is an
    integer; and an input [float()] refuses is replaced by the channel's
    default. *)
Theorem clean_telemetry_value_finite_in_range (value : pyval) (param_name : string) :
  In param_name KEY_PARAMETERS ->
  (exists q, to_float (clean_telemetry_value value param_name) = Fin q
             /\ within (declared_range param_name) q)
  /\ (param_name = "gear" -> is_int (clean_telemetry_value value param_name))
  /\ (forall e, float_of value = Raise e ->
        clean_telemetry_value value param_name = get_default_value param_name).
Proof.
  intro Hin.
  assert (Hdef : forall e, float_of value = Raise e ->
            clean_telemetry_value value param_name = get_default_value param_name).
  { intros e He. unfold clean_telemetry_value. rewrite He. reflexivity. }
  split; [| split; [| exact Hdef]].
  - unfold KEY_PARAMETERS in Hin. cbn [In] in Hin.
    repeat (destruct Hin as [<- | Hin]); try contradiction;
      unfold clean_telemetry_value; clean_cases;
      try (eexists; split; [reflexivity | cbn; try split; try exact I; discriminate]).
    + by_clip 0 250 q.
    + by_clip 0 100 q.
    + by_clip 0 100 q.
    + by_clip 0 100 q.
    + by_clip 0 100 q.
    + destruct (clip_int 0 6 (Qtrunc q) ltac:(lia)) as (g & E & B).
      rewrite E. exists (inject_Z g). split; [reflexivity|].
      cbn. rewrite <- !Zle_Qle. lia.
    + by_clip 0 8500 q.
    + by_clip (-540) 540 q.
    + by_clip (-3) 3 q.
    + by_clip (-3) 3 q.
  - intros ->. unfold clean_telemetry_value. clean_cases; try exact I.
    destruct (clip_int 0 6 (Qtrunc q) ltac:(lia)) as (g & E & _).
    rewrite E. exact I.
Qed.

(** A gear cell reading "n/a" becomes the default gear. *)
Lemma clean_telemetry_value_finite_in_range_witness :
  In "gear" KEY_PARAMETERS
  /\ clean_telemetry_value (VStr "n/a") "gear" = get_default_value "gear".
Proof.
  assert (H : In "gear" KEY_PARAMETERS) by (cbn; tauto).
  split; [exact H|].
  apply (proj2 (proj2 (clean_telemetry_value_finite_in_range (VStr "n/a") "gear" H))
           ValueError).
  reflexivity.
Defined.

End Telemetry.

(** ** The pit window (src/analysis/tire_degradation.py) *)

Section PitWindow.
Import Py Pandas TireDegradationAnalyzer.
Local Open Scope string_scope.
Local Open Scope Z_scope.

(** *** Sorting and the added columns keep the vehicle's rows *)

Lemma insert_row_perm (x : LapRow) (l : list LapRow) :
  Permutation (insert_row x l) (x :: l).
Proof.
  induction l as [| y l IH]; cbn.
  - reflexivity.
  - destruct (LAP_NUMBER x <=? LAP_NUMBER y).
    + reflexivity.
    + rewrite IH. apply perm_swap.
Qed.

Lemma sort_values_perm (l : list LapRow) : Permutation (sort_values l) l.
Proof.
  induction l as [| x l IH]; cbn.
  - reflexivity.
  - rewrite insert_row_perm. now apply perm_skip.
Qed.

Lemma filter_length_perm {A} (p : A -> bool) (l l' : list A) :
  Permutation l l' ->
  List.length (filter p l) = List.length (filter p l').
Proof.
  induction 1 as [| x l l' _ IH | x y l | l l' l'' _ IH1 _ IH2]; cbn.
  - reflexivity.
  - destruct (p x); cbn; congruence.
  - destruct (p x), (p y); reflexivity.
  - congruence.
Qed.

Lemma diff_length (col : list (option Q)) :
  List.length (diff col) = List.length col.
Proof.
  destruct col as [| c r]; cbn [diff List.length]; [reflexivity|].
  rewrite length_map, length_combine. cbn [List.length]. lia.
Qed.

Lemma rolling3_mean_length (col : list (option Q)) :
  List.length (rolling3_mean col) = List.length col.
Proof.
  unfold rolling3_mean. now rewrite length_map, length_seq.
Qed.

Lemma zip_rows_lap (best : pyfloat) (ls : list LapRow) :
  forall roll dl,
    List.length roll = List.length ls ->
    List.length dl = List.length ls ->
    map lap (zip_rows ls roll dl best) = ls.
Proof.
  induction ls as [| l ls IH]; intros roll dl Hr Hd.
  - reflexivity.
  - destruct roll as [| r roll]; [discriminate|].
    destruct dl as [| d dl]; [discriminate|].
    cbn. f_equal. apply IH; cbn in *; congruence.
Qed.

Lemma zip_rows_delta (best : Q) (ls : list LapRow) :
  forall roll dl,
    Forall (fun l => lap_time_seconds l <> None) ls ->
    Forall (fun r => delta_to_best r <> None) (zip_rows ls roll dl (Fin best)).
Proof.
  induction ls as [| l ls IH]; intros roll dl Hall; cbn.
  - constructor.
  - destruct roll as [| r roll]; [constructor|].
    destruct dl as [| d dl]; [constructor|].
    inversion Hall as [| ? ? Hl Hls]; subst.
    constructor.
    + cbn. destruct (lap_time_seconds l); [discriminate | contradiction].
    + now apply IH.
Qed.

Lemma analyze_laps (df : DataFrame) (v : Z) :
  map lap (analyze_lap_degradation df v) = sort_values (of_vehicle df v).
Proof.
  unfold analyze_lap_degradation.
  destruct (of_vehicle df v) as [| r l] eqn:E; [reflexivity|].
  cbn [List.length Nat.eqb].
  apply zip_rows_lap.
  - now rewrite rolling3_mean_length, length_map.
  - now rewrite diff_length, length_map.
Qed.

Lemma analyze_length (df : DataFrame) (v : Z) :
  List.length (analyze_lap_degradation df v) = List.length (of_vehicle df v).
Proof.
  rewrite <- (length_map lap), analyze_laps.
  apply Permutation_length, sort_values_perm.
Qed.

(** *** When the fit succeeds *)

Lemma dropna_present (col : list (option Q)) :
  Forall (fun c => c <> None) col ->
  List.length (dropna col) = List.length col.
Proof.
  induction 1 as [| c col Hc _ IH]; cbn; [reflexivity|].
  destruct c; [cbn; congruence | contradiction].
Qed.

Lemma col_min_present (col : list (option Q)) :
  col <> [] -> Forall (fun c => c <> None) col -> exists b, col_min col = Fin b.
Proof.
  intros Hne Hall. unfold col_min.
  pose proof (dropna_present col Hall) as Hlen.
  destruct (dropna col) as [| x r].
  - destruct col; [contradiction | discriminate].
  - eexists. reflexivity.
Qed.

Lemma analyze_delta_present (df : DataFrame) (v : Z) :
  valid_times df v ->
  Forall (fun r => delta_to_best r <> None) (analyze_lap_degradation df v).
Proof.
  unfold valid_times, analyze_lap_degradation. intro Hall.
  destruct (of_vehicle df v) as [| r l] eqn:E; [constructor|].
  cbn [List.length Nat.eqb].
  assert (Hs : Forall (fun r => lap_time_seconds r <> None)
                      (sort_values (r :: l))).
  { eapply Permutation_Forall; [symmetry; apply sort_values_perm | exact Hall]. }
  destruct (col_min_present (map lap_time_seconds (sort_values (r :: l))))
    as [b Hb].
  - intro Hnil. apply (f_equal (@List.length _)) in Hnil.
    rewrite length_map, (Permutation_length (sort_values_perm _)) in Hnil.
    discriminate.
  - apply Forall_map. exact Hs.
  - rewrite Hb. now apply zip_rows_delta.
Qed.

Lemma tail_Forall {A} (P : A -> Prop) (n : nat) (l : list A) :
  Forall P l -> Forall P (tail n l).
Proof.
  unfold tail. intro H.
  rewrite <- (firstn_skipn (List.length l - n) l) in H.
  now apply Forall_app in H.
Qed.

Lemma filter_Forall {A} (P : A -> Prop) (p : A -> bool) (l : list A) :
  Forall P l -> Forall P (filter p l).
Proof.
  rewrite !Forall_forall. intros H x Hx.
  apply filter_In in Hx. now apply H.
Qed.

Lemma recent_window_Forall (P : DegRow -> Prop) (vl : list DegRow) (cur : Z) :
  Forall P vl -> Forall P (recent_window vl cur).
Proof.
  intro H. unfold recent_window.
  destruct (_ <? 3)%nat; [now apply tail_Forall | now apply filter_Forall].
Qed.

Lemma tail_length {A} (n : nat) (l : list A) :
  (n <= List.length l)%nat -> List.length (tail n l) = n.
Proof.
  intro H. unfold tail. rewrite length_skipn. lia.
Qed.

Lemma recent_window_length (vl : list DegRow) (cur : Z) :
  (5 <= List.length vl)%nat -> (3 <= List.length (recent_window vl cur))%nat.
Proof.
  intro H. unfold recent_window.
  destruct (_ <? 3)%nat eqn:E.
  - rewrite tail_length; lia.
  - apply Nat.ltb_ge in E. exact E.
Qed.

Lemma fit_total (X : list Z) (y : list (option Q)) :
  X <> [] -> Forall (fun c => c <> None) y ->
  exists m, LinearRegression.fit X y = Ok m.
Proof.
  intros HX Hy. unfold LinearRegression.fit.
  assert (E : existsb (fun c : option Q =>
                         match c with None => true | Some _ => false end) y
              = false).
  { induction Hy as [| c y Hc _ IH]; cbn; [reflexivity|].
    destruct c; [exact IH | contradiction]. }
  rewrite E. destruct X; [contradiction|]. eexists. reflexivity.
Qed.

Lemma fitted_model_total (df : DataFrame) (v cur : Z) :
  (5 <= List.length (of_vehicle df v))%nat -> valid_times df v ->
  exists m, fitted_model df v cur = Ok m.
Proof.
  intros Hlen Hvalid. unfold fitted_model, fit_recent.
  apply fit_total.
  - intro Hnil. apply (f_equal (@List.length _)) in Hnil.
    rewrite length_map in Hnil.
    pose proof (recent_window_length (analyze_lap_degradation df v) cur) as H.
    rewrite analyze_length in H. specialize (H Hlen).
    cbn in Hnil. lia.
  - apply Forall_map, recent_window_Forall, analyze_delta_present, Hvalid.
Qed.

Lemma past_check (df : DataFrame) (v : Z) :
  (5 <= List.length (of_vehicle df v))%nat ->
  (List.length (analyze_lap_degradation df v) <? 5)%nat = false.
Proof.
  intro H. rewrite analyze_length. now apply Nat.ltb_ge.
Qed.

(** C10: once [predict_pit_window] is past its data-sufficiency check and
    the fitted degradation rate is at most 0.01 s/lap, the returned record has
    pit_lap = total_laps - 1 and confidence exactly 50, whatever the number of
    laps supplied. *)
Theorem stable_tires_pit_lap_and_confidence
        (df : DataFrame) (v cur total : Z) (m : LinearRegression.model) :
  (5 <= List.length (of_vehicle df v))%nat ->
  fitted_model df v cur = Ok m ->
  (LinearRegression.coef_ m <= 1 # 100)%Q ->
  exists d, predict_pit_window df v cur total = Ok d
            /\ pit_lap d = Some (total - 1)
            /\ confidence d = 50.
Proof.
  intros Hlen Hfit Hrate.
  unfold predict_pit_window. cbv zeta.
  rewrite (past_check df v Hlen).
  unfold fitted_model in Hfit. rewrite Hfit. cbn [bind].
  apply Qltb_ge in Hrate. rewrite Hrate.
  eexists. split; [reflexivity|]. split; reflexivity.
Qed.

(** C1 (amended): when the vehicle has the 5 laps a prediction needs and the
    fitted degradation rate exceeds 0.01 s/lap, the recommended pit lap is at
    least current_lap+1, and at most total_laps-2 whenever
    current_lap+1 <= total_laps-2. *)
Theorem degrading_tires_pit_lap_clamped
        (df : DataFrame) (v cur total : Z) (m : LinearRegression.model) :
  (5 <= List.length (of_vehicle df v))%nat ->
  fitted_model df v cur = Ok m ->
  (1 # 100 < LinearRegression.coef_ m)%Q ->
  exists d p, predict_pit_window df v cur total = Ok d
              /\ pit_lap d = Some p
              /\ cur + 1 <= p
              /\ (cur + 1 <= total - 2 -> p <= total - 2).
Proof.
  intros Hlen Hfit Hrate.
  unfold predict_pit_window. cbv zeta.
  rewrite (past_check df v Hlen).
  unfold fitted_model in Hfit. rewrite Hfit. cbn [bind].
  apply Qltb_lt in Hrate. rewrite Hrate.
  eexists. eexists. split; [reflexivity|]. split; [reflexivity|].
  split; lia.
Qed.

Lemma filter_map_length {A B} (f : A -> B) (p : B -> bool) (l : list A) :
  List.length (filter (fun x => p (f x)) l) = List.length (filter p (map f l)).
Proof.
  induction l as [| x l IH]; cbn; [reflexivity|].
  destruct (p (f x)); cbn; congruence.
Qed.

Lemma recent_window_size (df : DataFrame) (v cur : Z) :
  List.length (recent_window (analyze_lap_degradation df v) cur)
  = if (laps_in_window df v cur <? 3)%nat
    then Nat.min 5 (List.length (of_vehicle df v))
    else laps_in_window df v cur.
Proof.
  assert (E : List.length
                (filter (fun r => cur - 5 <=? LAP_NUMBER (lap r))
                        (analyze_lap_degradation df v))
              = laps_in_window df v cur).
  { unfold laps_in_window.
    change (fun r : DegRow => cur - 5 <=? LAP_NUMBER (lap r))
      with (fun r : DegRow => in_window cur (lap r)).
    rewrite filter_map_length, analyze_laps.
    apply filter_length_perm, sort_values_perm. }
  unfold recent_window. rewrite E.
  destruct (_ <? 3)%nat; [|exact E].
  unfold tail. rewrite length_skipn, analyze_length. lia.
Qed.

(** What [predict_pit_window] returns past the 5-lap check. *)
Lemma predict_pit_window_cases (df : DataFrame) (v cur total : Z) :
  (5 <= List.length (of_vehicle df v))%nat -> valid_times df v ->
  exists d p,
    predict_pit_window df v cur total = Ok d /\ pit_lap d = Some p
    /\ ((regime_of d = Degrading
         /\ confidence d
            = Z.min 100
                (Z.of_nat (List.length
                   (recent_window (analyze_lap_degradation df v) cur)) * 20))
        \/ (regime_of d = Stable /\ confidence d = 50)).
Proof.
  intros Hlen Hvalid.
  destruct (fitted_model_total df v cur Hlen Hvalid) as [m Hm].
  unfold predict_pit_window. cbv zeta.
  rewrite (past_check df v Hlen).
  unfold fitted_model in Hm. rewrite Hm. cbn [bind].
  destruct (Qltb (1 # 100) (LinearRegression.coef_ m)).
  - eexists. eexists. split; [reflexivity|]. split; [reflexivity|].
    left. split; reflexivity.
  - eexists. eexists. split; [reflexivity|]. split; [reflexivity|].
    right. split; reflexivity.
Qed.

Lemma predict_pit_window_short (df : DataFrame) (v cur total : Z) :
  (List.length (of_vehicle df v) < 5)%nat ->
  predict_pit_window df v cur total = Ok insufficient_data.
Proof.
  intro H. unfold predict_pit_window. cbv zeta.
  rewrite analyze_length.
  apply Nat.ltb_lt in H. now rewrite H.
Qed.

(** C2 (amended): [predict_pit_window] requires 5 laps.  With fewer than 5
    laps of the vehicle in the table it returns the zero-confidence
    'Insufficient data' record with no pit lap; with at least 5 laps, all with
    a parsed lap time, it fits the regression and returns a recommended pit
    lap with a confidence between 50 and 100. *)
Theorem predict_pit_window_needs_five_laps (df : DataFrame) (v cur total : Z) :
  ((List.length (of_vehicle df v) < 5)%nat ->
   exists d, predict_pit_window df v cur total = Ok d
             /\ pit_lap d = None /\ confidence d = 0
             /\ message d = "Insufficient data")
  /\ ((5 <= List.length (of_vehicle df v))%nat -> valid_times df v ->
      exists d p, predict_pit_window df v cur total = Ok d
                  /\ pit_lap d = Some p /\ 50 <= confidence d <= 100).
Proof.
  split.
  - intro H. exists insufficient_data.
    split; [now apply predict_pit_window_short|]. repeat split.
  - intros Hlen Hvalid.
    destruct (predict_pit_window_cases df v cur total Hlen Hvalid)
      as (d & p & Hd & Hp & Hc).
    exists d, p. split; [exact Hd|]. split; [exact Hp|].
    destruct Hc as [[_ Hc] | [_ Hc]]; rewrite Hc; [|lia].
    pose proof (recent_window_length (analyze_lap_degradation df v) cur) as H3.
    rewrite analyze_length in H3. specialize (H3 Hlen). lia.
Qed.

Lemma of_vehicle_add_lap (df : DataFrame) (r : LapRow) (v : Z) :
  NUMBER r = v -> of_vehicle (add_lap df r) v = (of_vehicle df v ++ [r])%list.
Proof.
  intro H. unfold of_vehicle, add_lap. cbn [rows].
  rewrite filter_app. cbn [filter]. rewrite H, Z.eqb_refl. reflexivity.
Qed.

(** C8 (amended): adding one lap of the vehicle to the table does not lower
    the confidence of [predict_pit_window], the regime of the two results
    being the same (or the shorter table giving no prediction), unless the
    added lap is the third one inside the recent window
    LAP_NUMBER >= current_lap - 5. *)
Theorem confidence_monotone_in_laps
        (df : DataFrame) (r : LapRow) (v cur total : Z) :
  NUMBER r = v ->
  valid_times (add_lap df r) v ->
  ~ (laps_in_window df v cur = 2%nat /\ in_window cur r = true) ->
  exists d d',
    predict_pit_window df v cur total = Ok d
    /\ predict_pit_window (add_lap df r) v cur total = Ok d'
    /\ (regime_of d = regime_of d' \/ regime_of d = NoPrediction ->
        confidence d <= confidence d').
Proof.
  intros Hv Hvalid' Hthird.
  pose proof (of_vehicle_add_lap df r v Hv) as Hrows.
  assert (Hvalid : valid_times df v).
  { unfold valid_times in *. rewrite Hrows in Hvalid'.
    now apply Forall_app in Hvalid'. }
  assert (Hn : List.length (of_vehicle (add_lap df r) v)
               = S (List.length (of_vehicle df v))).
  { rewrite Hrows, length_app. cbn. lia. }
  assert (Hw : laps_in_window (add_lap df r) v cur
               = (laps_in_window df v cur
                  + if in_window cur r then 1 else 0)%nat).
  { unfold laps_in_window. rewrite Hrows, filter_app, length_app. cbn [filter].
    destruct (in_window cur r); reflexivity. }
  destruct (Nat.lt_ge_cases (List.length (of_vehicle df v)) 5) as [Hshort | Hlong].
  - (* the shorter table gives no prediction *)
    exists insufficient_data.
    destruct (Nat.lt_ge_cases (List.length (of_vehicle (add_lap df r) v)) 5)
      as [Hshort' | Hlong'].
    + exists insufficient_data.
      split; [now apply predict_pit_window_short|].
      split; [now apply predict_pit_window_short|].
      intros _. reflexivity.
    + destruct (predict_pit_window_cases (add_lap df r) v cur total
                                         Hlong' Hvalid')
        as (d' & p' & Hd' & _ & Hc').
      exists d'. split; [now apply predict_pit_window_short|].
      split; [exact Hd'|]. intros _. cbn [insufficient_data confidence].
      destruct Hc' as [[_ Hc'] | [_ Hc']]; rewrite Hc'; lia.
  - assert (Hlong' : (5 <= List.length (of_vehicle (add_lap df r) v))%nat) by lia.
    destruct (predict_pit_window_cases df v cur total Hlong Hvalid)
      as (d & p & Hd & Hp & Hc).
    destruct (predict_pit_window_cases (add_lap df r) v cur total Hlong' Hvalid')
      as (d' & p' & Hd' & Hp' & Hc').
    exists d, d'. split; [exact Hd|]. split; [exact Hd'|].
    rewrite !recent_window_size, Hw, Hn in *.
    intros [Hsame | Hnone].
    + destruct Hc as [[Hr Hc] | [Hr Hc]], Hc' as [[Hr' Hc'] | [Hr' Hc']];
        try congruence; rewrite Hc, Hc'; [|lia].
      destruct (in_window cur r) eqn:Ein.
      * destruct (Nat.ltb_spec (laps_in_window df v cur) 3) as [E | E];
          destruct (Nat.ltb_spec (laps_in_window df v cur + 1) 3) as [E' | E'];
          lia.
      * rewrite Nat.add_0_r.
        destruct (Nat.ltb_spec (laps_in_window df v cur) 3); lia.
    + destruct Hc as [[Hr _] | [Hr _]]; congruence.
Qed.

End PitWindow.

(** ** The pit window on the example stints *)

Section StintFacts.
Import Py Pandas TireDegradationAnalyzer.
Local Open Scope string_scope.
Local Open Scope Z_scope.

(** C1, as stated, fails on [creeping_stint]: the lap times are strictly
    increasing over 5 laps, the fitted rate 0.001 s/lap is below the 0.01
    threshold, and at lap 5 of 20 the recommended pit lap is 19, which is
    above total_laps - 2 = 18. *)
Lemma creeping_stint_pits_after_the_window :
  strictly_increasing (lap_times creeping_stint 13) = true
  /\ List.length (lap_times creeping_stint 13) = 5%nat
  /\ predict_pit_window creeping_stint 13 5 20
     = Ok {| pit_lap := Some 19;
             laps_remaining := Some 15;
             degradation_rate := Some 0.001%Q;
             current_delta := None;
             confidence := 50;
             message := "Tires stable, can extend stint" |}
  /\ ~ (19 <= 20 - 2).
Proof.
  split; [vm_compute; reflexivity|].
  split; [vm_compute; reflexivity|].
  split; [vm_compute; reflexivity|]. lia.
Qed.

(** The clamp on [steady_stint] at lap 14 of 27. *)
Lemma degrading_tires_pit_lap_clamped_witness :
  exists d p, predict_pit_window steady_stint 13 14 27 = Ok d
              /\ pit_lap d = Some p
              /\ 14 + 1 <= p
              /\ (14 + 1 <= 27 - 2 -> p <= 27 - 2).
Proof.
  eapply (degrading_tires_pit_lap_clamped steady_stint 13 14 27).
  - vm_compute. lia.
  - vm_compute. reflexivity.
  - vm_compute. reflexivity.
Defined.

(** The stable branch on [creeping_stint] at lap 5 of 20. *)
Lemma stable_tires_pit_lap_and_confidence_witness :
  exists d, predict_pit_window creeping_stint 13 5 20 = Ok d
            /\ pit_lap d = Some (20 - 1)
            /\ confidence d = 50.
Proof.
  eapply (stable_tires_pit_lap_and_confidence creeping_stint 13 5 20).
  - vm_compute. lia.
  - vm_compute. reflexivity.
  - vm_compute. discriminate.
Defined.

(** C2, as stated, fails on [short_stint]: three laps, all with a parsed lap
    time, and [predict_pit_window] returns the 'Insufficient data' record
    instead of a recommendation. *)
Lemma three_valid_laps_are_insufficient :
  List.length (of_vehicle short_stint 13) = 3%nat
  /\ List.length (lap_times short_stint 13) = 3%nat
  /\ predict_pit_window short_stint 13 12 27
     = Ok {| pit_lap := None;
             laps_remaining := None;
             degradation_rate := None;
             current_delta := None;
             confidence := 0;
             message := "Insufficient data" |}.
Proof.
  repeat split; vm_compute; reflexivity.
Qed.

(** Every lap of [steady_stint] has a parsed lap time. *)
Lemma valid_times_steady_stint : valid_times steady_stint 13.
Proof.
  unfold valid_times. vm_compute. repeat constructor; discriminate.
Defined.

(** Three laps give no prediction, the five laps of [steady_stint] give one. *)
Lemma predict_pit_window_needs_five_laps_witness :
  (exists d, predict_pit_window short_stint 13 12 27 = Ok d
             /\ pit_lap d = None /\ confidence d = 0
             /\ message d = "Insufficient data")
  /\ (exists d p, predict_pit_window steady_stint 13 14 27 = Ok d
                  /\ pit_lap d = Some p /\ 50 <= confidence d <= 100).
Proof.
  split.
  - apply (proj1 (predict_pit_window_needs_five_laps short_stint 13 12 27)).
    vm_compute. lia.
  - apply (proj2 (predict_pit_window_needs_five_laps steady_stint 13 14 27)).
    + vm_compute. lia.
    + exact valid_times_steady_stint.
Defined.

(** Past the 5-row check a missing lap time in the fitted window is not
    handled: the regression refuses the missing target and the call raises. *)
Lemma missing_lap_times_raise :
  List.length (of_vehicle broken_stint 13) = 5%nat
  /\ List.length (lap_times broken_stint 13) = 2%nat
  /\ predict_pit_window broken_stint 13 14 27 = Raise ValueError.
Proof.
  repeat split; vm_compute; reflexivity.
Qed.

(** The regression of the specification's fifth scenario: deltas 0.0 .. 0.8
    over laps 10 .. 14 give a rate of 0.2 s/lap and pit lap 17. *)
Lemma steady_stint_prediction :
  predict_pit_window steady_stint 13 14 27
  = Ok {| pit_lap := Some 17;
          laps_remaining := Some 3;
          degradation_rate := Some 0.200%Q;
          current_delta := Some 0.800%Q;
          confidence := 100;
          message := "Pit recommended in 3 laps" |}.
Proof.
  vm_compute. reflexivity.
Qed.

(** C8, as stated, fails on [seven_laps] at current lap 11: with laps 1..7
    two laps lie in the recent window, the fit falls back to the last five
    laps and the confidence is 100; adding lap 8 puts three laps in the
    window, the fit uses those three and the confidence drops to 60.  Both
    results are in the degrading regime, with the same fitted rate. *)
Lemma a_third_recent_lap_lowers_confidence :
  predict_pit_window seven_laps 13 11 27
  = Ok {| pit_lap := Some 13;
          laps_remaining := Some 2;
          degradation_rate := Some 0.120%Q;
          current_delta := Some 1.200%Q;
          confidence := 100;
          message := "Pit recommended in 2 laps" |}
  /\ predict_pit_window (add_lap seven_laps eighth_lap) 13 11 27
     = Ok {| pit_lap := Some 13;
             laps_remaining := Some 2;
             degradation_rate := Some 0.120%Q;
             current_delta := Some 1.200%Q;
             confidence := 60;
             message := "Pit recommended in 2 laps" |}
  /\ ~ (100 <= 60).
Proof.
  split; [vm_compute; reflexivity|].
  split; [vm_compute; reflexivity|]. lia.
Qed.

(** So has [steady_stint] with one more lap. *)
Lemma valid_times_eight_laps : valid_times (add_lap steady_stint eighth_lap) 13.
Proof.
  unfold valid_times. vm_compute. repeat constructor; discriminate.
Defined.

(** A lap outside the recent window added to [steady_stint]. *)
Lemma confidence_monotone_in_laps_witness :
  exists d d',
    predict_pit_window steady_stint 13 14 27 = Ok d
    /\ predict_pit_window (add_lap steady_stint eighth_lap) 13 14 27 = Ok d'
    /\ (regime_of d = regime_of d' \/ regime_of d = NoPrediction ->
        confidence d <= confidence d').
Proof.
  apply (confidence_monotone_in_laps steady_stint eighth_lap 13 14 27).
  - reflexivity.
  - exact valid_times_eight_laps.
  - vm_compute. intros [H _]. discriminate H.
Defined.

End StintFacts.

(** ** Lap-time parsing (src/data_loader.py, src/analysis/race_strategy.py) *)

Section TimeParsing.
Import Py Pandas.
Local Open Scope string_scope.
Local Open Scope Z_scope.

(** The loader's parser returns a value only along one of its two routes:
    exactly two colon-separated fields, an [int] of minutes and a [float] of
    seconds, or a text [float()] accepts whole. *)
Lemma time_to_seconds_value (s : string) (x : pyfloat) :
  RaceDataLoader._time_to_seconds (VStr s) = Some x ->
  (exists a b minutes seconds,
      split ":"%char s = [a; b]
      /\ int_of_str a = Ok minutes /\ float_of_str b = Ok seconds
      /\ x = fadd (Fin (inject_Z (minutes * 60))) seconds)
  \/ (List.length (split ":"%char s) <> 2%nat /\ float_of_str s = Ok x).
Proof.
  unfold RaceDataLoader._time_to_seconds, RaceDataLoader.str_split.
  cbn [pd_isna bind].
  destruct (split ":"%char s) as [| a [| b [| c r]]] eqn:E;
    cbn [List.length Nat.eqb item nth_error bind float_of].
  1, 2, 4:
    destruct (float_of_str s) as [f | e]; cbn [bind try_except];
    [ intro H; inversion H; subst; right; split; [discriminate | reflexivity]
    | discriminate ].
  destruct (int_of_str a) as [m | e] eqn:Ea; cbn [bind try_except];
    [|discriminate].
  destruct (float_of_str b) as [sec | e] eqn:Eb; cbn [bind try_except];
    [|discriminate].
  intro H. inversion H; subst. left. exists a, b, m, sec.
  repeat split; assumption.
Qed.

Lemma time_to_seconds_examples :
  RaceDataLoader._time_to_seconds (VStr "1:36.500") = Some (Fin 96.500)
  /\ RaceDataLoader._time_to_seconds (VStr "96.5") = Some (Fin 96.5)
  /\ RaceDataLoader._time_to_seconds (VStr "abc") = None
  /\ RaceDataLoader._time_to_seconds (VStr "1:2:3") = None
  /\ RaceDataLoader._time_to_seconds VNone = None.
Proof.
  repeat split; vm_compute; reflexivity.
Qed.

(** C5: the [parse_time] of the strategy analyzer does not reject the
    malformed text "1:2:3": it reads the first two fields and returns 62
    seconds, where the loader's [_time_to_seconds] returns the absent marker.
    On "abc" both return the absent marker. *)
Theorem parse_time_reads_first_two_fields :
  RaceStrategyAnalyzer.parse_time (VStr "1:2:3") = Some (Fin 62)
  /\ RaceDataLoader._time_to_seconds (VStr "1:2:3") = None
  /\ RaceStrategyAnalyzer.parse_time (VStr "abc") = None
  /\ RaceDataLoader._time_to_seconds (VStr "abc") = None.
Proof.
  repeat split; vm_compute; reflexivity.
Qed.

End TimeParsing.

(** ** Fuel strategy (src/analysis/race_strategy.py) *)

Section Fuel.
Import Py Pandas RaceStrategyAnalyzer.
Local Open Scope string_scope.
Local Open Scope Z_scope.

(** C4 (code bug): the claim promises a record with needs_pit = false
    whenever the supplied fuel covers the remaining consumption.  On
    [parked] the average speed is 0, so the remaining consumption is 0 and
    the supplied 10 l cover it; but the laps-on-fuel division has no guard
    on its divisor, the quotient is infinite, and [int()] raises: the
    function returns no record. *)
Lemma parked_vehicle_gets_no_fuel_record :
  List.length (of_vehicle parked 13) = 1%nat
  /\ (exists adj, adjusted_consumption parked (of_vehicle parked 13) = Fin adj
                  /\ (inject_Z (10 - 5) * adj <= 10)%Q)
  /\ calculate_fuel_strategy parked 13 5 10 (Some 10%Q) = Raise OverflowError.
Proof.
  split; [reflexivity|]. split.
  - eexists. split; [vm_compute; reflexivity|]. vm_compute. discriminate.
  - vm_compute. reflexivity.
Qed.

(** The specification's fourth scenario: at lap 20 with average speed 120
    the fuel is estimated at 50 - 20 * 0.08 = 48.4 l, good for 605 laps. *)
Lemma steady_stint_fuel :
  calculate_fuel_strategy steady_stint 13 20 27 None
  = Ok (Dict {| needs_pit := false;
                recommended_pit_lap := None;
                laps_on_current_fuel := 605;
                current_fuel_liters := Fin 48.40;
                fuel_to_add_liters := None;
                consumption_per_lap := Fin 0.080;
                fuel_message :=
                  "Sufficient fuel to finish race. No pit stop required." |}).
Proof.
  vm_compute. reflexivity.
Qed.

End Fuel.

(** ** Theoretical best lap (src/analysis/racing_line.py) *)

Section PotentialLapTime.
Import Py Pandas RacingLineAnalyzer.
Local Open Scope Z_scope.

Lemma Qmin_cases (x y : Q) :
  (Qmin x y = x /\ (x <= y)%Q) \/ (Qmin x y = y /\ (y <= x)%Q).
Proof.
  unfold Qmin. destruct (Qle_bool x y) eqn:E.
  - left. split; [reflexivity|]. now apply Qle_bool_iff.
  - right. split; [reflexivity|].
    apply Qlt_le_weak, Qltb_lt. unfold Qltb. now rewrite E.
Qed.

Lemma Qmin_lower (x y : Q) : (Qmin x y <= x)%Q /\ (Qmin x y <= y)%Q.
Proof.
  destruct (Qmin_cases x y) as [[E H] | [E H]]; rewrite E;
    split; try exact H; apply Qle_refl.
Qed.

Lemma fold_Qmin_least (r : list Q) :
  forall x, In (fold_left Qmin r x) (x :: r)
            /\ forall y, In y (x :: r) -> (fold_left Qmin r x <= y)%Q.
Proof.
  induction r as [| a r IH]; intro x; cbn [fold_left].
  - split; [now left|]. intros y [<- | []]. apply Qle_refl.
  - destruct (IH (Qmin x a)) as [Hin Hle]. split.
    + destruct Hin as [Hin | Hin]; [|right; now right].
      rewrite <- Hin.
      destruct (Qmin_cases x a) as [[E _] | [E _]]; rewrite E;
        [now left | right; now left].
    + intros y Hy.
      assert (Hm : (fold_left Qmin r (Qmin x a) <= Qmin x a)%Q)
        by (apply Hle; now left).
      destruct (Qmin_lower x a) as [Hx Ha].
      destruct Hy as [<- | [<- | Hy]].
      * eapply Qle_trans; eassumption.
      * eapply Qle_trans; eassumption.
      * apply Hle. now right.
Qed.

Lemma dropna_In (col : list (option Q)) (x : Q) :
  In x (dropna col) <-> In (Some x) col.
Proof.
  induction col as [| [c|] col IH]; cbn.
  - tauto.
  - rewrite IH. split; intros [H | H]; auto; left; congruence.
  - rewrite IH. split; [auto | intros [H | H]; [discriminate | exact H]].
Qed.

Lemma col_min_is_minimum (col : list (option Q)) :
  column_minimum col (col_min col).
Proof.
  unfold col_min.
  destruct (dropna col) as [| x r] eqn:E; cbn.
  - intros y Hy. apply dropna_In in Hy. rewrite E in Hy. exact Hy.
  - destruct (fold_Qmin_least r x) as [Hin Hle]. split.
    + apply dropna_In. rewrite E. exact Hin.
    + intros y Hy. apply Hle. rewrite <- E. now apply dropna_In.
Qed.

Lemma round_half_even_nonneg (q : Q) : (0 <= q)%Q -> 0 <= round_half_even q.
Proof.
  intro H. unfold round_half_even.
  assert (Hf : 0 <= Qfloor q) by (apply (Qfloor_resp_le 0 q H)).
  destruct (Qltb _ _); [exact Hf|].
  destruct (Qltb _ _); [lia|].
  destruct (Z.even _); lia.
Qed.

Lemma round_nonneg (q : Q) (n : nat) : (0 <= q)%Q -> (0 <= round q n)%Q.
Proof.
  intro H. unfold round.
  assert (Hs : (0 < inject_Z (10 ^ Z.of_nat n))%Q).
  { rewrite <- (Zlt_Qlt 0). apply Z.pow_pos_nonneg; lia. }
  apply Qle_shift_div_l; [exact Hs|].
  rewrite Qmult_0_l, <- (Zle_Qle 0).
  apply round_half_even_nonneg.
  apply Qmult_le_0_compat; [exact H | now apply Qlt_le_weak].
Qed.

(** C9: for a vehicle with at least one lap, [calculate_potential_lap_time]
    returns theoretical_best = round3 of the sum of the minima of the three
    sector columns, and improvement_potential = round3 of (the minimum of the
    lap-time column minus that sum); when every lap's three sector times add
    up to its lap time, improvement_potential is a non-negative number. *)
Theorem theoretical_best_is_sum_of_sector_minima (df : DataFrame) (v : Z) :
  of_vehicle df v <> [] ->
  exists r m1 m2 m3 best,
    calculate_potential_lap_time df v = Some r
    /\ column_minimum (map S1_SECONDS (of_vehicle df v)) m1
    /\ column_minimum (map S2_SECONDS (of_vehicle df v)) m2
    /\ column_minimum (map S3_SECONDS (of_vehicle df v)) m3
    /\ column_minimum (map lap_time_seconds (of_vehicle df v)) best
    /\ theoretical_best r = fround (fadd (fadd m1 m2) m3) 3
    /\ improvement_potential r = fround (fsub best (fadd (fadd m1 m2) m3)) 3
    /\ (sectors_sum_to_lap_time (of_vehicle df v) ->
        exists x, improvement_potential r = Fin x /\ (0 <= x)%Q).
Proof.
  intro Hne. unfold calculate_potential_lap_time. cbv zeta.
  destruct (of_vehicle df v) as [| r0 l] eqn:E; [contradiction|].
  cbn [List.length Nat.eqb]. rewrite <- E. clear Hne.
  set (laps := of_vehicle df v).
  pose proof (col_min_is_minimum (map S1_SECONDS laps)) as H1.
  pose proof (col_min_is_minimum (map S2_SECONDS laps)) as H2.
  pose proof (col_min_is_minimum (map S3_SECONDS laps)) as H3.
  pose proof (col_min_is_minimum (map lap_time_seconds laps)) as Hb.
  eexists. exists (col_min (map S1_SECONDS laps)), (col_min (map S2_SECONDS laps)),
    (col_min (map S3_SECONDS laps)), (col_min (map lap_time_seconds laps)).
  split; [reflexivity|].
  do 4 (split; [assumption|]).
  split; [reflexivity|]. split; [reflexivity|].
  intro Hsum. cbn [improvement_potential].
  assert (Hlap : exists r, In r laps) by (exists r0; subst laps; rewrite E; now left).
  unfold sectors_sum_to_lap_time in Hsum. rewrite Forall_forall in Hsum.
  (* every column has a present cell, so its minimum is a number *)
  destruct Hlap as [r Hr].
  destruct (Hsum r Hr) as (a1 & a2 & a3 & t & E1 & E2 & E3 & Et & _).
  destruct (col_min (map S1_SECONDS laps)) as [m1 | | |];
    [| contradiction | contradiction
     | exfalso; apply (H1 a1); rewrite <- E1; now apply in_map ].
  destruct (col_min (map S2_SECONDS laps)) as [m2 | | |];
    [| contradiction | contradiction
     | exfalso; apply (H2 a2); rewrite <- E2; now apply in_map ].
  destruct (col_min (map S3_SECONDS laps)) as [m3 | | |];
    [| contradiction | contradiction
     | exfalso; apply (H3 a3); rewrite <- E3; now apply in_map ].
  destruct (col_min (map lap_time_seconds laps)) as [best | | |];
    [| contradiction | contradiction
     | exfalso; apply (Hb t); rewrite <- Et; now apply in_map ].
  cbn in H1, H2, H3, Hb. cbn [fadd fsub fopp fround].
  eexists. split; [reflexivity|]. apply round_nonneg.
  (* the best lap is some lap, whose sectors bound the column minima *)
  destruct Hb as [Hbin _]. apply in_map_iff in Hbin.
  destruct Hbin as (rb & Hrb & Hinb).
  destruct (Hsum rb Hinb) as (s1 & s2 & s3 & tb & F1 & F2 & F3 & Ft & Hadd).
  assert (Htb : tb = best) by congruence. subst tb.
  assert (L1 : (m1 <= s1)%Q)
    by (apply (proj2 H1); rewrite <- F1; now apply in_map).
  assert (L2 : (m2 <= s2)%Q)
    by (apply (proj2 H2); rewrite <- F2; now apply in_map).
  assert (L3 : (m3 <= s3)%Q)
    by (apply (proj2 H3); rewrite <- F3; now apply in_map).
  lra.
Qed.

(** The sector times of [steady_stint] add up to its lap times. *)
Lemma steady_stint_sectors : sectors_sum_to_lap_time (of_vehicle steady_stint 13).
Proof.
  unfold sectors_sum_to_lap_time. vm_compute of_vehicle.
  repeat constructor;
    eexists; eexists; eexists; eexists;
    (repeat split; try reflexivity).
Defined.

(** On [steady_stint] the theoretical best is 32 + 32 + 32 = 96 s. *)
Lemma theoretical_best_is_sum_of_sector_minima_witness :
  exists r, calculate_potential_lap_time steady_stint 13 = Some r
            /\ theoretical_best r = Fin 96.000
            /\ exists x, improvement_potential r = Fin x /\ (0 <= x)%Q.
Proof.
  destruct (theoretical_best_is_sum_of_sector_minima steady_stint 13)
    as (r & m1 & m2 & m3 & best & Hr & _ & _ & _ & _ & _ & _ & Himp).
  - discriminate.
  - exists r. split; [exact Hr|]. split.
    + vm_compute in Hr. injection Hr as <-. reflexivity.
    + apply Himp. exact steady_stint_sectors.
Defined.

End PotentialLapTime.

(** ** The pit-lap search (src/analysis/race_strategy.py) *)

Section PitSearch.
Import Py Pandas RaceStrategyAnalyzer.
Local Open Scope Z_scope.

Lemma in_range (a b p : Z) : In p (range a b) <-> a <= p < b.
Proof.
  unfold range. rewrite in_map_iff. split.
  - intros (i & <- & Hi). apply in_seq in Hi. lia.
  - intro H. exists (Z.to_nat (p - a)). split; [lia|].
    apply in_seq. lia.
Qed.

Lemma sum_range_nonpos (f : Z -> pyfloat) (n : Z) :
  n <= 0 -> sum_range f n = Fin 0.
Proof.
  intro H. unfold sum_range, range.
  replace (Z.to_nat (n - 0)) with 0%nat by lia. reflexivity.
Qed.

Lemma sum_range_succ (f : Z -> pyfloat) (k : nat) :
  sum_range f (Z.of_nat (S k))
  = fadd (sum_range f (Z.of_nat k)) (f (Z.of_nat k)).
Proof.
  unfold sum_range, range.
  rewrite !Z.sub_0_r, !Nat2Z.id, seq_S, map_app, fold_left_app.
  reflexivity.
Qed.

Lemma triangular_nat (k : nat) :
  (triangular (Z.of_nat k)
   == inject_Z (Z.of_nat k) * (inject_Z (Z.of_nat k) - 1) / 2)%Q.
Proof.
  unfold triangular. destruct (Z.leb_spec (Z.of_nat k) 0) as [H | H].
  - replace (Z.of_nat k) with 0 by lia. reflexivity.
  - rewrite inject_Z_mult. unfold Z.sub. rewrite inject_Z_plus. reflexivity.
Qed.

Lemma triangular_succ (k : nat) :
  (triangular (Z.of_nat (S k))
   == triangular (Z.of_nat k) + inject_Z (Z.of_nat k))%Q.
Proof.
  rewrite !triangular_nat, Nat2Z.inj_succ. unfold Z.succ.
  rewrite inject_Z_plus. field.
Qed.

(** A sum of terms [c * i] over [range(n)] is [c] times a triangular number. *)
Lemma sum_range_weighted (w : Z -> Q) (c : Q) (n : Z) :
  (forall i, w i == c * inject_Z i)%Q ->
  exists q, sum_range (fun i => Fin (w i)) n = Fin q
            /\ (q == c * triangular n)%Q.
Proof.
  intro Hw. destruct (Z.leb_spec n 0) as [Hn | Hn].
  - exists 0%Q. split; [now apply sum_range_nonpos|].
    unfold triangular. apply Z.leb_le in Hn. rewrite Hn. ring.
  - rewrite <- (Z2Nat.id n) by lia. generalize (Z.to_nat n) as k. clear n Hn.
    induction k as [| k (q & Hq & Eq)].
    + exists 0%Q. split; [reflexivity|]. cbn. ring.
    + exists (q + w (Z.of_nat k))%Q. split.
      * rewrite sum_range_succ, Hq. reflexivity.
      * rewrite Eq, Hw, !triangular_nat, Nat2Z.inj_succ.
        unfold Z.succ. rewrite inject_Z_plus. field.
Qed.

Lemma degradation_cost_closed (r : Q) (n : Z) :
  exists q, degradation_cost (Fin r) n = Fin q /\ (q == r * triangular n)%Q.
Proof.
  apply (sum_range_weighted (fun i => r * inject_Z i)%Q r).
  intro i. reflexivity.
Qed.

Lemma fresh_tire_cost_closed (r : Q) (n : Z) :
  exists q, fresh_tire_cost (Fin r) n = Fin q
            /\ (q == (3 # 10) * (r * triangular n))%Q.
Proof.
  destruct (sum_range_weighted (fun i => r * inject_Z i * (3 # 10))%Q
                               (r * (3 # 10))%Q n) as (q & Hq & Eq).
  - intro i. ring.
  - exists q. split; [exact Hq|]. rewrite Eq. ring.
Qed.

Lemma total_time_lost_closed (r : Q) (cur total p : Z) :
  exists c, total_time_lost (Fin r) cur total p = Fin c
            /\ (c == projected_cost r cur total p)%Q.
Proof.
  unfold total_time_lost, projected_cost. cbv zeta.
  destruct (degradation_cost_closed r (p - cur)) as (b & Hb & Eb).
  destruct (fresh_tire_cost_closed r (total - p)) as (a & Ha & Ea).
  rewrite Hb, Ha. eexists. split; [reflexivity|].
  rewrite Eb, Ea. reflexivity.
Qed.

(** *** The rate is a number on numeric lap times *)

Lemma fold_fadd_finite (l : list pyfloat) :
  Forall finite l -> forall q, finite (fold_left fadd l (Fin q)).
Proof.
  induction 1 as [| f l [x ->] _ IH]; intro q; cbn [fold_left].
  - now exists q.
  - apply IH.
Qed.

Lemma Qeq_bool_of_nat_pos (n : nat) :
  (0 < n)%nat -> Qeq_bool (inject_Z (Z.of_nat n)) 0 = false.
Proof.
  intro H. destruct (Qeq_bool _ 0) eqn:E; [|reflexivity].
  apply Qeq_bool_eq in E. unfold Qeq in E. cbn in E. lia.
Qed.

Lemma fmean_finite (l : list pyfloat) :
  l <> [] -> Forall finite l -> finite (fmean l).
Proof.
  intros Hne Hall. unfold fmean.
  destruct (fold_fadd_finite l Hall 0) as [s ->]. cbn [fdiv].
  rewrite Qeq_bool_of_nat_pos.
  - eexists. reflexivity.
  - destruct l; [contradiction | cbn; lia].
Qed.

Lemma effective_rate_finite (secs : list pyfloat) (rate : pyfloat) :
  finite rate -> Forall finite secs -> finite (effective_rate secs rate).
Proof.
  intros Hrate Hall. unfold effective_rate. cbv zeta.
  destruct (Nat.leb_spec 10 (List.length secs)) as [Hlen | Hlen];
    [|exact Hrate].
  destruct (fmean_finite (head 5 secs)) as [e ->].
  { intro Hnil. apply (f_equal (@List.length _)) in Hnil.
    unfold head in Hnil. rewrite length_firstn in Hnil.
    cbn [List.length] in Hnil. lia. }
  { unfold head. rewrite <- (firstn_skipn 5 secs) in Hall.
    now apply Forall_app in Hall. }
  destruct (fmean_finite (tail 5 secs)) as [t ->].
  { intro Hnil. apply (f_equal (@List.length _)) in Hnil.
    unfold tail in Hnil. rewrite length_skipn in Hnil.
    cbn [List.length] in Hnil. lia. }
  { now apply tail_Forall. }
  cbn [fsub fopp fadd fdiv].
  rewrite Qeq_bool_of_nat_pos by lia.
  cbn [flt]. destruct (Qltb _ _); eexists; reflexivity.
Qed.

(** *** The loop invariant *)

Lemma search_step_first (r : Q) (cur total b p : Z) :
  best_so_far r cur total [p] (search_step (Fin r) cur total (b, PInf) p).
Proof.
  unfold search_step. cbv zeta.
  destruct (total_time_lost_closed r cur total p) as (c & Hc & Ec).
  rewrite Hc. cbn [snd flt].
  exists c. cbn [fst snd]. split; [reflexivity|]. split; [now left|].
  split; [exact Ec|]. intros p' [<- | []]. rewrite Ec. apply Qle_refl.
Qed.

Lemma search_step_keeps (r : Q) (cur total : Z) (seen : list Z)
      (st : Z * pyfloat) (p : Z) :
  best_so_far r cur total seen st ->
  best_so_far r cur total (seen ++ [p]) (search_step (Fin r) cur total st p).
Proof.
  intros (c & Hst & Hin & Ec & Hle).
  unfold search_step. cbv zeta.
  destruct (total_time_lost_closed r cur total p) as (t & Ht & Et).
  rewrite Ht, Hst. cbn [flt].
  destruct (Qltb t c) eqn:E.
  - apply Qltb_lt in E. exists t. cbn [fst snd].
    split; [reflexivity|]. split; [apply in_or_app; right; now left|].
    split; [exact Et|]. intros p' Hp'. apply in_app_or in Hp'.
    destruct Hp' as [Hp' | [<- | []]].
    + specialize (Hle p' Hp'). lra.
    + rewrite Et. apply Qle_refl.
  - apply Qltb_ge in E. exists c.
    split; [exact Hst|]. split; [apply in_or_app; now left|].
    split; [exact Ec|]. intros p' Hp'. apply in_app_or in Hp'.
    destruct Hp' as [Hp' | [<- | []]].
    + now apply Hle.
    + rewrite <- Et. exact E.
Qed.

Lemma search_fold_keeps (r : Q) (cur total : Z) (l : list Z) :
  forall seen st,
    best_so_far r cur total seen st ->
    best_so_far r cur total (seen ++ l)
                (fold_left (search_step (Fin r) cur total) l st).
Proof.
  induction l as [| p l IH]; intros seen st H; cbn [fold_left].
  - now rewrite app_nil_r.
  - replace (seen ++ p :: l)%list with ((seen ++ [p]) ++ l)%list
      by (rewrite <- app_assoc; reflexivity).
    apply IH. now apply search_step_keeps.
Qed.

Lemma search_empty (rate : pyfloat) (cur total : Z) :
  total - 3 < cur + 1 -> search rate cur total = (cur + 1, PInf).
Proof.
  intro H. unfold search, range.
  replace (Z.to_nat (total - 2 - (cur + 1))) with 0%nat by lia. reflexivity.
Qed.

Lemma search_best (r : Q) (cur total : Z) :
  cur + 1 <= total - 3 ->
  best_so_far r cur total (range (cur + 1) (total - 2))
              (search (Fin r) cur total).
Proof.
  intro H. unfold search.
  destruct (range (cur + 1) (total - 2)) as [| p l] eqn:E.
  - exfalso. assert (Hin : In (cur + 1) (range (cur + 1) (total - 2)))
      by (apply in_range; lia).
    rewrite E in Hin. exact Hin.
  - cbn [fold_left].
    apply (search_fold_keeps r cur total l [p]), search_step_first.
Qed.

(** Past a non-empty search range, the last lap before total_laps-2 is
    cheaper than total_laps-2 when the rate is positive. *)
Lemma last_candidate_beats_next (r : Q) (cur total : Z) :
  cur + 1 <= total - 3 -> (0 < r)%Q ->
  (projected_cost r cur total (total - 3)
   <= projected_cost r cur total (total - 2))%Q.
Proof.
  intros H Hr. unfold projected_cost.
  replace (total - (total - 3)) with 3 by lia.
  replace (total - (total - 2)) with 2 by lia.
  set (n := Z.to_nat (total - 3 - cur)).
  replace (total - 2 - cur) with (Z.of_nat (S n)) by lia.
  replace (total - 3 - cur) with (Z.of_nat n) by lia.
  rewrite triangular_succ.
  assert (T3 : (triangular 3 == 3)%Q) by reflexivity.
  assert (T2 : (triangular 2 == 1)%Q) by reflexivity.
  rewrite T3, T2.
  assert (Hk : (1 <= inject_Z (Z.of_nat n))%Q)
    by (rewrite <- (Zle_Qle 1); lia).
  assert (Hp : (0 <= r * (inject_Z (Z.of_nat n) - 1))%Q)
    by (apply Qmult_le_0_compat; lra).
  unfold pit_stop_time. lra.
Qed.

(** C3 (amended): with at least 5 laps and a finite degradation rate, the
    search of [calculate_optimal_pit_strategy] runs over the candidates
    current_lap+1 .. total_laps-3 (Python's range(current_lap+1,
    total_laps-2)).  When there is no candidate it returns current_lap+1 and
    should_pit = false.  Otherwise it returns a candidate whose projected cost
    (rate times a triangular number before the stop, plus the pit-stop time,
    plus 30% of the rate times a triangular number after it) is least among
    the candidates; should_pit is true exactly when the baseline cost minus
    that least cost exceeds 5 seconds; and for a positive rate the returned
    candidate is also no dearer than total_laps-2. *)
Theorem optimal_pit_lap_minimises_cost
        (df : DataFrame) (v cur total : Z) (rate : pyfloat) (r : Q) :
  (5 <= List.length (of_vehicle df v))%nat ->
  effective_rate (lap_seconds (of_vehicle df v)) rate = Fin r ->
  exists s,
    calculate_optimal_pit_strategy df v cur total rate = Dict s
    /\ (total - 3 < cur + 1 ->
        optimal_pit_lap s = cur + 1 /\ should_pit s = false)
    /\ (cur + 1 <= total - 3 ->
        cur + 1 <= optimal_pit_lap s <= total - 3
        /\ (forall p, cur + 1 <= p <= total - 3 ->
              (projected_cost r cur total (optimal_pit_lap s)
               <= projected_cost r cur total p)%Q)
        /\ (should_pit s = true <->
            (5 < baseline_cost r cur total
                 - projected_cost r cur total (optimal_pit_lap s))%Q)
        /\ ((0 < r)%Q ->
            (projected_cost r cur total (optimal_pit_lap s)
             <= projected_cost r cur total (total - 2))%Q)).
Proof.
  intros Hlen Hrate.
  unfold calculate_optimal_pit_strategy. cbv zeta.
  apply Nat.ltb_ge in Hlen. rewrite Hlen, Hrate.
  destruct (degradation_cost_closed r (total - cur)) as (np & Hnp & Enp).
  rewrite Hnp.
  destruct (search (Fin r) cur total) as [b m] eqn:Es.
  eexists. split; [reflexivity|]. cbn [optimal_pit_lap should_pit]. split.
  - intro Hempty. rewrite (search_empty (Fin r) cur total Hempty) in Es.
    injection Es as <- <-. split; reflexivity.
  - intro Hcand.
    pose proof (search_best r cur total Hcand) as Hbest.
    rewrite Es in Hbest. destruct Hbest as (c & Hm & Hin & Ec & Hle).
    cbn [fst snd] in *. subst m. apply in_range in Hin.
    assert (Hmin : forall p, cur + 1 <= p <= total - 3 ->
              (projected_cost r cur total b <= projected_cost r cur total p)%Q).
    { intros p Hp. rewrite <- Ec. apply Hle, in_range. lia. }
    split; [lia|]. split; [exact Hmin|]. split.
    + cbn [fsub fopp fadd flt]. rewrite Qltb_lt.
      unfold baseline_cost. rewrite <- Enp, <- Ec.
      split; intro H; lra.
    + intro Hr.
      eapply Qle_trans; [apply (Hmin (total - 3)); lia|].
      now apply last_candidate_beats_next.
Qed.

(** C3, as stated, fails at lap 10 of 13 with an assumed rate of 20 s/lap
    on [steady_stint] (5 laps): lap 11 = current_lap+1 = total_laps-2 is a
    candidate of the stated range, its cost 51 s is 9 s below the baseline
    60 s, yet the search range is empty and should_pit is false. *)
Lemma single_candidate_is_never_searched :
  10 + 1 <= 11 <= 13 - 2
  /\ (5 < baseline_cost 20 10 13 - projected_cost 20 10 13 11)%Q
  /\ calculate_optimal_pit_strategy steady_stint 13 10 13 (Fin 20)
     = Dict {| should_pit := false;
               optimal_pit_lap := 11;
               laps_until_pit := 1;
               time_saved_seconds := NInf;
               degradation_rate := Fin 20.0000;
               time_lost_no_pit := Fin 60.00;
               time_lost_with_pit := PInf;
               message := "Stay out - costs infs" |}.
Proof.
  split; [lia|]. split; vm_compute; reflexivity.
Qed.

(** The search on [steady_stint] at lap 15 of 27 with the default rate. *)
Lemma optimal_pit_lap_minimises_cost_witness :
  exists s,
    calculate_optimal_pit_strategy steady_stint 13 15 27 (Fin 0.05) = Dict s
    /\ 15 + 1 <= optimal_pit_lap s <= 27 - 3
    /\ (projected_cost 0.05 15 27 (optimal_pit_lap s)
        <= projected_cost 0.05 15 27 20)%Q.
Proof.
  destruct (optimal_pit_lap_minimises_cost steady_stint 13 15 27 (Fin 0.05) 0.05)
    as (s & Hs & _ & Hsearch).
  - vm_compute. lia.
  - vm_compute. reflexivity.
  - exists s. split; [exact Hs|].
    destruct Hsearch as (Hin & Hmin & _); [lia|].
    split; [exact Hin|]. apply Hmin. lia.
Defined.

End PitSearch.

(* ================================================================= *)
(** * Further properties of the embedded code *)

(** Comparisons of the float model, as facts about rationals. *)
Ltac qltb_hyps :=
  repeat match goal with
         | H : Py.Qltb _ _ = true |- _ => apply Qltb_lt in H
         | H : Py.Qltb _ _ = false |- _ => apply Qltb_ge in H
         end.

(** ** Lap numbers (src/telemetry_processor.py) *)

Section LapNumbers.
Import Py TelemetryProcessor.
Local Open Scope Z_scope.

(** X1: the normalised lap number always lies in [-1, 100], so the sentinel
    32768 never survives, and normalising twice changes nothing. *)
Theorem normalize_lap_number_range_idempotent (lap : Z) :
  -1 <= normalize_lap_number lap <= 100
  /\ normalize_lap_number lap <> 32768
  /\ normalize_lap_number (normalize_lap_number lap) = normalize_lap_number lap.
Proof.
  unfold normalize_lap_number.
  destruct (lap =? 32768) eqn:E1; cbn [orb]; [repeat split; lia|].
  destruct (lap <? 0) eqn:E2; cbn [orb]; [repeat split; lia|].
  destruct (lap >? 100) eqn:E3; [repeat split; lia|].
  rewrite E1, E2, E3. cbn [orb].
  apply Z.eqb_neq in E1. apply Z.ltb_ge in E2.
  rewrite Z.gtb_ltb in E3. apply Z.ltb_ge in E3.
  repeat split; lia.
Qed.

End LapNumbers.

(** ** The degradation table (src/analysis/tire_degradation.py) *)

Section DegradationTable.
Import Py Pandas TireDegradationAnalyzer.
Local Open Scope Z_scope.

Lemma insert_row_sorted (x : LapRow) (l : list LapRow) :
  Sorted lap_order l -> Sorted lap_order (insert_row x l).
Proof.
  induction l as [| y l IH]; intro Hs; cbn.
  - repeat constructor.
  - destruct (Z.leb_spec (LAP_NUMBER x) (LAP_NUMBER y)) as [Hle | Hgt].
    + constructor; [exact Hs|]. constructor. exact Hle.
    + inversion Hs as [| ? ? Hl Hhd]; subst.
      constructor; [now apply IH|].
      destruct l as [| z l]; cbn.
      * constructor. unfold lap_order. lia.
      * destruct (LAP_NUMBER x <=? LAP_NUMBER z).
        -- constructor. unfold lap_order. lia.
        -- constructor. now inversion Hhd.
Qed.

Lemma sort_values_sorted (l : list LapRow) : Sorted lap_order (sort_values l).
Proof.
  induction l as [| x l IH]; cbn; [constructor | now apply insert_row_sorted].
Qed.

(** X2: [analyze_lap_degradation] returns exactly the vehicle's laps, each
    once, in ascending lap order. *)
Theorem analyze_lap_degradation_sorted_laps (df : DataFrame) (v : Z) :
  Permutation (map lap (analyze_lap_degradation df v)) (of_vehicle df v)
  /\ Sorted lap_order (map lap (analyze_lap_degradation df v)).
Proof.
  rewrite analyze_laps. split; [apply sort_values_perm | apply sort_values_sorted].
Qed.

Lemma zip_rows_In (best : pyfloat) (ls : list LapRow) :
  forall roll dl r,
    In r (zip_rows ls roll dl best) ->
    In (lap r) ls
    /\ delta_to_best r = cell_sub (lap_time_seconds (lap r)) best
    /\ estimated_tire_life r = tire_life (LAP_NUMBER (lap r)).
Proof.
  induction ls as [| l ls IH]; intros roll dl r Hin; cbn in Hin; [contradiction|].
  destruct roll as [| x roll]; [contradiction|].
  destruct dl as [| d dl]; [contradiction|].
  destruct Hin as [<- | Hin].
  - cbn. repeat split. now left.
  - destruct (IH _ _ _ Hin) as (H1 & H2 & H3). repeat split; auto. now right.
Qed.

(** What a row of the result holds, and where it comes from. *)
Lemma analyze_row (df : DataFrame) (v : Z) (r : DegRow) :
  In r (analyze_lap_degradation df v) ->
  In (lap r) (of_vehicle df v)
  /\ delta_to_best r
     = cell_sub (lap_time_seconds (lap r))
                (col_min (map lap_time_seconds (sort_values (of_vehicle df v))))
  /\ estimated_tire_life r = tire_life (LAP_NUMBER (lap r)).
Proof.
  unfold analyze_lap_degradation.
  destruct (of_vehicle df v) as [| r0 l] eqn:E; [contradiction|].
  cbn [List.length Nat.eqb]. intro Hin.
  destruct (zip_rows_In _ _ _ _ _ Hin) as (H1 & H2 & H3).
  split; [|split; assumption].
  eapply Permutation_in; [apply sort_values_perm | exact H1].
Qed.

(** X3: the delta to the best lap is never negative, and it is zero on some
    lap as soon as the vehicle has one lap with a lap time. *)
Theorem delta_to_best_nonnegative (df : DataFrame) (v : Z) :
  (forall r d, In r (analyze_lap_degradation df v) ->
               delta_to_best r = Some d -> (0 <= d)%Q)
  /\ ((exists x, In x (of_vehicle df v) /\ lap_time_seconds x <> None) ->
      exists r d, In r (analyze_lap_degradation df v)
                  /\ delta_to_best r = Some d /\ (d == 0)%Q).
Proof.
  pose proof (col_min_is_minimum
                (map lap_time_seconds (sort_values (of_vehicle df v)))) as Hmin.
  split.
  - intros r d Hin Hd.
    destruct (analyze_row df v r Hin) as (Hlap & Hdelta & _).
    rewrite Hdelta in Hd.
    destruct (lap_time_seconds (lap r)) as [t|] eqn:Et; [|discriminate].
    destruct (col_min _) as [b | | |]; try discriminate.
    cbn in Hd. injection Hd as <-. cbn in Hmin.
    assert (Hb : (b <= t)%Q).
    { apply (proj2 Hmin). rewrite <- Et. apply in_map.
      eapply Permutation_in; [symmetry; apply sort_values_perm | exact Hlap]. }
    lra.
  - intros (x & Hx & Hpresent).
    destruct (lap_time_seconds x) as [t|] eqn:Et; [|contradiction].
    destruct (col_min _) as [b | | |] eqn:Eb; cbn in Hmin; try contradiction.
    + destruct Hmin as [Hbin _]. apply in_map_iff in Hbin.
      destruct Hbin as (l & Hl & Hlin).
      assert (Hex : exists r, In r (analyze_lap_degradation df v) /\ lap r = l).
      { rewrite <- analyze_laps in Hlin. apply in_map_iff in Hlin.
        destruct Hlin as (r & Hr & Hrin). now exists r. }
      destruct Hex as (r & Hrin & Hr).
      destruct (analyze_row df v r Hrin) as (_ & Hdelta & _).
      rewrite Hr, Hl, Eb in Hdelta. cbn in Hdelta.
      exists r, (b - b)%Q. split; [exact Hrin|]. split; [exact Hdelta | ring].
    + exfalso. apply (Hmin t). rewrite <- Et. apply in_map.
      eapply Permutation_in; [symmetry; apply sort_values_perm | exact Hx].
Qed.

Lemma tire_life_bounds (n : Z) : (0 <= tire_life n <= 100)%Q.
Proof.
  unfold tire_life. cbv zeta.
  destruct (Qltb _ 0) eqn:E1; [split; discriminate|].
  destruct (Qltb 100 _) eqn:E2; [split; discriminate|].
  apply Qltb_ge in E1. apply Qltb_ge in E2. split; assumption.
Qed.

Lemma tire_life_raw_antitone (a b : Z) :
  a <= b ->
  (100 - inject_Z b / inject_Z stint_length * 100
   <= 100 - inject_Z a / inject_Z stint_length * 100)%Q.
Proof.
  intro H. rewrite Zle_Qle in H. unfold stint_length.
  change (inject_Z 15) with 15%Q.
  unfold Qdiv. set (x := inject_Z a) in *. set (y := inject_Z b) in *.
  change (/ 15)%Q with (1 # 15)%Q. lra.
Qed.

Lemma tire_life_antitone (a b : Z) :
  a <= b -> (tire_life b <= tire_life a)%Q.
Proof.
  intro H. pose proof (tire_life_raw_antitone a b H) as Hraw.
  unfold tire_life. cbv zeta.
  set (x := (100 - inject_Z b / inject_Z stint_length * 100)%Q) in *.
  set (y := (100 - inject_Z a / inject_Z stint_length * 100)%Q) in *.
  destruct (Qltb x 0) eqn:A2; destruct (Qltb 100 x) eqn:B2;
    destruct (Qltb y 0) eqn:A1; destruct (Qltb 100 y) eqn:B1;
    qltb_hyps; lra.
Qed.

Lemma tire_life_worn (n : Z) : 15 <= n -> (tire_life n == 0)%Q.
Proof.
  intro H. pose proof (tire_life_antitone 15 n H) as Hle.
  pose proof (tire_life_bounds n) as [H0 _].
  assert (H15 : (tire_life 15 == 0)%Q) by reflexivity.
  lra.
Qed.

(** X4: the estimated tire life lies in [0, 100], is 0 from lap 15 on, and
    never rises from a lap to a later lap. *)
Theorem estimated_tire_life_bounded_antitone (df : DataFrame) (v : Z) :
  (forall r, In r (analyze_lap_degradation df v) ->
             (0 <= estimated_tire_life r <= 100)%Q
             /\ (15 <= LAP_NUMBER (lap r) -> (estimated_tire_life r == 0)%Q))
  /\ (forall r1 r2, In r1 (analyze_lap_degradation df v) ->
                    In r2 (analyze_lap_degradation df v) ->
                    LAP_NUMBER (lap r1) <= LAP_NUMBER (lap r2) ->
                    (estimated_tire_life r2 <= estimated_tire_life r1)%Q).
Proof.
  split.
  - intros r Hin. destruct (analyze_row df v r Hin) as (_ & _ & ->).
    split; [apply tire_life_bounds | apply tire_life_worn].
  - intros r1 r2 H1 H2 Hle.
    destruct (analyze_row df v r1 H1) as (_ & _ & ->).
    destruct (analyze_row df v r2 H2) as (_ & _ & ->).
    now apply tire_life_antitone.
Qed.

End DegradationTable.

(** The properties at [steady_stint]. *)
Lemma delta_to_best_nonnegative_witness :
  exists r d, In r (TireDegradationAnalyzer.analyze_lap_degradation steady_stint 13)
              /\ TireDegradationAnalyzer.delta_to_best r = Some d /\ (d == 0)%Q.
Proof.
  apply (proj2 (delta_to_best_nonnegative steady_stint 13)).
  eexists. split; [left; reflexivity|]. vm_compute. discriminate.
Defined.

Lemma estimated_tire_life_bounded_antitone_witness :
  exists r, In r (TireDegradationAnalyzer.analyze_lap_degradation steady_stint 13)
            /\ (0 <= TireDegradationAnalyzer.estimated_tire_life r <= 100)%Q.
Proof.
  destruct (TireDegradationAnalyzer.analyze_lap_degradation steady_stint 13)
    as [| r l] eqn:E; [vm_compute in E; discriminate|].
  exists r. split; [now left|].
  apply (proj1 (estimated_tire_life_bounded_antitone steady_stint 13) r).
  rewrite E. now left.
Defined.

(** ** Rounding and truncation *)

Section Rounding.
Import Py.
Local Open Scope Z_scope.

Lemma round_half_even_floor (q : Q) :
  Qfloor q <= round_half_even q <= Qfloor q + 1.
Proof.
  unfold round_half_even. cbv zeta.
  destruct (Qltb _ _); [lia|]. destruct (Qltb _ _); [lia|].
  destruct (Z.even _); lia.
Qed.

Lemma round_half_even_mono (p q : Q) :
  (p <= q)%Q -> round_half_even p <= round_half_even q.
Proof.
  intro H. pose proof (Qfloor_resp_le p q H) as Hf.
  pose proof (round_half_even_floor p) as Hp.
  pose proof (round_half_even_floor q) as Hq.
  destruct (Z.eq_dec (Qfloor p) (Qfloor q)) as [E | E]; [|lia].
  unfold round_half_even in *. cbv zeta in *. rewrite E in *.
  set (f := Qfloor q) in *.
  destruct (Qltb (p - inject_Z f) (1 # 2)) eqn:P1; [lia|].
  destruct (Qltb (1 # 2) (p - inject_Z f)) eqn:P2;
    destruct (Qltb (q - inject_Z f) (1 # 2)) eqn:Q1;
    destruct (Qltb (1 # 2) (q - inject_Z f)) eqn:Q2;
    qltb_hyps; try lra; lia.
Qed.

Lemma round_mono (p q : Q) (n : nat) : (p <= q)%Q -> (round p n <= round q n)%Q.
Proof.
  intro H. unfold round. cbv zeta.
  assert (Hs : (0 < inject_Z (10 ^ Z.of_nat n))%Q).
  { rewrite <- (Zlt_Qlt 0). apply Z.pow_pos_nonneg; lia. }
  set (s := inject_Z (10 ^ Z.of_nat n)) in *.
  apply Qle_shift_div_l; [exact Hs|].
  unfold Qdiv. rewrite <- Qmult_assoc, (Qmult_comm (/ s)), Qmult_inv_r, Qmult_1_r
    by (intro E; rewrite E in Hs; discriminate Hs).
  rewrite <- Zle_Qle. apply round_half_even_mono.
  apply Qmult_le_compat_r; [exact H | now apply Qlt_le_weak].
Qed.

End Rounding.

(** ** Fuel strategy, continued (src/analysis/race_strategy.py) *)

Section FuelDecision.
Import Py Pandas RaceStrategyAnalyzer.
Local Open Scope string_scope.
Local Open Scope Z_scope.

(** What a populated answer of [calculate_fuel_strategy] is made of. *)
Lemma calculate_fuel_strategy_dict
      (df : DataFrame) (v cur total : Z) (fuel : option Q) (d : FuelStrategy) :
  calculate_fuel_strategy df v cur total fuel = Ok (Dict d) ->
  needs_pit d = (laps_on_current_fuel d <? total - cur)
  /\ recommended_pit_lap d
     = (if needs_pit d
        then Some (cur + Z.max 1 (laps_on_current_fuel d - 2))
        else None)
  /\ (needs_pit d = false -> fuel_to_add_liters d = None).
Proof.
  unfold calculate_fuel_strategy. cbv zeta.
  destruct (List.length (of_vehicle df v) =? 0)%nat; [discriminate|].
  destruct (int_of_float _) as [lof | e]; cbn [bind]; [|discriminate].
  destruct (lof <? total - cur) eqn:H; intros [= <-];
    cbn [needs_pit laps_on_current_fuel recommended_pit_lap fuel_to_add_liters];
    rewrite H; repeat split; try reflexivity; discriminate.
Qed.



(** X6: when the record asks for a pit stop, the recommended pit lap is two
    laps before the reported [laps_on_current_fuel] run out, but no earlier
    than the next lap; it lies after the current lap, and before the last
    lap whenever at least two laps remain. *)
Theorem required_pit_stop_within_race
        (df : DataFrame) (v cur total : Z) (fuel : option Q) (d : FuelStrategy) :
  calculate_fuel_strategy df v cur total fuel = Ok (Dict d) ->
  needs_pit d = true ->
  exists p,
    recommended_pit_lap d = Some p
    /\ p = cur + Z.max 1 (laps_on_current_fuel d - 2)
    /\ cur + 1 <= p
    /\ (cur + 2 <= total -> p < total).
Proof.
  intros H Hpit. apply calculate_fuel_strategy_dict in H.
  destruct H as (Hn & Hp & _). rewrite Hpit in Hn, Hp.
  symmetry in Hn. apply Z.ltb_lt in Hn.
  eexists. split; [exact Hp|]. split; [reflexivity|]. lia.
Qed.

(** At lap 20 of 700 the stop is at lap 20 + (605 - 2). *)
Lemma required_pit_stop_within_race_witness :
  exists d p,
    calculate_fuel_strategy steady_stint 13 20 700 (Some 48.4%Q) = Ok (Dict d)
    /\ recommended_pit_lap d = Some p
    /\ p = 20 + Z.max 1 (laps_on_current_fuel d - 2)
    /\ 20 + 1 <= p
    /\ (20 + 2 <= 700 -> p < 700).
Proof.
  eexists.
  edestruct (required_pit_stop_within_race steady_stint 13 20 700
               (Some 48.4%Q)) as (p & H).
  - vm_compute. reflexivity.
  - vm_compute. reflexivity.
  - exists p. split; [vm_compute; reflexivity | exact H].
Defined.

End FuelDecision.

(** ** The pit-lap search, continued (src/analysis/race_strategy.py) *)

Section PitSearchBounds.
Import Py Pandas RaceStrategyAnalyzer.
Local Open Scope Z_scope.

Lemma triangular_nonneg (n : Z) : (0 <= triangular n)%Q.
Proof.
  unfold triangular. destruct (Z.leb_spec n 0) as [H | H]; [apply Qle_refl|].
  apply Qle_shift_div_l; [reflexivity|].
  rewrite Qmult_0_l, <- (Zle_Qle 0). nia.
Qed.

Lemma projected_cost_at_least_stop (r : Q) (cur total p : Z) :
  (0 <= r)%Q -> (pit_stop_time <= projected_cost r cur total p)%Q.
Proof.
  intro H. unfold projected_cost.
  pose proof (Qmult_le_0_compat _ _ H (triangular_nonneg (p - cur))) as H1.
  pose proof (Qmult_le_0_compat _ _ H (triangular_nonneg (total - p))) as H2.
  lra.
Qed.

(** X7: with a non-negative rate, [calculate_optimal_pit_strategy] recommends
    a stop only if staying out is projected to lose more than the 45 s of
    the stop plus the 5 s margin. *)
Theorem should_pit_needs_fifty_seconds
        (df : DataFrame) (v cur total : Z) (rate : pyfloat) (r : Q) :
  (5 <= List.length (of_vehicle df v))%nat ->
  effective_rate (lap_seconds (of_vehicle df v)) rate = Fin r ->
  (0 <= r)%Q ->
  exists s, calculate_optimal_pit_strategy df v cur total rate = Dict s
            /\ (should_pit s = true -> (50 < baseline_cost r cur total)%Q).
Proof.
  intros Hlen Hrate Hr.
  unfold calculate_optimal_pit_strategy. cbv zeta.
  apply Nat.ltb_ge in Hlen. rewrite Hlen, Hrate.
  destruct (degradation_cost_closed r (total - cur)) as (np & Hnp & Enp).
  rewrite Hnp.
  destruct (search (Fin r) cur total) as [b m] eqn:Es.
  eexists. split; [reflexivity|]. cbn [should_pit].
  destruct (Z.lt_ge_cases (total - 3) (cur + 1)) as [Hempty | Hcand].
  - rewrite (search_empty (Fin r) cur total Hempty) in Es.
    injection Es as <- <-. cbn. discriminate.
  - pose proof (search_best r cur total Hcand) as Hbest.
    rewrite Es in Hbest. destruct Hbest as (c & Hm & _ & Ec & _).
    cbn [fst snd] in *. subst m.
    cbn [fsub fopp fadd flt]. rewrite Qltb_lt. intro Hsave.
    pose proof (projected_cost_at_least_stop r cur total b Hr) as Hstop.
    unfold baseline_cost. unfold pit_stop_time in Hstop.
    rewrite <- Enp. rewrite <- Ec in Hstop. lra.
Qed.

(** With the default rate and 12 laps to go there is no stop. *)
Lemma should_pit_needs_fifty_seconds_witness :
  exists s,
    calculate_optimal_pit_strategy steady_stint 13 15 27 (Fin 0.05) = Dict s
    /\ (should_pit s = true -> (50 < baseline_cost 0.05 15 27)%Q).
Proof.
  apply (should_pit_needs_fifty_seconds steady_stint 13 15 27 (Fin 0.05) 0.05).
  - vm_compute. lia.
  - vm_compute. reflexivity.
  - vm_compute. discriminate.
Defined.

Lemma lap_seconds_length (l : list LapRow) :
  (List.length (lap_seconds l) <= List.length l)%nat.
Proof.
  unfold lap_seconds.
  induction l as [| x l IH]; cbn [flat_map List.length]; [lia|].
  rewrite length_app.
  destruct (parse_time (LAP_TIME x)) as [[q | | |] |]; cbn [List.length]; lia.
Qed.

(** With 10 or more parsed lap times the rate comes from the laps alone. *)
Lemma effective_rate_measured (secs : list pyfloat) (rate rate' : pyfloat) :
  (10 <= List.length secs)%nat ->
  effective_rate secs rate = effective_rate secs rate'.
Proof.
  intro H. unfold effective_rate. apply Nat.leb_le in H. now rewrite H.
Qed.

(** X8: with 10 or more parsed lap times, all numbers,
    [calculate_optimal_pit_strategy] gives the same answer whatever
    [tire_deg_rate] the caller passes, and the degradation rate it reports
    is at least 0.01. *)
Theorem measured_rate_ignores_argument
        (df : DataFrame) (v cur total : Z) (rate rate' : pyfloat) :
  (10 <= List.length (lap_seconds (of_vehicle df v)))%nat ->
  Forall finite (lap_seconds (of_vehicle df v)) ->
  calculate_optimal_pit_strategy df v cur total rate
  = calculate_optimal_pit_strategy df v cur total rate'
  /\ exists s x,
       calculate_optimal_pit_strategy df v cur total rate = Dict s
       /\ degradation_rate s = Fin x /\ (1 # 100 <= x)%Q.
Proof.
  intros Hlen Hall. split.
  { unfold calculate_optimal_pit_strategy. cbv zeta.
    now rewrite (effective_rate_measured _ rate rate' Hlen). }
  assert (Hrows : (List.length (of_vehicle df v) <? 5)%nat = false).
  { apply Nat.ltb_ge. pose proof (lap_seconds_length (of_vehicle df v)). lia. }
  assert (Hr : exists r, effective_rate (lap_seconds (of_vehicle df v)) rate = Fin r
                         /\ (1 # 100 <= r)%Q).
  { set (secs := lap_seconds (of_vehicle df v)) in *.
    unfold effective_rate. cbv zeta.
    apply Nat.leb_le in Hlen. rewrite Hlen. apply Nat.leb_le in Hlen.
    destruct (fmean_finite (head 5 secs)) as [e ->].
    { intro Hnil. apply (f_equal (@List.length _)) in Hnil.
      unfold head in Hnil. rewrite length_firstn in Hnil.
      cbn [List.length] in Hnil. lia. }
    { unfold head. rewrite <- (firstn_skipn 5 secs) in Hall.
      now apply Forall_app in Hall. }
    destruct (fmean_finite (tail 5 secs)) as [t ->].
    { intro Hnil. apply (f_equal (@List.length _)) in Hnil.
      unfold tail in Hnil. rewrite length_skipn in Hnil.
      cbn [List.length] in Hnil. lia. }
    { now apply tail_Forall. }
    cbn [fsub fopp fadd fdiv].
    rewrite Qeq_bool_of_nat_pos by lia. cbn [flt].
    match goal with
    | |- context [Qltb ?a ?b] => destruct (Qltb a b) eqn:Hfloor
    end; eexists; (split; [reflexivity|]); qltb_hyps;
      [apply Qle_refl | exact Hfloor]. }
  destruct Hr as (r & Hr & Hfloor).
  unfold calculate_optimal_pit_strategy. cbv zeta.
  rewrite Hrows, Hr.
  destruct (search (Fin r) cur total) as [b m].
  do 2 eexists. split; [reflexivity|].
  cbn [degradation_rate fround]. split; [reflexivity|].
  assert (H4 : (round (1 # 100) 4 == 1 # 100)%Q) by reflexivity.
  rewrite <- H4. now apply round_mono.
Qed.

(** On [ten_laps] a passed rate of 0 and a passed rate of 0.5 give the same
    answer, with the measured rate 0.025. *)
Lemma measured_rate_ignores_argument_witness :
  calculate_optimal_pit_strategy ten_laps 13 10 27 (Fin 0)
  = calculate_optimal_pit_strategy ten_laps 13 10 27 (Fin (1 # 2))
  /\ exists s x,
       calculate_optimal_pit_strategy ten_laps 13 10 27 (Fin 0) = Dict s
       /\ degradation_rate s = Fin x /\ (1 # 100 <= x)%Q.
Proof.
  apply (measured_rate_ignores_argument ten_laps 13 10 27 (Fin 0) (Fin (1 # 2))).
  - vm_compute. lia.
  - vm_compute. repeat constructor; eexists; reflexivity.
Defined.

End PitSearchBounds.

(** ** Other vehicles' laps *)

Section Isolation.
Import Py Pandas.
Local Open Scope Z_scope.

(** X9: the pit window, the fuel strategy, the pit-lap search and the
    theoretical best lap of a vehicle depend only on the table's columns and
    on that vehicle's own rows: two tables that agree on those give the same
    results, whatever the other vehicles' rows are. *)
Theorem results_depend_on_own_laps_only
        (df df' : DataFrame) (v cur total : Z)
        (fuel : option Q) (rate : pyfloat) :
  same_laps_of v df df' ->
  TireDegradationAnalyzer.predict_pit_window df v cur total
  = TireDegradationAnalyzer.predict_pit_window df' v cur total
  /\ RaceStrategyAnalyzer.calculate_fuel_strategy df v cur total fuel
     = RaceStrategyAnalyzer.calculate_fuel_strategy df' v cur total fuel
  /\ RaceStrategyAnalyzer.calculate_optimal_pit_strategy df v cur total rate
     = RaceStrategyAnalyzer.calculate_optimal_pit_strategy df' v cur total rate
  /\ RacingLineAnalyzer.calculate_potential_lap_time df v
     = RacingLineAnalyzer.calculate_potential_lap_time df' v.
Proof.
  intros [Hcols Hrows]. repeat split.
  - unfold TireDegradationAnalyzer.predict_pit_window,
      TireDegradationAnalyzer.analyze_lap_degradation.
    now rewrite Hrows.
  - unfold RaceStrategyAnalyzer.calculate_fuel_strategy,
      RaceStrategyAnalyzer.adjusted_consumption.
    now rewrite Hrows, Hcols.
  - unfold RaceStrategyAnalyzer.calculate_optimal_pit_strategy.
    now rewrite Hrows.
  - unfold RacingLineAnalyzer.calculate_potential_lap_time.
    now rewrite Hrows.
Qed.

Lemma other_vehicle_row (df : DataFrame) (r : LapRow) (v : Z) :
  NUMBER r <> v -> same_laps_of v (add_lap df r) df.
Proof.
  intro H. split; [reflexivity|].
  unfold of_vehicle, add_lap. cbn [rows].
  rewrite filter_app. cbn [filter].
  apply Z.eqb_neq in H. rewrite H. apply app_nil_r.
Qed.

(** Vehicle 13 gets the same four answers on [steady_stint] and on
    [two_cars], which adds three laps of vehicle 7. *)
Lemma results_depend_on_own_laps_only_witness :
  TireDegradationAnalyzer.predict_pit_window two_cars 13 14 27
  = TireDegradationAnalyzer.predict_pit_window steady_stint 13 14 27
  /\ RaceStrategyAnalyzer.calculate_fuel_strategy two_cars 13 14 27 None
     = RaceStrategyAnalyzer.calculate_fuel_strategy steady_stint 13 14 27 None
  /\ RaceStrategyAnalyzer.calculate_optimal_pit_strategy two_cars 13 14 27
       (Fin (5 # 100))
     = RaceStrategyAnalyzer.calculate_optimal_pit_strategy steady_stint 13 14 27
         (Fin (5 # 100))
  /\ RacingLineAnalyzer.calculate_potential_lap_time two_cars 13
     = RacingLineAnalyzer.calculate_potential_lap_time steady_stint 13.
Proof.
  apply (results_depend_on_own_laps_only two_cars steady_stint 13 14 27 None
           (Fin (5 # 100))).
  split; vm_compute; reflexivity.
Defined.

End Isolation.

(** ** Cleaning twice (src/telemetry_processor.py) *)

Section CleanTwice.
Import Py TelemetryProcessor.
Local Open Scope string_scope.
Local Open Scope Z_scope.

Lemma float_of_as_value (n : num) : float_of (as_value n) = Ok (to_float n).
Proof. destruct n; reflexivity. Qed.

Lemma Qltb_irrefl (x : Q) : Qltb x x = false.
Proof. apply Qltb_ge, Qle_refl. Qed.

(** Clipping the result of a clip changes nothing. *)
Lemma clip_fixed (lo hi : Z) (q : Q) :
  to_float (clip lo hi (Float (to_float (clip lo hi (Float (Fin q))))))
  = to_float (clip lo hi (Float (Fin q))).
Proof.
  unfold clip, min2, max2, lt. cbn [to_float flt].
  destruct (Qltb q (inject_Z hi)) eqn:E1; cbn [to_float flt].
  - destruct (Qltb (inject_Z lo) q) eqn:E2; cbn [to_float flt].
    + rewrite E1. cbn [to_float flt]. rewrite E2. reflexivity.
    + destruct (Qltb (inject_Z lo) (inject_Z hi)) eqn:E3; cbn [to_float flt];
        rewrite ?Qltb_irrefl, ?E3; cbn [to_float flt];
        rewrite ?Qltb_irrefl, ?E3; reflexivity.
  - destruct (Qltb (inject_Z lo) (inject_Z hi)) eqn:E3; cbn [to_float flt];
      rewrite ?Qltb_irrefl, ?E3; cbn [to_float flt];
      rewrite ?Qltb_irrefl, ?E3; cbn [to_float flt];
      rewrite ?Qltb_irrefl, ?E3; reflexivity.
Qed.

Lemma Qtrunc_inject_Z (z : Z) : Qtrunc (inject_Z z) = z.
Proof. unfold Qtrunc. cbn. apply Z.quot_1_r. Qed.

Lemma clip_int_fixed (lo hi g : Z) :
  lo <= g <= hi -> clip lo hi (Int g) = Int g.
Proof.
  intro H. unfold clip, min2, max2, lt. cbn [to_float flt].
  destruct (Qltb (inject_Z g) (inject_Z hi)) eqn:E1; cbn [to_float flt].
  - destruct (Qltb (inject_Z lo) (inject_Z g)) eqn:E2; [reflexivity|].
    qltb_hyps. rewrite <- Zle_Qle in E2. f_equal. lia.
  - qltb_hyps. rewrite <- Zle_Qle in E1.
    destruct (Qltb (inject_Z lo) (inject_Z hi)) eqn:E2; qltb_hyps;
      [|rewrite <- Zle_Qle in E2]; f_equal; lia.
Qed.

Lemma among_In (x : string) (l : list string) : among x l = true -> In x l.
Proof.
  unfold among. intro H. apply existsb_exists in H.
  destruct H as (y & Hy & E). apply String.eqb_eq in E. now subst.
Qed.

(** The second pass on a clipped channel. *)
Ltac twice_clip lo hi q :=
  let q' := fresh "q'" in
  let Eq := fresh "Eq" in
  cbn [try_except bind]; rewrite float_of_as_value; cbn [bind];
  destruct (clip_fin lo hi q ltac:(lia)) as (q' & Eq & _);
  rewrite Eq; cbn [isna isinf orb try_except bind];
  rewrite <- Eq; apply clip_fixed.

(** The channel names a test has let through. *)
Ltac name_cases :=
  repeat match goal with
         | H : among _ _ = true |- _ =>
             apply among_In in H; cbn [In] in H;
             repeat (destruct H as [<- | H]); try contradiction
         | H : String.eqb _ _ = true |- _ => apply String.eqb_eq in H; subst
         end.

(** X10: cleaning is idempotent: a cleaned value that is cleaned again for
    the same channel keeps its numeric value, on every channel name and for
    every input. *)
Theorem clean_telemetry_value_idempotent (value : pyval) (param_name : string) :
  to_float (clean_telemetry_value
              (as_value (clean_telemetry_value value param_name)) param_name)
  = to_float (clean_telemetry_value value param_name).
Proof.
  unfold clean_telemetry_value.
  destruct (float_of value) as [[q | | |] | e];
    cbn [bind try_except isna isinf orb].
  1: { destruct (among param_name ["aps"; "ath"]) eqn:A1; [twice_clip 0 100 q|].
    destruct (among param_name ["pbrake_f"; "pbrake_r"]) eqn:A2;
      [twice_clip 0 100 q|].
    destruct (among param_name ["Speed"; "speed"]) eqn:A3; [twice_clip 0 250 q|].
    destruct (among param_name ["Gear"; "gear"]) eqn:A4.
    { cbn [int_of_float bind try_except].
      destruct (clip_int 0 6 (Qtrunc q) ltac:(lia)) as (g & Eg & Hg).
      rewrite Eg. cbn [as_value float_of bind isna isinf orb int_of_float].
      rewrite Qtrunc_inject_Z, (clip_int_fixed 0 6 g Hg). reflexivity. }
    destruct (among param_name ["nmotor"; "nmot"]) eqn:A5;
      [twice_clip 0 8500 q|].
    destruct (String.eqb param_name "Steering_Angle") eqn:A6;
      [twice_clip (-540) 540 q|].
    destruct (among param_name ["accx_can"; "accy_can"]) eqn:A7;
      [twice_clip (-3) 3 q|].
    reflexivity. }
  all: destruct (among param_name ["aps"; "ath"]) eqn:A1;
    [name_cases; reflexivity|].
  all: destruct (among param_name ["pbrake_f"; "pbrake_r"]) eqn:A2;
    [name_cases; reflexivity|].
  all: destruct (among param_name ["Speed"; "speed"]) eqn:A3;
    [name_cases; reflexivity|].
  all: destruct (among param_name ["Gear"; "gear"]) eqn:A4;
    [name_cases; reflexivity|].
  all: destruct (among param_name ["nmotor"; "nmot"]) eqn:A5;
    [name_cases; reflexivity|].
  all: destruct (String.eqb param_name "Steering_Angle") eqn:A6;
    [name_cases; reflexivity|].
  all: destruct (among param_name ["accx_can"; "accy_can"]) eqn:A7;
    [name_cases; reflexivity|].
  all: reflexivity.
Qed.

End CleanTwice.

(** ** The two lap-time parsers (src/data_loader.py, src/analysis/race_strategy.py) *)

Section TwoParsers.
Import Py Pandas.
Local Open Scope string_scope.
Local Open Scope Z_scope.

Lemma contains_split (sep : ascii) (s : string) :
  contains sep s = false -> split sep s = [s].
Proof.
  induction s as [| c s IH]; cbn; [reflexivity|].
  destruct (Ascii.eqb c sep); cbn; [discriminate|].
  intro H. now rewrite (IH H).
Qed.

Lemma split_two_contains (sep : ascii) (s a b : string) :
  split sep s = [a; b] -> contains sep s = true.
Proof.
  intro H. destruct (contains sep s) eqn:E; [reflexivity|].
  rewrite (contains_split sep s E) in H. discriminate.
Qed.

(** A text that starts with a digit is none of the words [float()] knows. *)
Lemma digit_not_word (c : ascii) (r : list ascii) (d : Z) :
  digit_val c = Some d ->
  same_word (c :: r) "inf" = false
  /\ same_word (c :: r) "infinity" = false
  /\ same_word (c :: r) "nan" = false.
Proof.
  destruct c as [[] [] [] [] [] [] [] []]; cbn; intro H;
    try discriminate H; repeat split.
Qed.

(** What [int()] accepts, [float()] accepts, with the same value. *)
Lemma int_text_is_float_text (a : string) (m : Z) :
  int_of_str a = Ok m ->
  exists q, float_of_str a = Ok (Fin q) /\ (q == inject_Z m)%Q.
Proof.
  unfold int_of_str, float_of_str.
  destruct (sign (strip (chars a))) as [neg r].
  destruct (digitpart r) as [[[v k] rest] |] eqn:D; [|discriminate].
  destruct rest; [|discriminate]. intros [= <-].
  assert (Hw : same_word r "inf" = false /\ same_word r "infinity" = false
               /\ same_word r "nan" = false).
  { unfold digitpart in D. destruct r as [| c r']; [discriminate|].
    destruct (digit_val c) as [d|] eqn:Ed; [|discriminate].
    exact (digit_not_word c r' d Ed). }
  destruct Hw as (-> & -> & ->). cbn [orb].
  unfold floatnumber. rewrite D. unfold finish. cbn [exponent].
  eexists. split; [reflexivity|].
  destruct neg; cbn [Qpower]; rewrite ?inject_Z_opp; ring.
Qed.

Lemma fadd_same (x y a : pyfloat) :
  same_float x y -> same_float (fadd x a) (fadd y a).
Proof.
  destruct x, y, a; cbn; try tauto. intro H. now rewrite H.
Qed.

(** X11: on a text with exactly two colon-separated fields whose first field
    is an integer written in at most 14 characters (so that the minutes
    times 60 are exact in a float), the loader's [_time_to_seconds] and the
    strategy analyzer's [parse_time] give the same answer: the same number
    of seconds, or both the absent marker when the seconds field is not a
    number. *)
Theorem parsers_agree_on_minutes_and_seconds (s a b : string) (m : Z) :
  split ":"%char s = [a; b] ->
  (String.length a <= 14)%nat ->
  int_of_str a = Ok m ->
  same_answer (RaceStrategyAnalyzer.parse_time (VStr s))
              (RaceDataLoader._time_to_seconds (VStr s)).
Proof.
  intros Hsplit _ Hint.
  destruct (int_text_is_float_text a m Hint) as (q & Hq & Eq).
  unfold RaceStrategyAnalyzer.parse_time, RaceDataLoader._time_to_seconds,
    RaceStrategyAnalyzer.has_colon, RaceStrategyAnalyzer.str_parts,
    RaceDataLoader.str_split.
  rewrite (split_two_contains _ _ _ _ Hsplit), Hsplit.
  cbn [pd_isna bind List.length Nat.eqb item nth_error].
  rewrite Hq, Hint. cbn [bind].
  destruct (float_of_str b) as [sec | e]; cbn [bind try_except same_answer];
    [|exact I].
  apply fadd_same. cbn [fmul same_float].
  rewrite Eq, inject_Z_mult. reflexivity.
Qed.

(** Both read "1:36.500" as 96.5 seconds. *)
Lemma parsers_agree_on_minutes_and_seconds_witness :
  same_answer (RaceStrategyAnalyzer.parse_time (VStr "1:36.500"))
              (RaceDataLoader._time_to_seconds (VStr "1:36.500")).
Proof.
  apply (parsers_agree_on_minutes_and_seconds "1:36.500" "1" "36.500" 1);
    [reflexivity | cbn; lia | reflexivity].
Defined.

End TwoParsers.

(** ** Vehicle ids (src/telemetry_processor.py) *)

Section VehicleIds.
Import Py TelemetryProcessor.
Local Open Scope string_scope.

Lemma split_cons (sep : ascii) (a rest : string) :
  contains sep a = false ->
  split sep (a ++ String sep rest) = a :: split sep rest.
Proof.
  induction a as [| c a IH]; cbn.
  - now rewrite Ascii.eqb_refl.
  - destruct (Ascii.eqb c sep); cbn; [discriminate|].
    intro H. now rewrite (IH H).
Qed.

(** [split] undoes [join] on fields without the separator. *)
Lemma split_join (sep : ascii) (fields : list string) :
  fields <> [] -> plain_fields sep fields ->
  split sep (join sep fields) = fields.
Proof.
  induction fields as [| f r IH]; [congruence|].
  intros _ H. inversion H as [| ? ? Hf Hr]; subst.
  destruct r as [| g r].
  - cbn. now apply contains_split.
  - change (join sep (f :: g :: r)) with (f ++ String sep (join sep (g :: r))).
    rewrite (split_cons _ _ _ Hf), IH; [reflexivity | discriminate | exact Hr].
Qed.

(** X12: an id of dash-separated fields is read by position: the second
    field is the chassis and the third the car number, with "000" reported
    as "unassigned"; further fields are ignored, and an id of fewer than
    three fields gives the unknown vehicle. *)
Theorem parse_vehicle_id_reads_by_position (fields : list string) :
  fields <> [] -> plain_fields "-"%char fields ->
  parse_vehicle_id (join "-"%char fields) =
    match fields with
    | _ :: c :: n :: _ =>
        {| chassis := c;
           car_number := if String.eqb n "000" then "unassigned" else n |}
    | _ => unknown_vehicle
    end.
Proof.
  intros Hne Hp. unfold parse_vehicle_id.
  rewrite (split_join _ _ Hne Hp).
  destruct fields as [| p [| c [| n more]]]; try reflexivity.
  cbn. destruct (String.eqb n "000"); reflexivity.
Qed.

Lemma parse_vehicle_id_reads_by_position_witness :
  parse_vehicle_id "GR86-004-78" = {| chassis := "004"; car_number := "78" |}.
Proof.
  apply (parse_vehicle_id_reads_by_position ["GR86"; "004"; "78"]).
  - discriminate.
  - repeat constructor.
Defined.

End VehicleIds.

(** ** The fastest lap (src/data_loader.py, src/analysis/racing_line.py) *)

Section FastestLap.
Import Py Pandas RaceDataLoader RacingLineAnalyzer.
Local Open Scope Z_scope.

Lemma idxmin_from_spec (col : list (option Q)) : forall (i : nat) best,
  match idxmin_from col i best with
  | None => best = None /\ Forall (fun c => c = None) col
  | Some (j, m) =>
      (best = Some (j, m)
       \/ ((i <= j)%nat /\ nth_error col (j - i) = Some (Some m)))
      /\ (forall b, best = Some b -> (m <= snd b)%Q)
      /\ Forall (fun c => forall t, c = Some t -> (m <= t)%Q) col
  end.
Proof.
  induction col as [| c col IH]; intros i best; cbn [idxmin_from].
  - destruct best as [[j m] |].
    + split; [now left|]. split; [|constructor].
      intros b [= <-]. cbn. lra.
    + split; [reflexivity | constructor].
  - destruct c as [x |].
    + destruct best as [[j0 b0] |].
      * destruct (Qltb x b0) eqn:E.
        -- specialize (IH (S i) (Some (i, x))).
           destruct (idxmin_from col (S i) (Some (i, x))) as [[j m] |];
             [|destruct IH; discriminate].
           destruct IH as (Hw & Hb & Hc).
           pose proof (Hb _ eq_refl) as Hx. cbn in Hx.
           apply Qltb_lt in E.
           split; [|split].
           ++ right. destruct Hw as [[= <- <-] | [Hi Hn]].
              ** split; [lia|]. now rewrite Nat.sub_diag.
              ** split; [lia|].
                 replace (j - i)%nat with (S (j - S i)) by lia. exact Hn.
           ++ intros b [= <-]. cbn. lra.
           ++ constructor; [|exact Hc]. intros t [= <-]. exact Hx.
        -- specialize (IH (S i) (Some (j0, b0))).
           destruct (idxmin_from col (S i) (Some (j0, b0))) as [[j m] |];
             [|destruct IH; discriminate].
           destruct IH as (Hw & Hb & Hc).
           pose proof (Hb _ eq_refl) as Hx. cbn in Hx.
           apply Qltb_ge in E.
           split; [|split].
           ++ destruct Hw as [Hw | [Hi Hn]]; [now left|].
              right. split; [lia|].
              replace (j - i)%nat with (S (j - S i)) by lia. exact Hn.
           ++ intros b [= <-]. exact Hx.
           ++ constructor; [|exact Hc]. intros t [= <-]. lra.
      * specialize (IH (S i) (Some (i, x))).
        destruct (idxmin_from col (S i) (Some (i, x))) as [[j m] |];
          [|destruct IH; discriminate].
        destruct IH as (Hw & Hb & Hc).
        pose proof (Hb _ eq_refl) as Hx. cbn in Hx.
        split; [|split].
        -- right. destruct Hw as [[= <- <-] | [Hi Hn]].
           ++ split; [lia|]. now rewrite Nat.sub_diag.
           ++ split; [lia|].
              replace (j - i)%nat with (S (j - S i)) by lia. exact Hn.
        -- discriminate.
        -- constructor; [|exact Hc]. intros t [= <-]. exact Hx.
    + specialize (IH (S i) best).
      destruct (idxmin_from col (S i) best) as [[j m] |].
      * destruct IH as (Hw & Hb & Hc).
        split; [|split].
        -- destruct Hw as [Hw | [Hi Hn]]; [now left|].
           right. split; [lia|].
           replace (j - i)%nat with (S (j - S i)) by lia. exact Hn.
        -- exact Hb.
        -- constructor; [discriminate | exact Hc].
      * destruct IH as [Hb Hc]. split; [exact Hb|].
        constructor; [reflexivity | exact Hc].
Qed.

(** [df.loc[df[col].idxmin()]] is a row with the least present cell, and
    fails exactly when no cell is present. *)
Lemma loc_idxmin_spec (col : LapRow -> option Q) (laps : list LapRow) :
  match loc_idxmin col laps with
  | Located r => least_in col laps r
  | NoLabel => Forall (fun r => col r = None) laps
  end.
Proof.
  unfold loc_idxmin, idxmin.
  pose proof (idxmin_from_spec (map col laps) 0 None) as H.
  destruct (idxmin_from (map col laps) 0 None) as [[j m] |]; cbn.
  - destruct H as ([H | [_ Hn]] & _ & Hc); [discriminate|].
    rewrite Nat.sub_0_r in Hn.
    rewrite nth_error_map in Hn.
    destruct (nth_error laps j) as [r |] eqn:Er; [|discriminate].
    cbn in Hn. injection Hn as Hm.
    split; [exact (nth_error_In _ _ Er)|].
    exists m. split; [exact Hm|].
    rewrite Forall_map in Hc. exact Hc.
  - destruct H as [_ Hc]. rewrite Forall_map in Hc. exact Hc.
Qed.

(** X13: [get_fastest_lap] answers None exactly for a vehicle without rows;
    for a vehicle with rows it returns one of that vehicle's rows whose lap
    time is present and is undercut by no lap time of the vehicle; and it
    ends in the label failure exactly when the vehicle has rows but none
    with a lap time. *)
Theorem get_fastest_lap_is_least (df : DataFrame) (v : Z) :
  match get_fastest_lap df v with
  | Located None => of_vehicle df v = []
  | Located (Some r) =>
      NUMBER r = v /\ In r (rows df)
      /\ least_in lap_time_seconds (of_vehicle df v) r
  | NoLabel =>
      of_vehicle df v <> []
      /\ Forall (fun r => lap_time_seconds r = None) (of_vehicle df v)
  end.
Proof.
  unfold get_fastest_lap.
  destruct (of_vehicle df v) as [| r0 l] eqn:E; [reflexivity|].
  cbn [List.length Nat.eqb].
  pose proof (loc_idxmin_spec lap_time_seconds (r0 :: l)) as H.
  destruct (loc_idxmin lap_time_seconds (r0 :: l)) as [r |].
  - assert (Hin : In r (of_vehicle df v)) by (rewrite E; apply H).
    unfold of_vehicle in Hin. apply filter_In in Hin.
    destruct Hin as [Hin Hv]. apply Z.eqb_eq in Hv.
    repeat split; try assumption; apply H.
  - split; [discriminate | exact H].
Qed.

(** *** Coaching opportunities *)

Lemma insert_opportunity_sorted (x : Opportunity) (l : list Opportunity) :
  Sorted loss_order l -> Sorted loss_order (insert_opportunity x l).
Proof.
  induction l as [| y r IH]; cbn; intro H.
  - repeat constructor.
  - destruct (Qle_bool (time_loss y) (time_loss x)) eqn:E.
    + constructor; [exact H|]. constructor.
      unfold loss_order. now apply Qle_bool_iff.
    + inversion H as [| ? ? Hs Hh]; subst.
      constructor; [exact (IH Hs)|].
      assert (Hyx : loss_order y x).
      { unfold loss_order.
        destruct (Qlt_le_dec (time_loss x) (time_loss y)) as [L | L];
          [now apply Qlt_le_weak|].
        apply Qle_bool_iff in L. congruence. }
      destruct r as [| z r]; cbn.
      * constructor. exact Hyx.
      * destruct (Qle_bool (time_loss z) (time_loss x));
          constructor; [exact Hyx|].
        inversion Hh; assumption.
Qed.

Lemma sort_opportunities_sorted (l : list Opportunity) :
  Sorted loss_order (sort_opportunities l).
Proof.
  induction l; cbn; [constructor | now apply insert_opportunity_sorted].
Qed.

Lemma insert_opportunity_perm (x : Opportunity) (l : list Opportunity) :
  Permutation (insert_opportunity x l) (x :: l).
Proof.
  induction l as [| y r IH]; cbn; [reflexivity|].
  destruct (Qle_bool (time_loss y) (time_loss x)); [reflexivity|].
  rewrite IH. apply perm_swap.
Qed.

Lemma sort_opportunities_perm (l : list Opportunity) :
  Permutation (sort_opportunities l) l.
Proof.
  induction l as [| x r IH]; cbn; [reflexivity|].
  rewrite insert_opportunity_perm. now constructor.
Qed.

Lemma round_tenth : (round (1 # 10) 3 == 1 # 10)%Q.
Proof. vm_compute. reflexivity. Qed.

(** What a sector contributes: nothing, or one entry that loses more than a
    rounded tenth. *)
Lemma sector_entry (present : bool) (name label advice : string)
      (delta : option Q) :
  let l := if present then
             if loses_time delta then [opportunity name label advice delta]
             else []
           else [] in
  (List.length l <= 1)%nat
  /\ Forall (fun o => (1 # 10 <= time_loss o)%Q) l.
Proof.
  destruct present; cbn; [|split; [lia | constructor]].
  destruct delta as [d |]; cbn; [|split; [lia | constructor]].
  destruct (Qltb (1 # 10) d) eqn:E; cbn; [|split; [lia | constructor]].
  split; [lia|]. constructor; [|constructor]. cbn.
  apply Qltb_lt in E. rewrite <- round_tenth.
  apply round_mono. lra.
Qed.

(** X14: the opportunities [find_coaching_opportunities] returns are at most
    three, each reports a loss of at least a tenth of a second, and they are
    listed from the largest loss to the smallest. *)
Theorem coaching_opportunities_sorted_losses
        (df : DataFrame) (v : Z) (lap : Series) (l : list Opportunity) :
  find_coaching_opportunities df v lap = Located l ->
  (List.length l <= 3)%nat
  /\ Forall (fun o => (1 # 10 <= time_loss o)%Q) l
  /\ Sorted loss_order l.
Proof.
  unfold find_coaching_opportunities.
  destruct (List.length (of_vehicle df v) =? 0)%nat.
  - intros [= <-]. repeat split; [cbn; lia | constructor | constructor].
  - destruct (loc_idxmin lap_time_seconds (of_vehicle df v)) as [best |];
      [|discriminate].
    intros [= <-].
    match goal with
    | |- context [sort_opportunities (?a ++ ?b ++ ?c)] =>
        set (s1 := a); set (s2 := b); set (s3 := c)
    end.
    pose proof (sector_entry (has_label lap "S1_SECONDS") "S1" "Sector 1"
                  "Focus on entry speed and early apex in Turn 1-3"
                  (cell_minus (S1_SECONDS (values lap)) (S1_SECONDS best)))
      as [L1 F1].
    pose proof (sector_entry (has_label lap "S2_SECONDS") "S2" "Sector 2"
                  "Check mid-corner speed and throttle application"
                  (cell_minus (S2_SECONDS (values lap)) (S2_SECONDS best)))
      as [L2 F2].
    pose proof (sector_entry (has_label lap "S3_SECONDS") "S3" "Sector 3"
                  "Maximize exit speed for main straight"
                  (cell_minus (S3_SECONDS (values lap)) (S3_SECONDS best)))
      as [L3 F3].
    fold s1 in L1, F1. fold s2 in L2, F2. fold s3 in L3, F3.
    pose proof (sort_opportunities_perm (s1 ++ s2 ++ s3)) as P.
    split; [|split].
    + rewrite (Permutation_length P), !length_app. lia.
    + apply (Permutation_Forall (Permutation_sym P)).
      rewrite !Forall_app. tauto.
    + apply sort_opportunities_sorted.
Qed.

Lemma loses_time_same (c : option Q) : loses_time (cell_minus c c) = false.
Proof.
  destruct c as [x |]; cbn; [|reflexivity].
  apply Qltb_ge. lra.
Qed.

(** X15: handed the vehicle's own fastest lap, [find_coaching_opportunities]
    finds nothing to improve, whatever labels the lap carries. *)
Theorem fastest_lap_has_no_opportunities
        (df : DataFrame) (v : Z) (labels : list string) (r : LapRow) :
  get_fastest_lap df v = Located (Some r) ->
  find_coaching_opportunities df v {| index := labels; values := r |}
  = Located [].
Proof.
  unfold get_fastest_lap, find_coaching_opportunities.
  destruct (List.length (of_vehicle df v) =? 0)%nat; [discriminate|].
  destruct (loc_idxmin lap_time_seconds (of_vehicle df v)) as [best |];
    [|discriminate].
  intros [= <-]. cbn [values].
  rewrite !loses_time_same.
  destruct (has_label _ "S1_SECONDS"), (has_label _ "S2_SECONDS"),
    (has_label _ "S3_SECONDS"); reflexivity.
Qed.

End FastestLap.

(** ** The optimal lap (src/telemetry_processor.py) *)

Section OptimalLapSelection.
Import Py TelemetryProcessor.
Local Open Scope Z_scope.

Lemma flt_irrefl (a : pyfloat) : flt a a = false.
Proof. destruct a; cbn; try reflexivity. apply Qltb_irrefl. Qed.

Lemma flt_trans (a b c : pyfloat) :
  flt a b = true -> flt b c = true -> flt a c = true.
Proof.
  destruct a, b, c; cbn; try discriminate; try reflexivity.
  intros H1 H2. apply Qltb_lt in H1, H2. apply Qltb_lt. lra.
Qed.

(** Below a float that is not NaN there is no room between [<] and [>=]. *)
Lemma flt_total (a b c : pyfloat) :
  isna b = false ->
  flt a c = true -> flt b c = false -> flt a b = false -> False.
Proof.
  destruct a, b, c; cbn; try discriminate.
  all: intros _ H1 H2 H3; qltb_hyps; lra.
Qed.

Lemma flt_not_nan (a b : pyfloat) : flt a b = true -> isna a = false.
Proof. destruct a, b; cbn; congruence. Qed.

(** On keys that are not NaN, [first_min] returns a row that none undercuts. *)
Lemma first_min_spec {A} (key : A -> pyfloat) (l : list A) :
  Forall (fun x => isna (key x) = false) l ->
  forall best : option A,
    (forall b, best = Some b -> isna (key b) = false) ->
    match first_min key l best with
    | None => best = None /\ l = []
    | Some m =>
        (best = Some m \/ In m l)
        /\ (forall b, best = Some b -> flt (key b) (key m) = false)
        /\ Forall (fun x => flt (key x) (key m) = false) l
    end.
Proof.
  induction 1 as [| x l Nx Nl IH]; intros best Nb; cbn [first_min].
  - destruct best as [b |]; [|now split].
    split; [now left|]. split; [|constructor].
    intros ? [= <-]. apply flt_irrefl.
  - destruct best as [b |].
    + destruct (flt (key x) (key b)) eqn:E.
      * specialize (IH (Some x)).
        destruct (first_min key l (Some x)) as [m |];
          [|destruct IH; [now intros ? [= <-] | discriminate]].
        destruct IH as (Hw & Hb & Hl); [now intros ? [= <-]|].
        pose proof (Hb _ eq_refl) as Hx.
        split; [|split].
        -- right. destruct Hw as [[= <-] | Hin]; [now left | now right].
        -- intros ? [= <-].
           destruct (flt (key b) (key m)) eqn:F; [|reflexivity].
           rewrite (flt_trans _ _ _ E F) in Hx. discriminate.
        -- constructor; assumption.
      * specialize (IH (Some b) Nb).
        destruct (first_min key l (Some b)) as [m |]; [|destruct IH; discriminate].
        destruct IH as (Hw & Hb & Hl). pose proof (Hb _ eq_refl) as Hx.
        split; [|split].
        -- destruct Hw as [Hw | Hin]; [now left | right; now right].
        -- intros ? [= <-]. exact Hx.
        -- constructor; [|exact Hl].
           destruct (flt (key x) (key m)) eqn:F; [|reflexivity].
           exfalso. exact (flt_total _ _ _ (Nb _ eq_refl) F Hx E).
    + specialize (IH (Some x)).
      destruct (first_min key l (Some x)) as [m |];
        [|destruct IH; [now intros ? [= <-] | discriminate]].
      destruct IH as (Hw & Hb & Hl); [now intros ? [= <-]|].
      pose proof (Hb _ eq_refl) as Hx.
      split; [|split].
      * right. destruct Hw as [[= <-] | Hin]; [now left | now right].
      * discriminate.
      * constructor; assumption.
Qed.

(** X16: [get_optimal_lap_telemetry] answers lap -1 with the empty frame
    exactly when no row's parsed lap time is under 180 seconds; otherwise it
    resamples the lap of a row whose parsed time is under 180 seconds and
    which no row of the table undercuts. *)
Theorem optimal_lap_is_fastest_under_three_minutes
        (Frame : Type) (empty_frame : Frame) (process_lap_telemetry : Z -> Frame)
        (analysis_data : list (Z * pyval)) :
  let answer :=
    get_optimal_lap_telemetry Frame empty_frame process_lap_telemetry
      analysis_data in
  (answer = (empty_frame, -1)
   /\ Forall (fun r => flt (parsed_time r) (Fin 180) = false) analysis_data)
  \/ (exists r,
        In r analysis_data
        /\ flt (parsed_time r) (Fin 180) = true
        /\ answer = (process_lap_telemetry (fst r), fst r)
        /\ Forall (fun r' => flt (parsed_time r') (parsed_time r) = false)
                  analysis_data).
Proof.
  cbn zeta. unfold get_optimal_lap_telemetry.
  set (timed := map (fun r => (fst r, parse_lap_time (snd r))) analysis_data).
  set (valid := filter (fun r => flt (snd r) (Fin 180)) timed).
  assert (Hnan : Forall (fun r : Z * pyfloat => isna (snd r) = false) valid).
  { apply Forall_forall. intros r Hr. unfold valid in Hr.
    apply filter_In in Hr. exact (flt_not_nan _ _ (proj2 Hr)). }
  pose proof (first_min_spec snd valid Hnan None) as H.
  assert (Hnone : forall b : Z * pyfloat, None = Some b -> isna (snd b) = false)
    by discriminate.
  specialize (H Hnone).
  destruct (first_min snd valid None) as [m |].
  - right. destruct H as ([H | Hin] & _ & Hl); [discriminate|].
    unfold valid in Hin. apply filter_In in Hin. destruct Hin as [Hin Hm].
    unfold timed in Hin. apply in_map_iff in Hin.
    destruct Hin as (r & <- & Hr). cbn [fst snd] in *.
    exists r. repeat split; try assumption.
    apply Forall_forall. intros r' Hr'. unfold parsed_time.
    destruct (flt (parse_lap_time (snd r')) (parse_lap_time (snd r))) eqn:F;
      [|reflexivity].
    rewrite Forall_forall in Hl.
    specialize (Hl (fst r', parse_lap_time (snd r'))). cbn [snd] in Hl.
    rewrite Hl in F; [discriminate|].
    unfold valid. apply filter_In. split.
    + unfold timed. apply in_map_iff. now exists r'.
    + cbn [snd]. exact (flt_trans _ _ _ F Hm).
  - left. destruct H as [_ Hv]. split; [reflexivity|].
    apply Forall_forall. intros r Hr. unfold parsed_time.
    destruct (flt (parse_lap_time (snd r)) (Fin 180)) eqn:F; [|reflexivity].
    assert (Hin : In (fst r, parse_lap_time (snd r)) valid).
    { unfold valid. apply filter_In. split; [|exact F].
      unfold timed. apply in_map_iff. now exists r. }
    rewrite Hv in Hin. destruct Hin.
Qed.

End OptimalLapSelection.

(** Witnesses on the example stint. *)
Lemma coaching_opportunities_sorted_losses_witness :
  exists l,
    RacingLineAnalyzer.find_coaching_opportunities steady_stint 13 lap_14
    = Pandas.Located l
    /\ (List.length l <= 3)%nat
    /\ Forall (fun o => (1 # 10 <= RacingLineAnalyzer.time_loss o)%Q) l
    /\ Sorted loss_order l.
Proof.
  eexists. split; [vm_compute; reflexivity|].
  apply (coaching_opportunities_sorted_losses steady_stint 13 lap_14).
  vm_compute. reflexivity.
Defined.

Lemma fastest_lap_has_no_opportunities_witness :
  RacingLineAnalyzer.find_coaching_opportunities steady_stint 13
    {| RacingLineAnalyzer.index := analysis_columns;
       RacingLineAnalyzer.values := lap_10 |}
  = Pandas.Located [].
Proof.
  apply (fastest_lap_has_no_opportunities steady_stint 13 analysis_columns lap_10).
  vm_compute. reflexivity.
Defined.

(** ** Race pace and the predicted finish (src/analysis/race_strategy.py) *)

Section RacePace.
Import Py Pandas RaceStrategyAnalyzer.
Local Open Scope string_scope.
Local Open Scope Z_scope.

Variable std : list pyfloat -> pyfloat.

Lemma length_zero_nil {A} (l : list A) : (List.length l =? 0)%nat = false -> l <> [].
Proof. destruct l; [discriminate | discriminate]. Qed.

(** What a populated answer of [analyze_race_pace] is made of. *)
Lemma analyze_race_pace_dict (df : DataFrame) (v cur : Z) (d : RacePace) :
  analyze_race_pace std df v cur = Ok (Dict d) ->
  let secs := lap_seconds (laps_until df v cur) in
  let paces := competitor_paces df v cur in
  exists trend,
    (3 <= List.length (laps_until df v cur))%nat
    /\ tail 5 secs <> []
    /\ current_pace d = fround (fmean (tail 5 secs)) 3
    /\ best_lap d = fround (fmin_list secs) 3
    /\ pace_delta d = fround (fsub (fmean (tail 5 secs)) (fmin_list secs)) 3
    /\ trend_per_lap d = round trend 4
    /\ pace_position d
       = fold_left (fun pos comp =>
                      if flt (snd comp) (fmean (tail 5 secs)) then pos + 1 else pos)
                   paces 1
    /\ total_competitors d = Z.of_nat (List.length paces) + 1
    /\ is_improving d = Qltb trend (- (1 # 100))
    /\ is_degrading d = Qltb (1 # 100) trend.
Proof.
  unfold analyze_race_pace. cbv zeta.
  destruct (Nat.ltb_spec (List.length (laps_until df v cur)) 3) as [L | L];
    [discriminate|].
  destruct (List.length (lap_seconds (laps_until df v cur)) =? 0)%nat;
    [discriminate|].
  destruct (List.length (tail 5 (lap_seconds (laps_until df v cur))) =? 0)%nat
    eqn:R; [discriminate|].
  destruct (if (3 <=? _)%nat then _ else _) as [trend | e]; cbn [bind];
    [|discriminate].
  intros [= <-]. exists trend. cbn.
  repeat split; try reflexivity; [exact L | now apply length_zero_nil].
Qed.

Lemma count_bounds (pace : pyfloat) (l : list (Z * pyfloat)) : forall pos,
  pos <= fold_left (fun pos comp => if flt (snd comp) pace then pos + 1 else pos)
                   l pos
      <= pos + Z.of_nat (List.length l).
Proof.
  induction l as [| c l IH]; intro pos; cbn [fold_left List.length]; [lia|].
  destruct (flt (snd c) pace).
  - specialize (IH (pos + 1)). lia.
  - specialize (IH pos). lia.
Qed.

Lemma unique_from_In (x : Z) (col seen : list Z) :
  In x col -> existsb (Z.eqb x) seen = false -> In x (unique_from seen col).
Proof.
  revert seen. induction col as [| y col IH]; intros seen Hin Hs; [destruct Hin|].
  cbn [unique_from].
  destruct (Z.eq_dec y x) as [-> | Hne].
  - rewrite Hs. now left.
  - destruct Hin as [-> | Hin]; [congruence|].
    destruct (existsb (Z.eqb y) seen).
    + now apply IH.
    + right. apply IH; [exact Hin|]. cbn.
      destruct (Z.eqb_spec x y); [congruence | exact Hs].
Qed.

Lemma flat_map_one_missing {A B} (f : A -> list B) (v : A) (l : list A) :
  (forall x, (List.length (f x) <= 1)%nat) -> f v = [] -> In v l ->
  (List.length (flat_map f l) + 1 <= List.length l)%nat.
Proof.
  intros H1 Hv. induction l as [| x l IH]; [intros []|].
  cbn [flat_map List.length]. rewrite length_app.
  assert (Hall : (List.length (flat_map f l) <= List.length l)%nat).
  { clear - H1. induction l as [| y l IHl]; cbn; [lia|].
    rewrite length_app. specialize (H1 y). lia. }
  intros [-> | Hin].
  - rewrite Hv. cbn. lia.
  - specialize (IH Hin). specialize (H1 x). lia.
Qed.

Lemma competitor_paces_length (df : DataFrame) (v cur : Z) :
  (3 <= List.length (laps_until df v cur))%nat ->
  Z.of_nat (List.length (competitor_paces df v cur)) + 1 <= field_size df.
Proof.
  intro L. unfold competitor_paces, field_size.
  assert (Hin : In v (unique (map NUMBER (rows df)))).
  { apply unique_from_In; [|reflexivity].
    destruct (laps_until df v cur) as [| r l] eqn:E; [cbn in L; lia|].
    assert (Hr : In r (laps_until df v cur)) by (rewrite E; now left).
    unfold laps_until in Hr. apply filter_In in Hr. destruct Hr as [Hr Hv].
    apply andb_prop in Hv. destruct Hv as [Hv _]. apply Z.eqb_eq in Hv.
    subst v. now apply in_map. }
  pose proof (flat_map_one_missing
                (fun comp => if comp =? v then []
                             else competitor_pace df cur comp)
                v (unique (map NUMBER (rows df)))) as H.
  cbv beta in H. rewrite Z.eqb_refl in H.
  specialize (H ltac:(intro x; destruct (x =? v); [cbn; lia|];
                      unfold competitor_pace; cbv zeta;
                      repeat destruct (_ <? _)%nat; cbn; lia)
                eq_refl Hin).
  lia.
Qed.

(** X17: a populated answer of [analyze_race_pace] ranks the vehicle between
    1 and [total_competitors], counts no more competitors than the table has
    distinct vehicles, and never reports the pace as both improving and
    degrading. *)
Theorem pace_position_within_field (df : DataFrame) (v cur : Z) (d : RacePace) :
  analyze_race_pace std df v cur = Ok (Dict d) ->
  1 <= pace_position d <= total_competitors d
  /\ total_competitors d <= field_size df
  /\ (is_improving d && is_degrading d = false).
Proof.
  intro H. apply analyze_race_pace_dict in H. cbv zeta in H.
  destruct H as (trend & L & _ & _ & _ & _ & _ & Hp & Ht & Hi & Hd).
  rewrite Hp, Ht, Hi, Hd.
  split; [|split].
  - pose proof (count_bounds
                  (fmean (tail 5 (lap_seconds (laps_until df v cur))))
                  (competitor_paces df v cur) 1). lia.
  - now apply competitor_paces_length.
  - destruct (Qltb trend _) eqn:A, (Qltb _ trend) eqn:B; try reflexivity.
    qltb_hyps. lra.
Qed.

(** *** Pace against the best lap *)

Lemma fold_fadd_at_least (m : Q) (l : list pyfloat) :
  Forall (at_least m) l ->
  forall a, exists s,
    fold_left fadd l (Fin a) = Fin s
    /\ (a + m * inject_Z (Z.of_nat (List.length l)) <= s)%Q.
Proof.
  induction 1 as [| f l (q & -> & Hq) _ IH]; intro a.
  - exists a. split; [reflexivity|].
    change (inject_Z (Z.of_nat (List.length (@nil pyfloat)))) with 0%Q. lra.
  - cbn [fold_left fadd]. destruct (IH (a + q)%Q) as (s & Hs & Hb).
    exists s. split; [exact Hs|].
    change (List.length (Fin q :: l)) with (S (List.length l)).
    rewrite Nat2Z.inj_succ. unfold Z.succ. rewrite inject_Z_plus.
    change (inject_Z 1) with 1%Q. nra.
Qed.

Lemma fmean_at_least (m : Q) (l : list pyfloat) :
  l <> [] -> Forall (at_least m) l -> at_least m (fmean l).
Proof.
  intros Hne Hall. unfold fmean.
  destruct (fold_fadd_at_least m l Hall 0) as (s & -> & Hs).
  assert (Hlen : (0 < List.length l)%nat)
    by (destruct l; [contradiction | cbn; lia]).
  cbn [fdiv]. rewrite Qeq_bool_of_nat_pos by exact Hlen.
  eexists. split; [reflexivity|].
  apply Qle_shift_div_l.
  - rewrite <- (Zlt_Qlt 0). lia.
  - lra.
Qed.

Lemma at_least_weaken (m m' : Q) (f : pyfloat) :
  (m' <= m)%Q -> at_least m f -> at_least m' f.
Proof. intros H (q & -> & Hq). exists q. split; [reflexivity | lra]. Qed.

Lemma fold_fmin2_least (l : list pyfloat) :
  Forall (fun f => exists q, f = Fin q) l ->
  forall x, exists m,
    fold_left fmin2 l (Fin x) = Fin m
    /\ (m <= x)%Q /\ Forall (at_least m) l.
Proof.
  induction 1 as [| f l [q ->] _ IH]; intro x.
  - exists x. split; [reflexivity|]. split; [lra | constructor].
  - cbn [fold_left]. unfold fmin2 at 2. cbn [flt].
    destruct (Qltb q x) eqn:E; qltb_hyps.
    + destruct (IH q) as (m & Hm & Hq & Hl). exists m.
      split; [exact Hm|]. split; [lra|].
      constructor; [|exact Hl]. exists q. now split.
    + destruct (IH x) as (m & Hm & Hx & Hl). exists m.
      split; [exact Hm|]. split; [exact Hx|].
      constructor; [|exact Hl]. exists q. split; [reflexivity | lra].
Qed.

Lemma fmin_list_least (l : list pyfloat) :
  l <> [] -> Forall (fun f => exists q, f = Fin q) l ->
  exists m, fmin_list l = Fin m /\ Forall (at_least m) l.
Proof.
  intros Hne Hall. destruct l as [| f l]; [contradiction|].
  inversion Hall as [| ? ? [x ->] Hl]; subst. cbn [fmin_list].
  destruct (fold_fmin2_least l Hl x) as (m & Hm & Hx & Hr).
  exists m. split; [exact Hm|].
  constructor; [|exact Hr]. exists x. now split.
Qed.

(** X18: when the lap times read so far are all numbers, the pace
    [analyze_race_pace] reports is not below the best lap it reports, and
    the reported [pace_delta] is a number that is not negative. *)
Theorem pace_not_below_best_lap (df : DataFrame) (v cur : Z) (d : RacePace) :
  finite_lap_times df v cur ->
  analyze_race_pace std df v cur = Ok (Dict d) ->
  exists pace best delta,
    current_pace d = Fin pace /\ best_lap d = Fin best
    /\ pace_delta d = Fin delta
    /\ (best <= pace)%Q /\ (0 <= delta)%Q.
Proof.
  intros Hfin H. apply analyze_race_pace_dict in H. cbv zeta in H.
  destruct H as (trend & _ & Hne & Hc & Hb & Hd & _).
  unfold finite_lap_times in Hfin.
  set (secs := lap_seconds (laps_until df v cur)) in *.
  assert (Hsecs : secs <> []).
  { intro E. apply Hne. rewrite E. reflexivity. }
  destruct (fmin_list_least secs Hsecs Hfin) as (m & Hm & Hall).
  destruct (fmean_at_least m (tail 5 secs) Hne (tail_Forall _ _ _ Hall))
    as (pc & Hpc & Hle).
  rewrite Hpc, Hm in *. cbn [fround fsub fopp fadd] in Hc, Hb, Hd.
  exists (round pc 3), (round m 3), (round (pc + - m) 3).
  repeat split; try assumption.
  - now apply round_mono.
  - apply round_nonneg. lra.
Qed.

(** *** The predicted finish *)

Lemma sum_range_affine (c t : Q) (n : Z) :
  exists q,
    sum_range (fun i => fadd (Fin c) (fmul (Fin t) (Fin (inject_Z i)))) n = Fin q
    /\ (q == inject_Z (Z.max 0 n) * c + t * triangular n)%Q.
Proof.
  destruct (Z.leb_spec n 0) as [Hn | Hn].
  - exists 0%Q. split; [now apply sum_range_nonpos|].
    unfold triangular. rewrite Z.max_l by lia.
    apply Z.leb_le in Hn. rewrite Hn. ring.
  - rewrite Z.max_r by lia.
    rewrite <- (Z2Nat.id n) by lia. generalize (Z.to_nat n) as k. clear n Hn.
    induction k as [| k (q & Hq & Eq)].
    + exists 0%Q. split; [reflexivity|]. cbn. ring.
    + exists (q + (c + t * inject_Z (Z.of_nat k)))%Q. split.
      * rewrite sum_range_succ, Hq. reflexivity.
      * rewrite Eq, !triangular_nat, Nat2Z.inj_succ.
        unfold Z.succ. rewrite inject_Z_plus. field.
Qed.

(** What a populated answer of [predict_finish_time] is made of. *)
Lemma predict_finish_time_dict
      (df : DataFrame) (v cur total : Z) (f : FinishPrediction) :
  predict_finish_time std df v cur total = Ok (Dict f) ->
  exists p e,
    analyze_race_pace std df v cur = Ok (Dict p)
    /\ let remaining :=
         sum_range (fun i => fadd (current_pace p)
                                  (fmul (Fin (trend_per_lap p))
                                        (Fin (inject_Z i))))
                   (total - cur) in
       fadd (fold_left fadd (lap_seconds (laps_until df v cur)) (Fin 0))
            remaining = Fin e
       /\ predicted_finish_seconds f = Fin (round e 2)
       /\ time_elapsed f
          = fround (fold_left fadd (lap_seconds (laps_until df v cur)) (Fin 0)) 2
       /\ time_remaining f = fround remaining 2
       /\ laps_remaining f = total - cur
       /\ predicted_avg_lap f
          = if 0 <? total - cur then
              Float (fround (fdiv remaining (Fin (inject_Z (total - cur)))) 3)
            else Int 0.
Proof.
  unfold predict_finish_time.
  destruct (analyze_race_pace std df v cur) as [[e | p] | e]; cbn [bind];
    try discriminate.
  cbv zeta.
  destruct (fadd _ _) as [e | | |] eqn:E; cbn [finish_clock bind];
    try discriminate.
  intros [= <-]. exists p, e. split; [reflexivity|]. cbv zeta.
  rewrite E. cbn. repeat split; reflexivity.
Qed.

Lemma round_half_even_close (q : Q) :
  (q - (1 # 2) <= inject_Z (round_half_even q) <= q + (1 # 2))%Q.
Proof.
  unfold round_half_even. cbv zeta.
  pose proof (Qfloor_le q) as Hlo. pose proof (Qlt_floor q) as Hhi.
  rewrite inject_Z_plus in Hhi. change (inject_Z 1) with 1%Q in Hhi.
  set (f := inject_Z (Qfloor q)) in *.
  destruct (Qltb (q - f) (1 # 2)) eqn:A; qltb_hyps.
  - fold f. lra.
  - destruct (Qltb (1 # 2) (q - f)) eqn:B; qltb_hyps.
    + rewrite inject_Z_plus. change (inject_Z 1) with 1%Q. fold f. lra.
    + destruct (Z.even (Qfloor q)).
      * fold f. lra.
      * rewrite inject_Z_plus. change (inject_Z 1) with 1%Q. fold f. lra.
Qed.

(** Rounding to two digits moves a number by at most half a hundredth. *)
Lemma round2_close (q : Q) : (q - (1 # 200) <= round q 2 <= q + (1 # 200))%Q.
Proof.
  unfold round. change (inject_Z (10 ^ Z.of_nat 2)) with 100%Q.
  pose proof (round_half_even_close (q * 100)) as H.
  set (r := inject_Z (round_half_even (q * 100))) in *.
  split.
  - apply Qle_shift_div_l; [reflexivity | lra].
  - apply Qle_shift_div_r; [reflexivity | lra].
Qed.

(** X19: for at most 1000 laps remaining, a reported pace between 0 and
    10000 s and a reported trend of at most 100 s per lap either way, the
    remaining time [predict_finish_time] reports is within a hundredth of a
    second of the reported pace times the laps remaining plus the reported
    trend times the triangular number of the laps remaining. *)
Theorem remaining_time_near_closed_form
        (df : DataFrame) (v cur total : Z)
        (p : RacePace) (f : FinishPrediction) (c : Q) :
  analyze_race_pace std df v cur = Ok (Dict p) ->
  current_pace p = Fin c ->
  predict_finish_time std df v cur total = Ok (Dict f) ->
  total - cur <= 1000 ->
  (0 <= c <= 10000)%Q ->
  (- (100) <= trend_per_lap p <= 100)%Q ->
  exists t r,
    time_remaining f = Fin t
    /\ (r == inject_Z (Z.max 0 (total - cur)) * c
             + trend_per_lap p * triangular (total - cur))%Q
    /\ (r - (1 # 100) <= t <= r + (1 # 100))%Q.
Proof.
  intros Hp Hc Hf _ _ _. apply predict_finish_time_dict in Hf.
  destruct Hf as (p' & e & Hp' & _ & _ & _ & Hr & _).
  rewrite Hp in Hp'. injection Hp' as <-.
  rewrite Hc in Hr.
  destruct (sum_range_affine c (trend_per_lap p) (total - cur)) as (q & Hq & Eq).
  rewrite Hq in Hr. exists (round q 2), q.
  split; [exact Hr|]. split; [exact Eq|].
  pose proof (round2_close q). lra.
Qed.

Lemma round_compat (a b : Q) (n : nat) : (a == b)%Q -> (round a n == round b n)%Q.
Proof.
  intro H. apply Qle_antisym; apply round_mono; rewrite H; apply Qle_refl.
Qed.

(** X20: asked at or after the last lap, [predict_finish_time] predicts no
    remaining time: the predicted finish is the time elapsed, and the
    predicted average lap is the int 0. *)
Theorem finish_at_last_lap_is_time_elapsed
        (df : DataFrame) (v cur total : Z) (f : FinishPrediction) :
  total <= cur ->
  predict_finish_time std df v cur total = Ok (Dict f) ->
  same_float (time_remaining f) (Fin 0)
  /\ same_float (predicted_finish_seconds f) (time_elapsed f)
  /\ predicted_avg_lap f = Int 0.
Proof.
  intros Hle Hf. apply predict_finish_time_dict in Hf.
  destruct Hf as (p & e & _ & He & Hs & Ht & Hr & _ & Ha).
  rewrite sum_range_nonpos in * by lia.
  rewrite Hr, Hs, Ht, Ha.
  destruct (fold_left fadd _ (Fin 0)) as [x | | |]; try discriminate.
  cbn [fadd] in He. injection He as <-.
  split; [|split].
  - cbn. vm_compute. reflexivity.
  - cbn [fround same_float]. apply round_compat. ring.
  - destruct (Z.ltb_spec 0 (total - cur)); [lia | reflexivity].
Qed.

End RacePace.

Lemma pace_position_within_field_witness :
  exists d,
    RaceStrategyAnalyzer.analyze_race_pace no_spread steady_stint 13 14
    = Py.Ok (RaceStrategyAnalyzer.Dict d)
    /\ 1 <= RaceStrategyAnalyzer.pace_position d
         <= RaceStrategyAnalyzer.total_competitors d
    /\ RaceStrategyAnalyzer.total_competitors d <= field_size steady_stint
    /\ (RaceStrategyAnalyzer.is_improving d
        && RaceStrategyAnalyzer.is_degrading d = false).
Proof.
  eexists. split; [vm_compute; reflexivity|].
  apply (pace_position_within_field no_spread steady_stint 13 14).
  vm_compute. reflexivity.
Defined.

Lemma pace_not_below_best_lap_witness :
  exists d pace best delta,
    RaceStrategyAnalyzer.analyze_race_pace no_spread steady_stint 13 14
    = Py.Ok (RaceStrategyAnalyzer.Dict d)
    /\ RaceStrategyAnalyzer.current_pace d = Py.Fin pace
    /\ RaceStrategyAnalyzer.best_lap d = Py.Fin best
    /\ RaceStrategyAnalyzer.pace_delta d = Py.Fin delta
    /\ (best <= pace)%Q /\ (0 <= delta)%Q.
Proof.
  eexists.
  edestruct (pace_not_below_best_lap no_spread steady_stint 13 14)
    as (pace & best & delta & H).
  - unfold finite_lap_times. vm_compute. repeat constructor; eexists; reflexivity.
  - vm_compute. reflexivity.
  - exists pace, best, delta. split; [vm_compute; reflexivity | exact H].
Defined.

Lemma remaining_time_near_closed_form_witness :
  exists p f c t r,
    RaceStrategyAnalyzer.analyze_race_pace no_spread steady_stint 13 14
    = Py.Ok (RaceStrategyAnalyzer.Dict p)
    /\ RaceStrategyAnalyzer.current_pace p = Py.Fin c
    /\ RaceStrategyAnalyzer.predict_finish_time no_spread steady_stint 13 14 27
       = Py.Ok (RaceStrategyAnalyzer.Dict f)
    /\ RaceStrategyAnalyzer.time_remaining f = Py.Fin t
    /\ (r == inject_Z (Z.max 0 (27 - 14)) * c
             + RaceStrategyAnalyzer.trend_per_lap p * triangular (27 - 14))%Q
    /\ (r - (1 # 100) <= t <= r + (1 # 100))%Q.
Proof.
  do 3 eexists.
  edestruct (remaining_time_near_closed_form no_spread steady_stint 13 14 27)
    as (t & r & Ht & Er & Hclose).
  - vm_compute. reflexivity.
  - vm_compute. reflexivity.
  - vm_compute. reflexivity.
  - lia.
  - vm_compute. split; discriminate.
  - vm_compute. split; discriminate.
  - exists t, r.
    split; [vm_compute; reflexivity|]. split; [vm_compute; reflexivity|].
    split; [vm_compute; reflexivity|]. split; [exact Ht|].
    split; [exact Er | exact Hclose].
Defined.

Lemma finish_at_last_lap_is_time_elapsed_witness :
  exists f,
    RaceStrategyAnalyzer.predict_finish_time no_spread steady_stint 13 14 14
    = Py.Ok (RaceStrategyAnalyzer.Dict f)
    /\ same_float (RaceStrategyAnalyzer.time_remaining f) (Py.Fin 0)
    /\ same_float (RaceStrategyAnalyzer.predicted_finish_seconds f)
                  (RaceStrategyAnalyzer.time_elapsed f)
    /\ RaceStrategyAnalyzer.predicted_avg_lap f = Py.Int 0.
Proof.
  eexists. split; [vm_compute; reflexivity|].
  apply (finish_at_last_lap_is_time_elapsed no_spread steady_stint 13 14 14).
  - lia.
  - vm_compute. reflexivity.
Defined.

(** ** Metrics of the optimal lap (src/telemetry_processor.py) *)

Section OptimalMetrics.
Import Py Pandas TelemetryFrame.
Local Open Scope Z_scope.

Lemma dropna_positive (col : list (option Q)) :
  Forall (fun x => (0 < x)%Q) (dropna (positive col))
  /\ List.length (dropna (positive col)) = List.length (positive col).
Proof.
  induction col as [| c col [IH1 IH2]]; cbn; [split; [constructor | reflexivity]|].
  destruct c as [x |]; [|now split].
  destruct (Qltb 0 x) eqn:E; [|now split].
  cbn. apply Qltb_lt in E. split; [now constructor | now f_equal].
Qed.

Lemma fold_Qplus_positive (l : list Q) :
  Forall (fun x => (0 < x)%Q) l ->
  forall a, (a <= fold_left Qplus l a)%Q
            /\ (l <> [] -> (a < fold_left Qplus l a)%Q).
Proof.
  induction 1 as [| x l Hx _ IH]; intro a; cbn [fold_left].
  - split; [lra | congruence].
  - destruct (IH (a + x)%Q) as [Hle _]. split; [lra | intros _; lra].
Qed.

Lemma fold_Qplus_at_most (hi : Q) (l : list Q) :
  Forall (fun x => (x <= hi)%Q) l ->
  forall a, (fold_left Qplus l a
             <= a + hi * inject_Z (Z.of_nat (List.length l)))%Q.
Proof.
  induction 1 as [| x l Hx _ IH]; intro a.
  - change (inject_Z (Z.of_nat (List.length (@nil Q)))) with 0%Q.
    cbn [fold_left]. lra.
  - cbn [fold_left]. specialize (IH (a + x)%Q).
    change (List.length (x :: l)) with (S (List.length l)).
    rewrite Nat2Z.inj_succ. unfold Z.succ. rewrite inject_Z_plus.
    change (inject_Z 1) with 1%Q. nra.
Qed.

Lemma Qmax_upper (x y : Q) : (x <= Qmax x y)%Q /\ (y <= Qmax x y)%Q.
Proof.
  unfold Qmax. destruct (Qle_bool x y) eqn:E.
  - apply Qle_bool_iff in E. split; lra.
  - split; [lra|]. destruct (Qlt_le_dec y x) as [L | L]; [lra|].
    apply Qle_bool_iff in L. congruence.
Qed.

Lemma fold_Qmax_greatest (r : list Q) : forall x,
  (x <= fold_left Qmax r x)%Q
  /\ Forall (fun y => (y <= fold_left Qmax r x)%Q) r.
Proof.
  induction r as [| y r IH]; intro x; cbn [fold_left].
  - split; [lra | constructor].
  - destruct (IH (Qmax x y)) as [H1 H2].
    destruct (Qmax_upper x y) as [Hx Hy].
    split; [lra|]. constructor; [lra | exact H2].
Qed.

(** The mean and the maximum of the positive cells are positive, and no
    positive cell is above the maximum. *)
Lemma positive_mean_max (col : list (option Q)) :
  (0 < List.length (positive col))%nat ->
  exists a M,
    col_mean (positive col) = Fin a /\ col_max (positive col) = Fin M
    /\ (0 < a)%Q /\ (0 < M)%Q
    /\ forall x, In (Some x) col -> (0 < x)%Q -> (x <= M)%Q.
Proof.
  intro Hlen. destruct (dropna_positive col) as [Hpos Hl].
  assert (Hin : forall x, In (Some x) col -> (0 < x)%Q ->
                          In x (dropna (positive col))).
  { intros x Hx Hp. apply dropna_In. unfold positive. apply filter_In.
    split; [exact Hx|]. now apply Qltb_lt. }
  unfold col_mean, col_max.
  destruct (dropna (positive col)) as [| x r] eqn:E; [cbn in Hl; lia|].
  set (n := inject_Z (Z.of_nat (List.length (x :: r)))).
  assert (Hn : (0 < n)%Q).
  { unfold n. rewrite <- (Zlt_Qlt 0). cbn [List.length]. lia. }
  destruct (fold_Qmax_greatest r x) as [Hx Hr].
  assert (Hx0 : (0 < x)%Q) by (inversion Hpos; assumption).
  do 2 eexists. repeat split.
  - apply Qlt_shift_div_l; [exact Hn|]. rewrite Qmult_0_l.
    apply (fold_Qplus_positive (x :: r) Hpos 0). discriminate.
  - lra.
  - intros y Hy Hp. destruct (Hin y Hy Hp) as [<- | Hyr]; [exact Hx|].
    rewrite Forall_forall in Hr. now apply Hr.
Qed.

Lemma speed_metrics_positive (col : list (option Q)) :
  exists a M,
    speed_metrics col = (Fin a, Fin M) /\ (0 < a)%Q /\ (0 < M)%Q
    /\ forall x, In (Some x) col -> (0 < x)%Q -> (x <= M)%Q.
Proof.
  unfold speed_metrics. cbv zeta.
  destruct (Nat.ltb_spec 0 (List.length (positive col))) as [H | H].
  - destruct (positive_mean_max col H) as (a & M & -> & -> & Ha & HM & Hall).
    now exists a, M.
  - exists 140%Q, 180%Q. repeat split; try lra.
    intros x Hx Hp. exfalso.
    assert (Hin : In (Some x) (positive col)).
    { unfold positive. apply filter_In. split; [exact Hx|]. now apply Qltb_lt. }
    destruct (positive col); [destruct Hin | cbn in H; lia].
Qed.

Lemma rpm_metric_positive (col : list (option Q)) :
  exists r, rpm_metric col = Fin r /\ (0 < r)%Q.
Proof.
  unfold rpm_metric. cbv zeta.
  destruct (Nat.ltb_spec 0 (List.length (positive col))) as [H | H].
  - destruct (positive_mean_max col H) as (a & M & -> & _ & Ha & _).
    now exists a.
  - exists 6000%Q. split; [reflexivity | lra].
Qed.

(** X21: whatever the frame, the average speed, the top speed and the
    average rpm that [calculate_optimal_metrics] reports are positive
    numbers, never zero or NaN; and on a frame with rows, no positive cell
    of the speed column it reads is above the reported top speed. *)
Theorem optimal_metrics_positive (telemetry : Telemetry) :
  exists a M r,
    avg_speed (calculate_optimal_metrics telemetry) = Fin a
    /\ max_speed (calculate_optimal_metrics telemetry) = Fin M
    /\ avg_rpm (calculate_optimal_metrics telemetry) = Fin r
    /\ (0 < a)%Q /\ (0 < M)%Q /\ (0 < r)%Q
    /\ forall col x,
         empty telemetry = false -> speed_column telemetry = Some col ->
         In (Some x) col -> (0 < x)%Q -> (x <= M)%Q.
Proof.
  unfold calculate_optimal_metrics, speed_column.
  destruct (empty telemetry).
  - exists 150%Q, 180%Q, 6000%Q. cbn. repeat split; try lra. discriminate.
  - cbv zeta. cbn [avg_speed max_speed avg_rpm].
    assert (Hs : exists a M,
               match column telemetry "speed" with
               | Some col => speed_metrics col
               | None =>
                   match column telemetry "Speed" with
                   | Some col => speed_metrics col
                   | None => (Fin 140, Fin 180)
                   end
               end = (Fin a, Fin M) /\ (0 < a)%Q /\ (0 < M)%Q
               /\ forall col x,
                    match column telemetry "speed" with
                    | Some c => Some c
                    | None => column telemetry "Speed"
                    end = Some col ->
                    In (Some x) col -> (0 < x)%Q -> (x <= M)%Q).
    { destruct (column telemetry "speed") as [col |].
      - destruct (speed_metrics_positive col) as (a & M & E & Ha & HM & Hall).
        exists a, M. repeat split; try assumption.
        intros c x [= <-]. apply Hall.
      - destruct (column telemetry "Speed") as [col |].
        + destruct (speed_metrics_positive col) as (a & M & E & Ha & HM & Hall).
          exists a, M. repeat split; try assumption.
          intros c x [= <-]. apply Hall.
        + exists 140%Q, 180%Q. repeat split; try lra. discriminate. }
    assert (Hr : exists r,
               match column telemetry "nmot" with
               | Some col => rpm_metric col
               | None =>
                   match column telemetry "nmotor" with
                   | Some col => rpm_metric col
                   | None => Fin 6000
                   end
               end = Fin r /\ (0 < r)%Q).
    { destruct (column telemetry "nmot") as [col |];
        [apply rpm_metric_positive|].
      destruct (column telemetry "nmotor") as [col |];
        [apply rpm_metric_positive|].
      exists 6000%Q. split; [reflexivity | lra]. }
    destruct Hs as (a & M & -> & Ha & HM & Hall). destruct Hr as (r & -> & Hr).
    exists a, M, r. cbn [fst snd]. repeat split; try assumption.
    intros col x _. apply Hall.
Qed.

End OptimalMetrics.

(** ** Cache files (src/telemetry_processor.py) *)

Section CachePaths.
Import Py TelemetryProcessor.
Local Open Scope string_scope.
Local Open Scope Z_scope.

Lemma append_cancel_l (a x y : string) : a ++ x = a ++ y -> x = y.
Proof. induction a as [| c a IH]; cbn; [auto|]. intros [= H]. auto. Qed.

Lemma path_join_inj (a b1 b2 : string) :
  starts_with_slash b1 = starts_with_slash b2 ->
  path_join a b1 = path_join a b2 -> b1 = b2.
Proof.
  unfold path_join. intros ->.
  destruct (starts_with_slash b2); [auto|].
  destruct (_ || _); intro E; apply append_cancel_l in E; [exact E|].
  now injection E.
Qed.

(** The text of an int holds digits and a sign only. *)
Lemma uint_text_plain (c : ascii) (d : Decimal.uint) :
  existsb (fun k => Ascii.eqb k c)
          ["0"; "1"; "2"; "3"; "4"; "5"; "6"; "7"; "8"; "9"]%char = false ->
  contains c (NilEmpty.string_of_uint d) = false.
Proof.
  cbn [existsb]. intro H.
  repeat (apply orb_false_elim in H; destruct H as [? H]).
  induction d; cbn [NilEmpty.string_of_uint contains]; try reflexivity;
    rewrite IHd; rewrite orb_false_r; assumption.
Qed.

Lemma str_of_int_plain (c : ascii) (z : Z) :
  existsb (fun k => Ascii.eqb k c)
          ["0"; "1"; "2"; "3"; "4"; "5"; "6"; "7"; "8"; "9"; "-"]%char = false ->
  contains c (str_of_int z) = false.
Proof.
  intro H.
  assert (Hd : existsb (fun k => Ascii.eqb k c)
                 ["0"; "1"; "2"; "3"; "4"; "5"; "6"; "7"; "8"; "9"]%char = false).
  { cbn [existsb] in *. repeat (apply orb_false_elim in H; destruct H as [? H]).
    repeat (apply orb_false_intro; [assumption|]). reflexivity. }
  assert (Hm : Ascii.eqb "-" c = false).
  { cbn [existsb] in H. repeat (apply orb_false_elim in H; destruct H as [? H]).
    assumption. }
  assert (Hu : forall d, contains c (NilZero.string_of_uint d) = false).
  { intro d. pose proof (uint_text_plain c d Hd) as P.
    destruct d; try exact P. cbn. rewrite orb_false_r.
    cbn [existsb] in Hd. now apply orb_false_elim in Hd. }
  unfold str_of_int. destruct (Z.to_int z) as [d | d]; cbn [NilZero.string_of_int].
  - apply Hu.
  - cbn [contains]. rewrite Hm. apply Hu.
Qed.

Lemma str_of_int_inj (z z' : Z) : str_of_int z = str_of_int z' -> z = z'.
Proof.
  unfold str_of_int. intro H. apply DecimalZ.to_int_inj.
  assert (Hn : forall n, Z.to_int n <> Decimal.Pos Decimal.Nil
                         /\ Z.to_int n <> Decimal.Neg Decimal.Nil).
  { intros [| q | q]; cbn; split; try discriminate;
      intros [= E]; exact (DecimalPos.Unsigned.to_uint_nonnil q E). }
  destruct (Hn z) as [A B]. destruct (Hn z') as [A' B'].
  pose proof (NilZero.isi _ A B) as E. rewrite H in E.
  rewrite (NilZero.isi _ A' B') in E. now injection E.
Qed.

(** X22: for one cache directory and one track, two different (race, lap)
    pairs never share a cache file. *)
Theorem cache_paths_differ (cache_dir track : string) (race lap race' lap' : Z) :
  race <> race' \/ lap <> lap' ->
  get_cache_path cache_dir track race lap
  <> get_cache_path cache_dir track race' lap'.
Proof.
  intros Hne E. unfold get_cache_path in E.
  apply path_join_inj in E; [|destruct track; reflexivity].
  apply append_cancel_l in E. injection E as E.
  assert (Hu : forall z, contains "_"%char (str_of_int z) = false)
    by (intro z; now apply str_of_int_plain).
  assert (Hp : forall z, contains "."%char (str_of_int z) = false)
    by (intro z; now apply str_of_int_plain).
  pose proof (f_equal (split "_"%char) E) as S.
  change ("_lap" ++ ?x) with (String "_" ("lap" ++ x)) in S.
  rewrite !split_cons in S by apply Hu.
  injection S as Hr _. apply str_of_int_inj in Hr. subst race'.
  apply append_cancel_l in E. injection E as E.
  pose proof (f_equal (split "."%char) E) as S.
  change (".csv") with (String "." "csv") in S.
  rewrite !split_cons in S by apply Hp.
  injection S as Hl. apply str_of_int_inj in Hl. subst lap'.
  destruct Hne; congruence.
Qed.

Lemma cache_paths_differ_witness :
  get_cache_path "output/telemetry_cache" "barber" 1 5
  <> get_cache_path "output/telemetry_cache" "barber" 1 6.
Proof.
  apply (cache_paths_differ "output/telemetry_cache" "barber" 1 5 1 6).
  right. lia.
Defined.

End CachePaths.

(** ** Braking zones (src/analysis/racing_line.py) *)

Section BrakingZones.
Import Py Pandas RacingLineAnalyzer.
Local Open Scope Z_scope.

Variable sort_by_distance : list Sample -> list Sample.

Lemma last_braking_cons (s e : Sample) (r : list Sample) :
  last_braking r = Some e -> last_braking (s :: r) = Some e.
Proof.
  unfold last_braking. cbn [filter].
  destruct (is_braking s); [|auto].
  cbn [rev]. destruct (rev (filter is_braking r)); [discriminate|].
  cbn. auto.
Qed.

Lemma braking_zone_start (t : TelemetryTable) (s : Sample) (r : list Sample) :
  is_braking s = true ->
  exists z e,
    braking_zone t s (s :: r) = [z]
    /\ last_braking (s :: r) = Some e
    /\ exit_speed z = Speed e
    /\ duration_points z = Z.of_nat (S (List.length (filter is_braking r))).
Proof.
  intro Hb. unfold braking_zone, last_braking. cbn [filter]. rewrite Hb.
  cbn [rev].
  destruct (rev (filter is_braking r) ++ [s])%list as [| e l'] eqn:E.
  { destruct (rev (filter is_braking r)); discriminate. }
  do 2 eexists. split; [reflexivity|]. cbn. repeat split.
Qed.

Lemma braking_zones_spec (t : TelemetryTable) (l : list Sample) :
  forall previous,
    Forall (fun z => exists e,
                last_braking l = Some e /\ exit_speed z = Speed e
                /\ 1 <= duration_points z
                   <= Z.of_nat (List.length (filter is_braking l)))
           (braking_zones t previous l)
    /\ StronglySorted shorter (braking_zones t previous l).
Proof.
  induction l as [| s r IH]; intro previous; cbn [braking_zones].
  - split; constructor.
  - destruct (IH (is_braking s)) as [Hall Hsorted].
    assert (Hrest : Forall (fun z => exists e,
                last_braking (s :: r) = Some e /\ exit_speed z = Speed e
                /\ 1 <= duration_points z
                   <= Z.of_nat (List.length (filter is_braking (s :: r))))
              (braking_zones t (is_braking s) r)).
    { eapply Forall_impl; [|exact Hall].
      intros z (e & He & Hs & Hd). exists e.
      split; [now apply last_braking_cons|]. split; [exact Hs|].
      cbn [filter]. destruct (is_braking s); cbn [List.length]; lia. }
    destruct (negb previous && is_braking s) eqn:Hstart;
      [|cbn [app]; split; assumption].
    apply andb_prop in Hstart. destruct Hstart as [_ Hb].
    destruct (braking_zone_start t s r Hb) as (z0 & e & -> & He & Hs & Hd).
    assert (Hlen : List.length (filter is_braking (s :: r))
                   = S (List.length (filter is_braking r)))
      by (cbn [filter]; now rewrite Hb).
    cbn [app]. split.
    + constructor; [|exact Hrest].
      exists e. rewrite Hlen. repeat split; try assumption; lia.
    + constructor; [exact Hsorted|].
      eapply Forall_impl; [|exact Hall].
      intros z (_ & _ & _ & Hz). unfold shorter. lia.
Qed.

(** X23: every braking zone [analyze_braking_points] reports runs to the
    last braking sample of the lap: all zones share that sample's speed as
    exit speed, each has at least one point, and each later zone has fewer
    points than the zones before it. *)
Theorem braking_zones_run_to_last_braking_sample
        (telemetry_df : TelemetryTable) (vehicle : string) (lap_num : Z) :
  let lap_data :=
    extract_racing_line sort_by_distance telemetry_df vehicle lap_num in
  let zones :=
    analyze_braking_points sort_by_distance telemetry_df vehicle lap_num in
  Forall (fun z => exists e,
              last_braking lap_data = Some e /\ exit_speed z = Speed e
              /\ 1 <= duration_points z) zones
  /\ StronglySorted shorter zones.
Proof.
  cbv zeta. unfold analyze_braking_points. cbv zeta.
  destruct (_ || _); [split; constructor|].
  destruct (braking_zones_spec telemetry_df
              (extract_racing_line sort_by_distance telemetry_df vehicle lap_num)
              false) as [Hall Hsorted].
  split; [|exact Hsorted].
  eapply Forall_impl; [|exact Hall].
  intros z (e & He & Hs & Hd). exists e. repeat split; try assumption; lia.
Qed.

End BrakingZones.

(** ** Sector degradation and competitors (src/analysis/tire_degradation.py) *)

Section SectorDegradationFacts.
Import Py Pandas TireDegradationAnalyzer.
Local Open Scope string_scope.
Local Open Scope Z_scope.

Lemma fold_Qplus_at_least (lo : Q) (l : list Q) :
  Forall (fun x => (lo <= x)%Q) l ->
  forall a, (a + lo * inject_Z (Z.of_nat (List.length l))
             <= fold_left Qplus l a)%Q.
Proof.
  induction 1 as [| x l Hx _ IH]; intro a.
  - change (inject_Z (Z.of_nat (List.length (@nil Q)))) with 0%Q.
    cbn [fold_left]. lra.
  - cbn [fold_left]. specialize (IH (a + x)%Q).
    change (List.length (x :: l)) with (S (List.length l)).
    rewrite Nat2Z.inj_succ. unfold Z.succ. rewrite inject_Z_plus.
    change (inject_Z 1) with 1%Q. nra.
Qed.

Lemma col_mean_at_least (lo : Q) (col : list (option Q)) (a : Q) :
  (forall y, In (Some y) col -> (lo <= y)%Q) ->
  col_mean col = Fin a -> (lo <= a)%Q.
Proof.
  intros H. unfold col_mean.
  destruct (dropna col) as [| x r] eqn:E; [discriminate|].
  intros [= <-].
  assert (Hall : Forall (fun y => (lo <= y)%Q) (x :: r)).
  { apply Forall_forall. intros y Hy. apply H, dropna_In. now rewrite E. }
  pose proof (fold_Qplus_at_least lo (x :: r) Hall 0) as Hs.
  set (n := inject_Z (Z.of_nat (List.length (x :: r)))) in *.
  assert (Hn : (0 < n)%Q).
  { unfold n. rewrite <- (Zlt_Qlt 0). cbn [List.length]. lia. }
  apply Qle_shift_div_l; [exact Hn|].
  change (lo * n <= fold_left Qplus (x :: r) 0)%Q. lra.
Qed.

Lemma col_mean_at_most (hi : Q) (col : list (option Q)) (a : Q) :
  (forall y, In (Some y) col -> (y <= hi)%Q) ->
  col_mean col = Fin a -> (a <= hi)%Q.
Proof.
  intros H. unfold col_mean.
  destruct (dropna col) as [| x r] eqn:E; [discriminate|].
  intros [= <-].
  assert (Hall : Forall (fun y => (y <= hi)%Q) (x :: r)).
  { apply Forall_forall. intros y Hy. apply H, dropna_In. now rewrite E. }
  pose proof (fold_Qplus_at_most hi (x :: r) Hall 0) as Hs.
  set (n := inject_Z (Z.of_nat (List.length (x :: r)))) in *.
  assert (Hn : (0 < n)%Q).
  { unfold n. rewrite <- (Zlt_Qlt 0). cbn [List.length]. lia. }
  apply Qle_shift_div_r; [exact Hn|].
  change (fold_left Qplus (x :: r) 0 <= hi * n)%Q. lra.
Qed.

Lemma col_mean_cases (col : list (option Q)) :
  (exists a, col_mean col = Fin a) \/ col_mean col = NaN.
Proof.
  unfold col_mean. destruct (dropna col); [now right | left; eexists; reflexivity].
Qed.

Lemma col_mean_present (col : list (option Q)) (y : Q) :
  In (Some y) col -> exists a, col_mean col = Fin a.
Proof.
  intro H. apply dropna_In in H. unfold col_mean.
  destruct (dropna col); [destruct H | eexists; reflexivity].
Qed.

Lemma In_skipn {A} (n : nat) (l : list A) (x : A) : In x (skipn n l) -> In x l.
Proof.
  intro H. rewrite <- (firstn_skipn n l). apply in_or_app. now right.
Qed.

(** In a sorted list, the first [i+1] elements are below the elements from
    position [j] on, for [i <= j]. *)
Lemma sorted_firstn_skipn (l : list Q) :
  StronglySorted Qle l ->
  forall (i j : nat) (x y : Q),
    (i <= j)%nat -> In x (firstn (S i) l) -> In y (skipn j l) -> (x <= y)%Q.
Proof.
  induction 1 as [| a l Hs IH Ha]; intros i j x y Hij Hx Hy.
  - destruct j; destruct Hy.
  - rewrite Forall_forall in Ha. cbn [firstn] in Hx.
    destruct j as [| j].
    + assert (i = 0)%nat by lia. subst i. cbn in Hx.
      destruct Hx as [<- | []]. cbn in Hy.
      destruct Hy as [<- | Hy]; [apply Qle_refl | now apply Ha].
    + cbn [skipn] in Hy. destruct Hx as [<- | Hx].
      * apply Ha. eapply In_skipn; eassumption.
      * destruct i as [| i]; [destruct Hx|].
        apply (IH i j); [lia | exact Hx | exact Hy].
Qed.

Lemma In_Some_map (y : Q) (l : list Q) : In (Some y) (map Some l) <-> In y l.
Proof.
  rewrite in_map_iff. split.
  - intros (x & [= ->] & H). exact H.
  - intro H. now exists y.
Qed.

(** X24: for a sector whose times are all present and never fall from one
    row of the vehicle to the next, the entry [analyze_sector_degradation]
    reports has a late average that is not below the early average, and a
    delta that is a number and not negative. *)
Theorem rising_sector_has_nonnegative_delta
        (df : DataFrame) (v : Z) (sector : string * (LapRow -> option Q))
        (d : SectorDegradation) :
  In sector sectors ->
  rising (map (snd sector) (of_vehicle df v)) ->
  In (fst sector, d) (analyze_sector_degradation df v) ->
  exists early late x,
    early_avg d = Fin early /\ late_avg d = Fin late /\ delta d = Fin x
    /\ (early <= late)%Q /\ (0 <= x)%Q.
Proof.
  intros Hsec (qs & Hqs & Hsorted) Hin.
  unfold analyze_sector_degradation in Hin. cbv zeta in Hin.
  destruct (Nat.ltb_spec (List.length (of_vehicle df v)) 5) as [L | L];
    [destruct Hin|].
  assert (Hlen : List.length qs = List.length (of_vehicle df v)).
  { apply (f_equal (@List.length _)) in Hqs. now rewrite !length_map in Hqs. }
  (* the entry comes from this very sector: the names are distinct *)
  apply in_flat_map in Hin. destruct Hin as (sector' & Hsec' & Hin).
  destruct (existsb _ (columns df)); [|destruct Hin].
  destruct Hin as [Hin | []].
  assert (sector' = sector).
  { injection Hin as Hname _. clear - Hsec Hsec' Hname.
    cbn in Hsec, Hsec'.
    destruct Hsec as [<- | [<- | [<- | []]]];
      destruct Hsec' as [<- | [<- | [<- | []]]];
      try reflexivity; discriminate Hname. }
  subst sector'. apply (f_equal snd) in Hin. cbn [snd] in Hin.
  subst d. cbn [early_avg late_avg delta].
  change (head 3 (of_vehicle df v)) with (firstn 3 (of_vehicle df v)).
  unfold tail.
  rewrite <- firstn_map, <- skipn_map, Hqs, firstn_map, skipn_map.
  set (k := (List.length (of_vehicle df v) - 3)%nat).
  assert (Hhead : exists y, In y (firstn 3 qs)).
  { destruct qs as [| q0 qs']; [cbn in Hlen; lia|]. exists q0. now left. }
  assert (Htail : exists y, In y (skipn k qs)).
  { destruct (skipn k qs) as [| y r] eqn:E; [|exists y; now left].
    apply (f_equal (@List.length _)) in E. rewrite length_skipn in E.
    cbn in E. lia. }
  destruct Hhead as (yh & Hyh). destruct Htail as (yt & Hyt).
  destruct (col_mean_present (map Some (firstn 3 qs)) yh) as (e & He);
    [now apply In_Some_map|].
  destruct (col_mean_present (map Some (skipn k qs)) yt) as (l & Hl);
    [now apply In_Some_map|].
  rewrite He, Hl. cbn [fsub fopp fadd fround].
  assert (Hel : (e <= l)%Q).
  { apply (col_mean_at_least e (map Some (skipn k qs)) l); [|exact Hl].
    intros y Hy. apply In_Some_map in Hy.
    apply (col_mean_at_most y (map Some (firstn 3 qs)) e); [|exact He].
    intros x Hx. apply In_Some_map in Hx.
    apply (sorted_firstn_skipn qs Hsorted 2 k); [lia | exact Hx | exact Hy]. }
  do 3 eexists. repeat split.
  - now apply round_mono.
  - apply round_nonneg. lra.
Qed.

Lemma rising_sector_has_nonnegative_delta_witness :
  exists d early late x,
    In ("S1_SECONDS", d) (analyze_sector_degradation steady_stint 13)
    /\ early_avg d = Fin early /\ late_avg d = Fin late /\ delta d = Fin x
    /\ (early <= late)%Q /\ (0 <= x)%Q.
Proof.
  eexists.
  edestruct (rising_sector_has_nonnegative_delta steady_stint 13
               ("S1_SECONDS", S1_SECONDS)) as (early & late & x & H).
  - left. reflexivity.
  - exists [32; 32; 32; 322 # 10; 322 # 10]%Q. split; [reflexivity|].
    repeat constructor; discriminate.
  - left. vm_compute. reflexivity.
  - exists early, late, x. split; [left; reflexivity | exact H].
Defined.

(** *** Competitors *)

Variable sort_by_degradation : list Comparison -> list Comparison.
Hypothesis sort_permutes : forall l, Permutation (sort_by_degradation l) l.

Lemma unique_from_spec (col : list Z) : forall seen,
  NoDup (unique_from seen col)
  /\ forall x, In x (unique_from seen col) ->
               In x col /\ existsb (Z.eqb x) seen = false.
Proof.
  induction col as [| y col IH]; intro seen; cbn [unique_from].
  - split; [constructor | intros x []].
  - destruct (existsb (Z.eqb y) seen) eqn:E.
    + destruct (IH seen) as [Hn Hi]. split; [exact Hn|].
      intros x Hx. destruct (Hi x Hx). split; [now right | assumption].
    + destruct (IH (y :: seen)) as [Hn Hi]. split.
      * constructor; [|exact Hn]. intro Hy. destruct (Hi y Hy) as [_ Hs].
        cbn in Hs. rewrite Z.eqb_refl in Hs. discriminate.
      * intros x [<- | Hx]; [split; [now left | exact E]|].
        destruct (Hi x Hx) as [Hc Hs]. split; [now right|].
        cbn in Hs. now apply orb_false_elim in Hs.
Qed.

(** The entry of a competitor carries its number, and its degradation is
    not negative. *)
Lemma comparison_entry (df : DataFrame) (cur competitor : Z) (c : Comparison) :
  In c (comparison df cur competitor) ->
  vehicle_number c = competitor /\ flt (degradation c) (Fin 0) = false.
Proof.
  unfold comparison. cbv zeta.
  set (laps := filter _ (rows df)).
  destruct (List.length laps <? 3)%nat; [intros []|].
  intros [<- | []]. cbn [vehicle_number degradation]. split; [reflexivity|].
  destruct (col_mean_cases (map lap_time_seconds (tail 3 (sort_values laps))))
    as [(a & Ha) | ->]; [|reflexivity].
  rewrite Ha.
  pose proof (col_min_is_minimum (map lap_time_seconds (sort_values laps))) as Hm.
  assert (Hsub : forall y,
             In (Some y) (map lap_time_seconds (tail 3 (sort_values laps))) ->
             In (Some y) (map lap_time_seconds (sort_values laps))).
  { intros y Hy. apply in_map_iff in Hy. destruct Hy as (r & Hr & Hin).
    apply in_map_iff. exists r. split; [exact Hr|].
    unfold tail in Hin. eapply In_skipn; eassumption. }
  destruct (col_min _) as [m | | |]; cbn in Hm; try contradiction.
  - destruct Hm as [_ Hle].
    assert (Hma : (m <= a)%Q).
    { apply (col_mean_at_least m
               (map lap_time_seconds (tail 3 (sort_values laps))) a);
        [|exact Ha].
      intros y Hy. auto. }
    cbn [fsub fopp fadd fround flt]. apply Qltb_ge. apply round_nonneg. lra.
  - reflexivity.
Qed.

(** X25: whatever order the sort leaves the list in,
    [compare_to_competitors] never lists the vehicle itself, lists each
    competitor at most once and only vehicles of the table, and reports no
    negative degradation. *)
Theorem competitors_exclude_self (df : DataFrame) (v cur : Z) :
  let listed := compare_to_competitors sort_by_degradation df v cur in
  Forall (fun c => vehicle_number c <> v
                   /\ In (vehicle_number c) (map NUMBER (rows df))
                   /\ flt (degradation c) (Fin 0) = false) listed
  /\ NoDup (map vehicle_number listed).
Proof.
  cbv zeta. unfold compare_to_competitors. cbv zeta.
  set (f := fun competitor => if competitor =? v then []
                              else comparison df cur competitor).
  destruct (unique_from_spec (map NUMBER (rows df)) []) as [Hn Hi].
  fold (unique (map NUMBER (rows df))) in Hn, Hi.
  pose proof (sort_permutes (flat_map f (unique (map NUMBER (rows df))))) as P.
  split.
  - apply (Permutation_Forall (Permutation_sym P)).
    apply Forall_forall. intros c Hc.
    apply in_flat_map in Hc. destruct Hc as (competitor & Hcomp & Hc).
    unfold f in Hc. destruct (Z.eqb_spec competitor v) as [| Hne]; [destruct Hc|].
    destruct (comparison_entry _ _ _ _ Hc) as [-> Hd].
    repeat split; [exact Hne | now apply Hi | exact Hd].
  - apply (Permutation_NoDup
             (Permutation_map vehicle_number (Permutation_sym P))).
    clear P Hi. induction (unique (map NUMBER (rows df))) as [| x l IH];
      [constructor|].
    inversion Hn as [| ? ? Hx Hl]; subst.
    cbn [flat_map]. rewrite map_app.
    assert (Hrest : forall y, In y (map vehicle_number (flat_map f l)) -> In y l).
    { intros y Hy. apply in_map_iff in Hy. destruct Hy as (c & <- & Hc).
      apply in_flat_map in Hc. destruct Hc as (z & Hz & Hc).
      unfold f in Hc. destruct (z =? v); [destruct Hc|].
      destruct (comparison_entry _ _ _ _ Hc) as [-> _]. exact Hz. }
    assert (Hfx : f x = [] \/ exists c, f x = [c] /\ vehicle_number c = x).
    { unfold f. destruct (x =? v); [now left|].
      pose proof (comparison_entry df cur x) as He.
      unfold comparison in *. cbv zeta in *.
      destruct (List.length _ <? 3)%nat; [now left|].
      right. eexists. split; [reflexivity|]. apply He. now left. }
    destruct Hfx as [-> | (c & -> & Hc)]; cbn [map app]; [exact (IH Hl)|].
    constructor; [|exact (IH Hl)].
    intro Hy. apply Hx. apply Hrest. now rewrite <- Hc.
Qed.

End SectorDegradationFacts.

Lemma competitors_exclude_self_witness :
  let listed :=
    TireDegradationAnalyzer.compare_to_competitors unsorted two_cars 13 14 in
  Forall (fun c => TireDegradationAnalyzer.vehicle_number c <> 13
                   /\ In (TireDegradationAnalyzer.vehicle_number c)
                         (map Pandas.NUMBER (Pandas.rows two_cars))
                   /\ Py.flt (TireDegradationAnalyzer.degradation c) (Py.Fin 0)
                      = false) listed
  /\ NoDup (map TireDegradationAnalyzer.vehicle_number listed).
Proof.
  apply (competitors_exclude_self unsorted).
  intro l. apply Permutation_refl.
Defined.

(** ** Sector performance (src/analysis/race_strategy.py) *)

Section SectorPerformanceFacts.
Import Py Pandas RaceStrategyAnalyzer.
Local Open Scope string_scope.
Local Open Scope Z_scope.

Variable std : list Q -> pyfloat.

Lemma field_average_In (l : list (string * Q)) (name : string) (f : Q) :
  In (name, f) l -> exists f', field_average l name = Some f'.
Proof.
  induction l as [| [n g] l IH]; [intros []|].
  cbn [field_average]. intros [[= -> ->] | H].
  - rewrite String.eqb_refl. eauto.
  - destruct (String.eqb n name); eauto.
Qed.

Lemma vs_field_keys_total (items : list (string * SectorStats)) :
  Forall (fun it => exists k, vs_field (snd it) = Some k) items ->
  exists ks,
    vs_field_keys items = Found ks
    /\ Forall2 (fun it k => fst k = fst it /\ vs_field (snd it) = Some (snd k))
               items ks.
Proof.
  induction 1 as [| [name st] items (k & Hk) _ (ks & Hks & Hall)].
  - exists []. split; [reflexivity | constructor].
  - cbn [snd] in Hk. cbn [vs_field_keys]. rewrite Hk, Hks.
    exists ((name, k) :: ks). split; [reflexivity|].
    constructor; [now split | exact Hall].
Qed.

Lemma vs_field_keys_found (items : list (string * SectorStats)) :
  forall ks, vs_field_keys items = Found ks ->
  Forall2 (fun it k => fst k = fst it /\ vs_field (snd it) = Some (snd k))
          items ks.
Proof.
  induction items as [| [name st] items IH]; intros ks; cbn [vs_field_keys].
  - intros [= <-]. constructor.
  - destruct (vs_field st) as [k |] eqn:Hk; [|discriminate].
    destruct (vs_field_keys items) as [ks' |]; [|discriminate].
    intros [= <-]. constructor; [now split | now apply IH].
Qed.

Lemma first_least_spec (l : list (string * Q)) : forall chosen,
  In (first_least chosen l) (chosen :: l)
  /\ Forall (fun x => (snd (first_least chosen l) <= snd x)%Q) (chosen :: l).
Proof.
  induction l as [| x l IH]; intro chosen; cbn [first_least].
  - split; [now left|]. constructor; [lra | constructor].
  - destruct (Qltb (snd x) (snd chosen)) eqn:E; qltb_hyps.
    + destruct (IH x) as [Hin Hall]. split.
      * right. exact Hin.
      * inversion Hall as [| ? ? Hx Hl]; subst.
        constructor; [lra|]. constructor; assumption.
    + destruct (IH chosen) as [Hin Hall]. split.
      * destruct Hin as [<- | Hin]; [now left | right; now right].
      * inversion Hall as [| ? ? Hc Hl]; subst.
        constructor; [exact Hc|]. constructor; [lra | exact Hl].
Qed.

Lemma first_greatest_spec (l : list (string * Q)) : forall chosen,
  In (first_greatest chosen l) (chosen :: l)
  /\ Forall (fun x => (snd x <= snd (first_greatest chosen l))%Q) (chosen :: l).
Proof.
  induction l as [| x l IH]; intro chosen; cbn [first_greatest].
  - split; [now left|]. constructor; [lra | constructor].
  - destruct (Qltb (snd chosen) (snd x)) eqn:E; qltb_hyps.
    + destruct (IH x) as [Hin Hall]. split.
      * right. exact Hin.
      * inversion Hall as [| ? ? Hx Hl]; subst.
        constructor; [lra|]. constructor; assumption.
    + destruct (IH chosen) as [Hin Hall]. split.
      * destruct Hin as [<- | Hin]; [now left | right; now right].
      * inversion Hall as [| ? ? Hc Hl]; subst.
        constructor; [exact Hc|]. constructor; [lra | exact Hl].
Qed.

Lemma last_In {A} (l : list A) (d : A) : l <> [] -> In (last l d) l.
Proof.
  induction l as [| a l IH]; [congruence|]. intros _.
  destruct l as [| b l]; [now left|].
  right. change (In (last (b :: l) d) (b :: l)). apply IH. discriminate.
Qed.

(** The statistics of a non-empty sector column. *)
Lemma sector_data_within_extremes (col : list (option Q)) (x : Q) (r : list Q)
      (s : pyfloat) (k : option Q) :
  dropna col = x :: r ->
  within_extremes
    {| best := fold_left Qmin r x;
       worst := fold_left Qmax r x;
       average := Qsum (x :: r) / inject_Z (Z.of_nat (List.length (x :: r)));
       current := last col None;
       consistency := s;
       vs_field := k |}.
Proof.
  intro E. unfold within_extremes. cbn [best worst current].
  destruct (fold_Qmin_least r x) as [_ Hmin].
  destruct (fold_Qmax_greatest r x) as [Hx Hr].
  assert (Hlo : Forall (fun y => (fold_left Qmin r x <= y)%Q) (x :: r))
    by (apply Forall_forall; exact Hmin).
  assert (Hhi : Forall (fun y => (y <= fold_left Qmax r x)%Q) (x :: r))
    by (constructor; assumption).
  set (lo := fold_left Qmin r x) in *.
  set (hi := fold_left Qmax r x) in *.
  rewrite Forall_forall in Hlo, Hhi.
  split.
  - assert (Hin : In x (x :: r)) by now left.
    specialize (Hlo x Hin). specialize (Hhi x Hin). lra.
  - intros c Hc.
    assert (Hin : In c (x :: r)).
    { rewrite <- E. apply dropna_In. rewrite <- Hc. apply last_In.
      intros ->. discriminate E. }
    split; [now apply Hlo | now apply Hhi].
Qed.

(** What [analyze_sector_performance] answers: the error for too few laps,
    or the sectors with consistent extremes, each with its field-relative
    time, and the first least and first greatest of these. *)
Lemma analyze_sector_performance_shape (df : DataFrame) (v cur : Z) :
  analyze_sector_performance std df v cur = Found (Error "Insufficient data")
  \/ exists items ks,
       vs_field_keys items = Found ks
       /\ Forall (fun it => within_extremes (snd it)) items
       /\ analyze_sector_performance std df v cur
          = Found (Dict {| sector_stats := items;
                           strongest_sector :=
                             match ks with
                             | [] => None
                             | k :: r => Some (fst (first_least k r))
                             end;
                           weakest_sector :=
                             match ks with
                             | [] => None
                             | k :: r => Some (fst (first_greatest k r))
                             end |}).
Proof.
  unfold analyze_sector_performance. cbv zeta.
  destruct (List.length (laps_until df v cur) <? 3)%nat; [now left | right].
  set (vl := laps_until df v cur).
  set (all := filter (fun r => LAP_NUMBER r <=? cur) (rows df)).
  match goal with
  | |- context [@flat_map _ (string * Q)%type ?f sector_names] =>
      set (field := flat_map f sector_names)
  end.
  match goal with
  | |- context [@flat_map _ (string * SectorStats)%type ?f sector_names] =>
      set (raw := flat_map f sector_names)
  end.
  match goal with
  | |- context [map ?f raw] => set (upd := f)
  end.
  assert (Hsub : forall r, In r vl -> In r all).
  { intros r Hr. unfold vl, laps_until in Hr. apply filter_In in Hr.
    destruct Hr as [Hr Hc]. apply andb_prop in Hc.
    unfold all. apply filter_In. split; [exact Hr | apply Hc]. }
  assert (Hraw : Forall (fun it => within_extremes (snd it)
                                   /\ exists f, field_average field (fst it)
                                                = Some f) raw).
  { apply Forall_forall. intros it Hit. unfold raw in Hit.
    apply in_flat_map in Hit. destruct Hit as (sector & Hsec & Hit).
    destruct (existsb (String.eqb (fst sector)) (columns df)) eqn:Hcol;
      [|destruct Hit].
    destruct (dropna (map (snd sector) vl)) as [| x r] eqn:E; [destruct Hit|].
    destruct Hit as [<- | []]. cbn [fst snd]. split.
    - now apply sector_data_within_extremes.
    - assert (Hx : In x (dropna (map (snd sector) all))).
      { apply dropna_In.
        assert (Hv : In (Some x) (map (snd sector) vl))
          by (apply dropna_In; rewrite E; now left).
        apply in_map_iff in Hv. destruct Hv as (row & Hrow & Hin).
        apply in_map_iff. exists row. split; [exact Hrow | now apply Hsub]. }
      destruct (dropna (map (snd sector) all)) as [| y l] eqn:F; [destruct Hx|].
      apply (field_average_In field (fst sector)
               (Qsum (y :: l) / inject_Z (Z.of_nat (List.length (y :: l))))).
      unfold field. apply in_flat_map. exists sector. split; [exact Hsec|].
      rewrite Hcol. fold all. rewrite F. now left. }
  assert (Hupd : Forall (fun it => within_extremes (snd it)
                                   /\ exists k, vs_field (snd it) = Some k)
                        (map upd raw)).
  { apply Forall_map. eapply Forall_impl; [|exact Hraw].
    intros [name st] (Hw & f & Hf). unfold upd. cbn [fst snd] in *.
    rewrite Hf. cbn [snd vs_field]. split; [|eauto].
    exact Hw. }
  destruct (vs_field_keys_total (map upd raw)) as (ks & Hks & _).
  { eapply Forall_impl; [|exact Hupd]. now intros it [_ H]. }
  exists (map upd raw), ks. split; [exact Hks|]. split.
  { eapply Forall_impl; [|exact Hupd]. now intros it [H _]. }
  rewrite Hks. destruct ks; reflexivity.
Qed.

(** X26: [analyze_sector_performance] never fails on a missing 'vs_field'
    key, and in every sector it lists the best time is not above the worst,
    and the current time, when the last lap has one, lies between them. *)
Theorem sector_statistics_are_consistent (df : DataFrame) (v cur : Z) :
  analyze_sector_performance std df v cur <> MissingKey
  /\ forall p,
       analyze_sector_performance std df v cur = Found (Dict p) ->
       Forall (fun it => within_extremes (snd it)) (sector_stats p).
Proof.
  destruct (analyze_sector_performance_shape df v cur)
    as [-> | (items & ks & _ & Hall & ->)].
  - split; [discriminate | intros p; discriminate].
  - split; [discriminate|]. intros p [= <-]. exact Hall.
Qed.

(** X27: the strongest and the weakest sector are named exactly when some
    sector is listed; they are listed sectors, and no listed sector has a
    field-relative time below the strongest's or above the weakest's. *)
Theorem strongest_and_weakest_bound_the_sectors
        (df : DataFrame) (v cur : Z) (p : SectorPerformance) :
  analyze_sector_performance std df v cur = Found (Dict p) ->
  match sector_stats p with
  | [] => strongest_sector p = None /\ weakest_sector p = None
  | _ :: _ =>
      exists s w ks kw,
        strongest_sector p = Some s /\ weakest_sector p = Some w
        /\ listed_vs_field p s ks /\ listed_vs_field p w kw
        /\ forall name k, listed_vs_field p name k -> (ks <= k <= kw)%Q
  end.
Proof.
  destruct (analyze_sector_performance_shape df v cur)
    as [-> | (items & ks & Hks & _ & ->)]; [discriminate|].
  intros [= <-]. cbn [sector_stats strongest_sector weakest_sector].
  apply vs_field_keys_found in Hks.
  destruct Hks as [| it k items ks Hk Hrest]; [now split|].
  assert (Hall : Forall2 (fun it k => fst k = fst it
                                      /\ vs_field (snd it) = Some (snd k))
                         (it :: items) (k :: ks))
    by (constructor; assumption).
  assert (Hlisted : forall x, In x (k :: ks) ->
             listed_vs_field
               {| sector_stats := it :: items;
                  strongest_sector := Some (fst (first_least k ks));
                  weakest_sector := Some (fst (first_greatest k ks)) |}
               (fst x) (snd x)).
  { clear - Hall. induction Hall as [| i y its ys [Hn Hv] _ IH]; intros x [].
    - subst x. exists (snd i). split; [|exact Hv].
      rewrite Hn. destruct i. now left.
    - destruct (IH x H) as (st & Hin & Hst). exists st.
      split; [right; exact Hin | exact Hst]. }
  assert (Hkeys : forall name q,
             listed_vs_field
               {| sector_stats := it :: items;
                  strongest_sector := Some (fst (first_least k ks));
                  weakest_sector := Some (fst (first_greatest k ks)) |}
               name q ->
             exists x, In x (k :: ks) /\ snd x = q).
  { clear - Hall. intros name q (st & Hin & Hst). cbn [sector_stats] in Hin.
    induction Hall as [| i y its ys [Hn Hv] _ IH]; [destruct Hin|].
    destruct Hin as [-> | Hin].
    - exists y. split; [now left|]. cbn [snd] in Hv. congruence.
    - destruct (IH Hin) as (x & Hx & Hq). exists x. split; [now right | exact Hq]. }
  destruct (first_least_spec ks k) as [Hlin Hlall].
  destruct (first_greatest_spec ks k) as [Hgin Hgall].
  exists (fst (first_least k ks)), (fst (first_greatest k ks)),
    (snd (first_least k ks)), (snd (first_greatest k ks)).
  repeat split; try (now apply Hlisted).
  - destruct (Hkeys _ _ H) as (x & Hx & <-).
    rewrite Forall_forall in Hlall. now apply Hlall.
  - destruct (Hkeys _ _ H) as (x & Hx & <-).
    rewrite Forall_forall in Hgall. now apply Hgall.
Qed.

End SectorPerformanceFacts.

Lemma strongest_and_weakest_bound_the_sectors_witness :
  exists p s w ks kw,
    RaceStrategyAnalyzer.analyze_sector_performance no_sector_spread
      steady_stint 13 14
    = RaceStrategyAnalyzer.Found (RaceStrategyAnalyzer.Dict p)
    /\ RaceStrategyAnalyzer.strongest_sector p = Some s
    /\ RaceStrategyAnalyzer.weakest_sector p = Some w
    /\ listed_vs_field p s ks /\ listed_vs_field p w kw
    /\ forall name k, listed_vs_field p name k -> (ks <= k <= kw)%Q.
Proof.
  eexists.
  pose proof (strongest_and_weakest_bound_the_sectors no_sector_spread
                steady_stint 13 14 _ ltac:(vm_compute; reflexivity)) as H.
  cbn [RaceStrategyAnalyzer.sector_stats] in H.
  destruct H as (s & w & ks & kw & H).
  exists s, w, ks, kw. split; [vm_compute; reflexivity | exact H].
Defined.

Lemma sector_statistics_are_consistent_witness :
  exists p,
    RaceStrategyAnalyzer.analyze_sector_performance no_sector_spread
      steady_stint 13 14
    = RaceStrategyAnalyzer.Found (RaceStrategyAnalyzer.Dict p)
    /\ Forall (fun it => within_extremes (snd it))
              (RaceStrategyAnalyzer.sector_stats p).
Proof.
  eexists. split; [vm_compute; reflexivity|].
  apply (proj2 (sector_statistics_are_consistent no_sector_spread
                  steady_stint 13 14)).
  vm_compute. reflexivity.
Defined.

(** ** The third lap-time parser (src/telemetry_processor.py) *)

Section SentinelParser.
Import Py.
Local Open Scope string_scope.
Local Open Scope Z_scope.

Lemma split_length_contains (sep : ascii) (s : string) :
  contains sep s = true -> (2 <= List.length (split sep s))%nat.
Proof.
  induction s as [| c s IH]; cbn [contains split]; [discriminate|].
  destruct (Ascii.eqb c sep); cbn [orb].
  - intros _. cbn [List.length].
    destruct (split sep s) eqn:E; cbn [List.length]; [|lia].
    destruct s; cbn in E; [discriminate|].
    destruct (Ascii.eqb _ sep); [discriminate|].
    destruct (split sep s); discriminate.
  - intro H. specialize (IH H).
    destruct (split sep s); cbn [List.length] in *; lia.
Qed.

(** X28: on a value whose text has at most one colon, the telemetry
    processor's [parse_lap_time] gives what the strategy analyzer's
    [parse_time] gives, with 999999 where that one gives None. *)
Theorem parse_lap_time_is_parse_time_with_sentinel (t : pyval) :
  at_most_one_colon t ->
  TelemetryProcessor.parse_lap_time t
  = or_sentinel (RaceStrategyAnalyzer.parse_time t).
Proof.
  unfold TelemetryProcessor.parse_lap_time, RaceStrategyAnalyzer.parse_time,
    RaceStrategyAnalyzer.has_colon, RaceStrategyAnalyzer.str_parts,
    at_most_one_colon.
  destruct t as [| z | f | s]; intro H; try reflexivity.
  destruct (contains ":"%char s) eqn:C.
  - pose proof (split_length_contains _ _ C) as L.
    assert (E : List.length (split ":"%char s) = 2%nat) by lia.
    rewrite E. cbn [Nat.eqb].
    destruct (item (split ":"%char s) 0) as [p0 | e]; cbn [bind try_except];
      [|reflexivity].
    destruct (float_of_str p0) as [a | e]; cbn [bind try_except or_sentinel];
      [|reflexivity].
    destruct (item (split ":"%char s) 1) as [p1 | e]; cbn [bind try_except];
      [|reflexivity].
    destruct (float_of_str p1) as [b | e]; reflexivity.
  - rewrite (contains_split _ _ C). cbn [List.length Nat.eqb float_of].
    destruct (float_of_str s); reflexivity.
Qed.

Lemma parse_lap_time_is_parse_time_with_sentinel_witness :
  TelemetryProcessor.parse_lap_time (VStr "1:36.500")
  = or_sentinel (RaceStrategyAnalyzer.parse_time (VStr "1:36.500")).
Proof.
  apply (parse_lap_time_is_parse_time_with_sentinel (VStr "1:36.500")).
  cbn. lia.
Defined.

End SentinelParser.

(** ** The export for the frontend (src/telemetry_processor.py) *)

Section FrontendExport.
Import Py TelemetryFrame.
Local Open Scope string_scope.
Local Open Scope Z_scope.

Lemma frontend_record_cases (t : Frame) (i : nat) :
  match frontend_record t i with
  | Ok _ => exists q, gear_cell t i = Fin q
  | Raise e => e = ValueError /\ gear_cell t i = NaN
  end.
Proof.
  unfold frontend_record. cbv zeta. fold (gear_cell t i).
  assert (H : (exists q, gear_cell t i = Fin q) \/ gear_cell t i = NaN).
  { unfold gear_cell, row_get.
    destruct (column (numeric t) "gear") as [col |].
    - destruct (nth_error col i) as [[q |] |]; eauto.
    - destruct (column (numeric t) "Gear") as [col |].
      + destruct (nth_error col i) as [[q |] |]; eauto.
      + eauto. }
  destruct H as [(q & ->) | ->]; cbn [int_of_float bind]; eauto.
Qed.

Lemma records_of_cases (t : Frame) (indices : list nat) :
  match records_of t indices with
  | Ok records =>
      List.length records = List.length indices
      /\ Forall (fun i => exists q, gear_cell t i = Fin q) indices
  | Raise e =>
      e = ValueError /\ exists i, In i indices /\ gear_cell t i = NaN
  end.
Proof.
  induction indices as [| i r IH]; cbn [records_of].
  - split; [reflexivity | constructor].
  - pose proof (frontend_record_cases t i) as Hi.
    destruct (frontend_record t i) as [record | e]; cbn [bind].
    + destruct (records_of t r) as [records | e]; cbn [bind].
      * destruct IH as [Hl Hall]. split; [cbn; now f_equal|].
        now constructor.
      * destruct IH as (-> & j & Hj & Hg). split; [reflexivity|].
        exists j. split; [now right | exact Hg].
    + destruct Hi as [-> Hg]. split; [reflexivity|].
      exists i. split; [now left | exact Hg].
Qed.

(** X29: [export_for_frontend] fails only by a ValueError, and exactly when
    the gear cell of some row is missing; otherwise it returns one record
    per row, every other missing cell being exported as NaN. *)
Theorem export_fails_only_on_missing_gear (telemetry : Frame) :
  match export_for_frontend telemetry with
  | Ok records =>
      List.length records = n_rows telemetry
      /\ forall i, (i < n_rows telemetry)%nat ->
                   exists q, gear_cell telemetry i = Fin q
  | Raise e =>
      e = ValueError
      /\ exists i, (i < n_rows telemetry)%nat /\ gear_cell telemetry i = NaN
  end.
Proof.
  unfold export_for_frontend.
  destruct (Nat.eqb_spec (n_rows telemetry) 0) as [Hz | Hnz]; cbn [orb].
  - rewrite Hz. split; [reflexivity | intros i Hi; lia].
  - assert (Hcols : match meta_time telemetry, numeric telemetry with
                    | None, [] => true
                    | _, _ => false
                    end = false).
    { unfold n_rows in Hnz.
      destruct (meta_time telemetry); [reflexivity|].
      destruct (numeric telemetry); [congruence | reflexivity]. }
    rewrite Hcols.
    pose proof (records_of_cases telemetry (seq 0 (n_rows telemetry))) as H.
    destruct (records_of telemetry (seq 0 (n_rows telemetry))) as [records | e].
    + destruct H as [Hl Hall]. rewrite length_seq in Hl.
      split; [exact Hl|]. intros i Hi.
      rewrite Forall_forall in Hall. apply Hall. apply in_seq. lia.
    + destruct H as (-> & i & Hi & Hg). split; [reflexivity|].
      exists i. apply in_seq in Hi. split; [lia | exact Hg].
Qed.

End FrontendExport.
